(** * OBD dashboard: gauge rendering and live-value update protocol

    A shallow embedding of [dashboard.py] (the customtkinter dashboard),
    with the places where [obd_dashboard_gui.py] (the PyQt5 dashboard)
    differs embedded next to it in [Module QtGui].  The readers of the
    legacy copy [obd_dashboard_gui_backup.py], the helper of [get_data.py]
    and the catalog loader of [read_json.py] have modules of their own.

    Modelling conventions.
    - Python numbers are exact rationals ([Q]); an [int] is a rational with
      denominator one.  The rounding of binary64 arithmetic is not
      modelled: an arithmetic result of the embedding is the result of the
      code where the exact result is itself a binary64 number
      ([is_binary64]), and the properties that depend on it say so.
    - A Python value that may be [None] is a [PyVal].
    - Code that mutates [self] and may raise is a state-and-exception
      computation [M S A]: the state reached when the exception escapes is
      kept, as in Python.
    - The adapter ([obd_connection.query]) and [random] are inputs of a
      tick: a [Connection] gives the outcome of each query, a [Draws]
      record gives the numbers drawn.
    - [math.radians], [cos] and [sin] are not modelled: the geometry
      records the angles in degrees that the code hands to them. *)

From Stdlib Require Import QArith Qabs Qround ZArith List Bool Lia Lqa.
From stdpp Require Import base strings gmap.

Import ListNotations.
Local Open Scope Q_scope.

(** ** Python values, exceptions and arithmetic *)

(** A value that the dashboard passes around: [None] or a number. *)
Inductive PyVal : Type :=
| VNone
| VNum (q : Q).

(** The exceptions that the code can meet.  [AdapterError] stands for the
    errors of class [Exception] that the OBD library raises;
    [KeyboardInterrupt] is not of class [Exception] (nor are [SystemExit]
    and [GeneratorExit], for which it stands as well). *)
Inductive PyExc : Type :=
| TypeError
| ZeroDivisionError
| KeyError
| AdapterError
| KeyboardInterrupt.

(** [isinstance(e, Exception)] *)
Definition is_Exception (e : PyExc) : bool :=
  match e with
  | KeyboardInterrupt => false
  | TypeError | ZeroDivisionError | KeyError | AdapterError => true
  end.

(** The outcome of running Python code: a result, or a raised exception. *)
Inductive Exc (A : Type) : Type :=
| Ok (a : A)
| Raise (e : PyExc).
Arguments Ok {A} a.
Arguments Raise {A} e.

(** [try: body / except: handler] at the level of outcomes: the bare
    [except:] catches every exception. *)
Definition try_except {A : Type} (body : Exc A) (handler : PyExc -> Exc A)
    : Exc A :=
  match body with
  | Ok a => Ok a
  | Raise e => handler e
  end.

(** [try: body / except Exception as e: handler]: an exception that is
    not of class [Exception] is not caught. *)
Definition try_except_Exception {A : Type} (body : Exc A)
    (handler : PyExc -> Exc A) : Exc A :=
  match body with
  | Ok a => Ok a
  | Raise e => if is_Exception e then handler e else Raise e
  end.

(** [a > b] on numbers. *)
Definition py_gt (a b : Q) : bool := negb (Qle_bool a b).

(** [max(a, b)] keeps its first argument unless the second is greater. *)
Definition py_max (a b : Q) : Q := if py_gt b a then b else a.

(** [min(a, b)] keeps its first argument unless the second is smaller. *)
Definition py_min (a b : Q) : Q := if py_gt a b then b else a.

(** [int(x)]: truncation toward zero. *)
Definition py_int (x : Q) : Z := Z.quot (Qnum x) (Z.pos (Qden x)).

(** [a / b]: true division, raising on a zero divisor. *)
Definition py_truediv (a b : Q) : Exc Q :=
  if Qeq_bool b 0 then Raise ZeroDivisionError else Ok (a / b).

(** [a // b] and [a % b] for a positive constant [b]. *)
Definition py_floordiv (a b : Q) : Q := inject_Z (Qfloor (a / b)).
Definition py_mod (a b : Q) : Q := a - b * py_floordiv a b.

(** A binary64 number of magnitude below 2^53: [m / 2^k] in lowest terms
    with [|m| < 2^53] and [k <= 1074]. *)
Definition is_binary64 (q : Q) : bool :=
  let r := Qred q in
  let k := Z.log2 (Z.pos (Qden r)) in
  Z.eqb (Z.pos (Qden r)) (2 ^ k) && Z.leb k 1074
  && Z.ltb (Z.abs (Qnum r)) (2 ^ 53).

(** The binary64 subtraction [a - b] is exact: both numbers are binary64
    numbers, and so is their difference. *)
Definition exact_difference (a b : Q) : Prop :=
  is_binary64 a = true /\ is_binary64 b = true /\
  is_binary64 (a - b) = true.

(** Truth value of a [PyVal]: [None] and [0] are false. *)
Definition truthy (v : PyVal) : bool :=
  match v with
  | VNone => false
  | VNum q => negb (Qeq_bool q 0)
  end.

(** ** State-and-exception computations *)

Definition M (S A : Type) : Type := S -> Exc A * S.

Definition ret {S A : Type} (a : A) : M S A := fun s => (Ok a, s).

Definition bind {S A B : Type} (m : M S A) (k : A -> M S B) : M S B :=
  fun s =>
    match m s with
    | (Ok a, s') => k a s'
    | (Raise e, s') => (Raise e, s')
    end.

Definition raise {S A : Type} (e : PyExc) : M S A := fun s => (Raise e, s).

Definition get {S : Type} : M S S := fun s => (Ok s, s).

Definition put {S : Type} (s : S) : M S unit := fun _ => (Ok tt, s).

Definition lift {S A : Type} (r : Exc A) : M S A := fun s => (r, s).

(** A value that must be a number where it is used: arithmetic, comparison
    with a number, [int()] and numeric formatting raise [TypeError] on
    [None]. *)
Definition need_num {S : Type} (v : PyVal) : M S Q :=
  match v with
  | VNone => raise TypeError
  | VNum q => ret q
  end.

Declare Scope py_scope.
Delimit Scope py_scope with py.
Notation "'let!' x ':=' m 'in' k" := (bind m (fun x => k))
  (at level 10, x name, m at level 100, k at level 200) : py_scope.
Notation "m '>>' k" := (bind m (fun _ => k))
  (at level 190, right associativity) : py_scope.
Local Open Scope py_scope.

(** ** GaugeWidget ([dashboard.py]) *)

(** What one call of [draw] puts on the canvas: the extent of the active
    arc (degrees, negative is clockwise), the nine scale marks (angle in
    degrees, label), the needle angle (degrees) and the number printed in
    the centre. *)
Record Geometry : Type := {
  extent : Q;
  marks : list (Q * Z);
  needle : Q;
  text : Z
}.

(** The fields of a [GaugeWidget] that the drawing code reads or writes.
    [canvas] lists the completed renders, most recent first. *)
Record GaugeWidget : Type := {
  min_val : Q;
  max_val : Q;
  value : Q;
  _last_drawn_value : option Q;
  canvas : list Geometry
}.

(** [_draw_marks]: mark [i] of [range(9)]. *)
Definition mark_angle (i : nat) : Q := 225 - (270 * inject_Z (Z.of_nat i) / 8).

Definition mark_val (self : GaugeWidget) (i : nat) : Q :=
  min_val self + (max_val self - min_val self) * inject_Z (Z.of_nat i) / 8.

Definition _draw_marks (self : GaugeWidget) : list (Q * Z) :=
  map (fun i => (mark_angle i, py_int (mark_val self i))) (seq 0 9).

(** [_draw_needle]: the angle of the needle. *)
Definition _draw_needle (ratio : Q) : Q := 225 - (270 * ratio).

Definition draw : M GaugeWidget unit :=
  let! self := get in
  let! ratio := lift (py_truediv (value self - min_val self)
                                 (max_val self - min_val self)) in
  let extent := -270 * ratio in
  put {| min_val := min_val self;
         max_val := max_val self;
         value := value self;
         _last_drawn_value := _last_drawn_value self;
         canvas := {| extent := extent;
                      marks := _draw_marks self;
                      needle := _draw_needle ratio;
                      text := py_int (value self) |} :: canvas self |}.

(** The clamp of [set_value]. *)
Definition clamp (self : GaugeWidget) (val : Q) : Q :=
  py_max (min_val self) (py_min (max_val self) val).

(** The redraw test of [set_value].  The difference is the exact one: it
    is the [new_val - last] of the code whenever
    [exact_difference new_val last]. *)
Definition must_redraw (self : GaugeWidget) (new_val : Q) : bool :=
  match _last_drawn_value self with
  | None => true
  | Some last => py_gt (Qabs (new_val - last)) (1#2)
  end.

Definition set_value (val : PyVal) : M GaugeWidget unit :=
  let! self := get in
  let! v := need_num val in
  let new_val := clamp self v in
  if must_redraw self new_val then
    put {| min_val := min_val self;
           max_val := max_val self;
           value := new_val;
           _last_drawn_value := Some new_val;
           canvas := canvas self |} >>
    draw
  else ret tt.

(** [GaugeWidget.__init__]: the value starts at 0, nothing has been drawn,
    and the gauge is drawn once. *)
Definition GaugeWidget_init (min_val max_val : Q) : Exc unit * GaugeWidget :=
  draw {| min_val := min_val;
          max_val := max_val;
          value := 0;
          _last_drawn_value := None;
          canvas := [] |}.

(** Number of renders a computation adds to the canvas of [g]. *)
Definition redraws (g : GaugeWidget) (m : M GaugeWidget unit) : nat :=
  (length (canvas (snd (m g))) - length (canvas g))%nat.

(** The invariant of a gauge specification. *)
Definition spec_ok (g : GaugeWidget) : Prop := min_val g < max_val g.

(** The invariant of a render state: once something was drawn by
    [set_value], the stored value is the last drawn value and lies in the
    range. *)
Definition render_ok (g : GaugeWidget) : Prop :=
  spec_ok g /\
  match _last_drawn_value g with
  | None => True
  | Some last => value g = last /\ min_val g <= last <= max_val g
  end.

(** A render lies on the gauge arc. *)
Definition on_arc (geo : Geometry) : Prop :=
  -270 <= extent geo <= 0 /\ 225 - 270 <= needle geo <= 225.

(** The ratio that [draw] computes. *)
Definition ratio_of (g : GaugeWidget) : Q :=
  (value g - min_val g) / (max_val g - min_val g).

(** The render of a gauge whose specification is sound. *)
Definition render (g : GaugeWidget) : Geometry :=
  {| extent := -270 * ratio_of g;
     marks := _draw_marks g;
     needle := _draw_needle (ratio_of g);
     text := py_int (value g) |}.

Definition with_render (g : GaugeWidget) : GaugeWidget :=
  {| min_val := min_val g;
     max_val := max_val g;
     value := value g;
     _last_drawn_value := _last_drawn_value g;
     canvas := render g :: canvas g |}.

Definition with_value (g : GaugeWidget) (new_val : Q) : GaugeWidget :=
  {| min_val := min_val g;
     max_val := max_val g;
     value := new_val;
     _last_drawn_value := Some new_val;
     canvas := canvas g |}.


(** ** The adapter and the command catalog *)

(** A command object of the OBD library ([obd.commands.<name>]), or the
    [None] that [dict.get] gives for an absent key. *)
Inductive PyCommand : Type :=
| CmdNone
| Cmd (name : string).

Module OBD.

(** The value of a response of a numeric sensor: a quantity with a
    [magnitude], or a bare number. *)
Inductive Value : Type :=
| Quantity (magnitude : Q)
| Number (n : Q).

Record Response : Type := {
  is_null : bool;
  value : Value
}.

(** The behaviour of [obd_connection.query] during one tick or action:
    a response, or an exception. *)
Record Connection : Type := {
  query : PyCommand -> Exc Response
}.

End OBD.

(** [k in d], [d[k]] and [d.get(k)] on the catalog. *)
Definition dict_contains (d : gmap string PyCommand) (k : string) : bool :=
  match d !! k with
  | Some _ => true
  | None => false
  end.

Definition dict_getitem (d : gmap string PyCommand) (k : string)
    : Exc PyCommand :=
  match d !! k with
  | Some c => Ok c
  | None => Raise KeyError
  end.

Definition dict_get (d : gmap string PyCommand) (k : string) : PyCommand :=
  match d !! k with
  | Some c => c
  | None => CmdNone
  end.

(** ** The command catalog ([read_json.py]) *)

Module ReadJson.

(** What can go wrong while the catalog is loaded: the file cannot be
    opened, it is not JSON, or [obd.commands] has no attribute of the
    name. *)
Inductive LoadError : Type :=
| OSError
| JSONDecodeError
| AttributeError.

Inductive Loaded (A : Type) : Type :=
| Done (a : A)
| Failed (e : LoadError).
Arguments Done {A} a.
Arguments Failed {A} e.

(** [getattr(obd.commands, obd_cmd_name)]; [known] tells which names
    [obd.commands] has. *)
Definition getattr (known : string -> bool) (obd_cmd_name : string)
    : Loaded PyCommand :=
  if known obd_cmd_name then Done (Cmd obd_cmd_name)
  else Failed AttributeError.

(** The loop of [load_commands] over the items of [commands_map]. *)
Fixpoint load_items (known : string -> bool)
    (items : list (string * string)) (commands : gmap string PyCommand)
    : Loaded (gmap string PyCommand) :=
  match items with
  | [] => Done commands
  | (cmd_name, obd_cmd_name) :: rest =>
      match getattr known obd_cmd_name with
      | Done command =>
          load_items known rest (<[cmd_name := command]> commands)
      | Failed e => Failed e
      end
  end.

(** [load_commands()]; [file] is the outcome of opening and parsing
    [data/commands.json]: the dict of the JSON object, or an error. *)
Definition load_commands (known : string -> bool)
    (file : Loaded (gmap string string))
    : Loaded (gmap string PyCommand) :=
  match file with
  | Failed e => Failed e
  | Done commands_map => load_items known (map_to_list commands_map) ∅
  end.

(** [get_command(command_name)]: [None] for a name that is not in the
    file. *)
Definition get_command (known : string -> bool)
    (file : Loaded (gmap string string)) (command_name : string)
    : Loaded (option PyCommand) :=
  match file with
  | Failed e => Failed e
  | Done commands_map =>
      match commands_map !! command_name with
      | Some obd_cmd_name =>
          match getattr known obd_cmd_name with
          | Done command => Done (Some command)
          | Failed e => Failed e
          end
      | None => Done None
      end
  end.

End ReadJson.

(** Sequencing of outcomes. *)
Definition and_then {A B : Type} (r : Exc A) (k : A -> Exc B) : Exc B :=
  match r with
  | Ok a => k a
  | Raise e => Raise e
  end.

(** [read_obd_data(command)], with the module-level [obd_connection] as
    an argument. *)
Definition read_obd_data (obd_connection : option OBD.Connection)
    (command : PyCommand) : Exc (option OBD.Value) :=
  match obd_connection with
  | None => Ok None
  | Some conn =>
      try_except
        (and_then (OBD.query conn command) (fun response =>
           Ok (if negb (OBD.is_null response)
               then Some (OBD.value response)
               else None)))
        (fun _ => Ok None)
  end.

(** [result.magnitude if hasattr(result, 'magnitude') else result] *)
Definition magnitude_or_self (result : OBD.Value) : Q :=
  match result with
  | OBD.Quantity m => m
  | OBD.Number n => n
  end.

(** ** OBDDashboard ([dashboard.py]) *)

(** The nine gauges, by attribute name. *)
Inductive GaugeId : Type :=
| speed | rpm | throttle
| coolant | intake_t | oil
| fuel_p | fuel_r | intake_p.

Definition GaugeId_eqb (a b : GaugeId) : bool :=
  match a, b with
  | speed, speed | rpm, rpm | throttle, throttle
  | coolant, coolant | intake_t, intake_t | oil, oil
  | fuel_p, fuel_p | fuel_r, fuel_r | intake_p, intake_p => true
  | _, _ => false
  end.

(** What the labels and progress bars show.  The number shown is kept,
    not its text; a clock label keeps hours, minutes and seconds. *)
Record Labels : Type := {
  load_lbl : Z;
  load_bar : Q;
  timing : Q;
  runtime_lbl : Z * Z * Z;
  maf_lbl : Q;
  maf_bar : Q;
  max_maf : Q;
  dist_lbl : Q;
  time_lbl : Z * Z * Z
}.

Record OBDDashboard : Type := {
  use_sim : bool;
  commands : gmap string PyCommand;
  runtime : Q;
  dist_dtc : Q;
  time_dtc : Q;
  gauges : GaugeId -> GaugeWidget;
  labels : Labels
}.

(** Attribute assignments. *)
Definition set_runtime (x : Q) (self : OBDDashboard) : OBDDashboard :=
  {| use_sim := use_sim self; commands := commands self;
     runtime := x; dist_dtc := dist_dtc self; time_dtc := time_dtc self;
     gauges := gauges self; labels := labels self |}.

Definition set_dist_dtc (x : Q) (self : OBDDashboard) : OBDDashboard :=
  {| use_sim := use_sim self; commands := commands self;
     runtime := runtime self; dist_dtc := x; time_dtc := time_dtc self;
     gauges := gauges self; labels := labels self |}.

Definition set_time_dtc (x : Q) (self : OBDDashboard) : OBDDashboard :=
  {| use_sim := use_sim self; commands := commands self;
     runtime := runtime self; dist_dtc := dist_dtc self; time_dtc := x;
     gauges := gauges self; labels := labels self |}.

Definition set_gauge (id : GaugeId) (g : GaugeWidget) (self : OBDDashboard)
    : OBDDashboard :=
  {| use_sim := use_sim self; commands := commands self;
     runtime := runtime self; dist_dtc := dist_dtc self;
     time_dtc := time_dtc self;
     gauges := fun j => if GaugeId_eqb id j then g else gauges self j;
     labels := labels self |}.

Definition set_labels (l : Labels) (self : OBDDashboard) : OBDDashboard :=
  {| use_sim := use_sim self; commands := commands self;
     runtime := runtime self; dist_dtc := dist_dtc self;
     time_dtc := time_dtc self; gauges := gauges self; labels := l |}.

Definition show_load_lbl (x : Z) (l : Labels) : Labels :=
  {| load_lbl := x; load_bar := load_bar l; timing := timing l;
     runtime_lbl := runtime_lbl l; maf_lbl := maf_lbl l; maf_bar := maf_bar l;
     max_maf := max_maf l; dist_lbl := dist_lbl l; time_lbl := time_lbl l |}.

Definition show_load_bar (x : Q) (l : Labels) : Labels :=
  {| load_lbl := load_lbl l; load_bar := x; timing := timing l;
     runtime_lbl := runtime_lbl l; maf_lbl := maf_lbl l; maf_bar := maf_bar l;
     max_maf := max_maf l; dist_lbl := dist_lbl l; time_lbl := time_lbl l |}.

Definition show_timing (x : Q) (l : Labels) : Labels :=
  {| load_lbl := load_lbl l; load_bar := load_bar l; timing := x;
     runtime_lbl := runtime_lbl l; maf_lbl := maf_lbl l; maf_bar := maf_bar l;
     max_maf := max_maf l; dist_lbl := dist_lbl l; time_lbl := time_lbl l |}.

Definition show_runtime_lbl (x : Z * Z * Z) (l : Labels) : Labels :=
  {| load_lbl := load_lbl l; load_bar := load_bar l; timing := timing l;
     runtime_lbl := x; maf_lbl := maf_lbl l; maf_bar := maf_bar l;
     max_maf := max_maf l; dist_lbl := dist_lbl l; time_lbl := time_lbl l |}.

Definition show_maf_lbl (x : Q) (l : Labels) : Labels :=
  {| load_lbl := load_lbl l; load_bar := load_bar l; timing := timing l;
     runtime_lbl := runtime_lbl l; maf_lbl := x; maf_bar := maf_bar l;
     max_maf := max_maf l; dist_lbl := dist_lbl l; time_lbl := time_lbl l |}.

Definition show_maf_bar (x : Q) (l : Labels) : Labels :=
  {| load_lbl := load_lbl l; load_bar := load_bar l; timing := timing l;
     runtime_lbl := runtime_lbl l; maf_lbl := maf_lbl l; maf_bar := x;
     max_maf := max_maf l; dist_lbl := dist_lbl l; time_lbl := time_lbl l |}.

Definition show_max_maf (x : Q) (l : Labels) : Labels :=
  {| load_lbl := load_lbl l; load_bar := load_bar l; timing := timing l;
     runtime_lbl := runtime_lbl l; maf_lbl := maf_lbl l; maf_bar := maf_bar l;
     max_maf := x; dist_lbl := dist_lbl l; time_lbl := time_lbl l |}.

Definition show_dist_lbl (x : Q) (l : Labels) : Labels :=
  {| load_lbl := load_lbl l; load_bar := load_bar l; timing := timing l;
     runtime_lbl := runtime_lbl l; maf_lbl := maf_lbl l; maf_bar := maf_bar l;
     max_maf := max_maf l; dist_lbl := x; time_lbl := time_lbl l |}.

Definition show_time_lbl (x : Z * Z * Z) (l : Labels) : Labels :=
  {| load_lbl := load_lbl l; load_bar := load_bar l; timing := timing l;
     runtime_lbl := runtime_lbl l; maf_lbl := maf_lbl l; maf_bar := maf_bar l;
     max_maf := max_maf l; dist_lbl := dist_lbl l; time_lbl := x |}.

(** State changes as computations. *)
Definition modify {S : Type} (f : S -> S) : M S unit :=
  fun s => (Ok tt, f s).

(** A method call on one of the gauges of the dashboard. *)
Definition on_gauge {A : Type} (id : GaugeId) (m : M GaugeWidget A)
    : M OBDDashboard A :=
  fun self =>
    let (r, g) := m (gauges self id) in
    (r, set_gauge id g self).

(** [configure] or [set] on a label or a bar. *)
Definition configure (f : Labels -> Labels) : M OBDDashboard unit :=
  modify (fun self => set_labels (f (labels self)) self).

(** [try: body / except Exception as e: handler] on computations: the
    state reached by the body is kept, and an exception that is not of
    class [Exception] is not caught. *)
Definition try_catch_Exception {S A : Type} (body : M S A)
    (handler : PyExc -> M S A) : M S A :=
  fun s =>
    match body s with
    | (Ok a, s') => (Ok a, s')
    | (Raise e, s') => if is_Exception e then handler e s' else (Raise e, s')
    end.

(** [_read(cmd, default)].  Inside the [try], [Some v] is the [return] of
    a value and [None] falls through to [return default]. *)
Definition _read (obd_connection : option OBD.Connection)
    (cmd : string) (default : Q) : M OBDDashboard PyVal :=
  let! self := get in
  if use_sim self || negb (dict_contains (commands self) cmd) then ret VNone
  else
    let! returned :=
      lift (try_except
              (and_then (dict_getitem (commands self) cmd) (fun command =>
               and_then (read_obd_data obd_connection command) (fun result =>
                 match result with
                 | Some res => Ok (Some (VNum (magnitude_or_self res)))
                 | None => Ok None
                 end)))
              (fun _ => Ok None)) in
    match returned with
    | Some v => ret v
    | None => ret (VNum default)
    end.

(** The numbers that [random] hands out during one tick. *)
Record Draws : Type := {
  rnd_spd : Z; rnd_r : Z; rnd_thr : Z;
  rnd_ld : Z; rnd_tim : Q;
  rnd_cool : Z; rnd_int_t : Z; rnd_oil : Z;
  rnd_fp : Z; rnd_fr : Q;
  rnd_ip : Z; rnd_maf : Q;
  rnd_dist : Q
}.

(** The bounds of [randint] and [uniform] in [_update]. *)
Definition draws_ok (d : Draws) : Prop :=
  (0 <= rnd_spd d <= 180)%Z /\ (800 <= rnd_r d <= 7000)%Z /\
  (0 <= rnd_thr d <= 100)%Z /\ (10 <= rnd_ld d <= 95)%Z /\
  -10 <= rnd_tim d <= 45 /\
  (70 <= rnd_cool d <= 105)%Z /\ (15 <= rnd_int_t d <= 45)%Z /\
  (80 <= rnd_oil d <= 120)%Z /\ (250 <= rnd_fp d <= 550)%Z /\
  (1#2) <= rnd_fr d <= 25 /\
  (30 <= rnd_ip d <= 120)%Z /\ 2 <= rnd_maf d <= 95 /\
  (1#100) <= rnd_dist d <= (5#100).

(** The local variables that the first block of [_update] assigns. *)
Record Sample : Type := {
  spd : PyVal; r : PyVal; thr : PyVal;
  ld : PyVal; tim : PyVal;
  cool : PyVal; int_t : PyVal; oil_t : PyVal;
  fp : PyVal; fr : PyVal;
  ip : PyVal; maf : PyVal; mmaf : PyVal
}.

Definition of_int (z : Z) : PyVal := VNum (inject_Z z).

(** [int(x // 3600), int((x % 3600) // 60), int(x % 60)] *)
Definition clock (x : Q) : Z * Z * Z :=
  (py_int (py_floordiv x 3600),
   py_int (py_floordiv (py_mod x 3600) 60),
   py_int (py_mod x 60)).

(** [(maf / mmaf) if mmaf > 0 else 0] *)
Definition maf_fraction (maf mmaf : Q) : Exc Q :=
  if py_gt mmaf 0 then py_truediv maf mmaf else Ok 0.

Definition _update (obd_connection : option OBD.Connection) (rnd : Draws)
    : M OBDDashboard unit :=
  let _read := _read obd_connection in
  let! self := get in
  let! v :=
    (if use_sim self then
       ret {| spd := of_int (rnd_spd rnd); r := of_int (rnd_r rnd);
              thr := of_int (rnd_thr rnd);
              ld := of_int (rnd_ld rnd); tim := VNum (rnd_tim rnd);
              cool := of_int (rnd_cool rnd); int_t := of_int (rnd_int_t rnd);
              oil_t := of_int (rnd_oil rnd);
              fp := of_int (rnd_fp rnd); fr := VNum (rnd_fr rnd);
              ip := of_int (rnd_ip rnd); maf := VNum (rnd_maf rnd);
              mmaf := VNum 255 |}
     else
       let! spd := _read "speed" 0 in
       let! r := _read "rpm" 0 in
       let! thr := _read "throttle_pos" 0 in
       let! ld := _read "eng_load" 0 in
       let! tim := _read "timing_advance" 0 in
       let! cool := _read "coolant_temp" 80 in
       let! int_t := _read "intake_temp" 25 in
       let! oil := _read "oil_temp" 90 in
       let! fp := _read "fuel_pressure" 300 in
       let! fr := _read "fuel_rate" 5 in
       let ip := of_int (rnd_ip rnd) in
       let! maf := _read "maf" 10 in
       let! mmaf := _read "max_maf" 255 in
       ret {| spd := spd; r := r; thr := thr; ld := ld; tim := tim;
              cool := cool; int_t := int_t; oil_t := oil;
              fp := fp; fr := fr; ip := ip; maf := maf; mmaf := mmaf |}) in
  on_gauge speed (set_value (spd v)) >>
  on_gauge rpm (set_value (r v)) >>
  on_gauge throttle (set_value (thr v)) >>
  (let! ld := need_num (ld v) in
   configure (show_load_lbl (py_int ld)) >>
   let! frac := lift (py_truediv ld 100) in
   configure (show_load_bar frac)) >>
  (let! tim := need_num (tim v) in
   configure (show_timing tim)) >>
  (if use_sim self then
     modify (fun self => set_runtime (runtime self + (1#10)) self)
   else
     let! rt := _read "run_time" 0 in
     let! rt := need_num rt in
     if py_gt rt 0 then modify (set_runtime rt) else ret tt) >>
  (let! self := get in
   configure (show_runtime_lbl (clock (runtime self)))) >>
  on_gauge coolant (set_value (cool v)) >>
  on_gauge intake_t (set_value (int_t v)) >>
  on_gauge oil (set_value (oil_t v)) >>
  on_gauge fuel_p (set_value (fp v)) >>
  on_gauge fuel_r (set_value (fr v)) >>
  on_gauge intake_p (set_value (ip v)) >>
  (let! maf := need_num (maf v) in
   configure (show_maf_lbl maf) >>
   let! mmaf := need_num (mmaf v) in
   let! frac := lift (maf_fraction maf mmaf) in
   configure (show_maf_bar frac) >>
   configure (show_max_maf mmaf)) >>
  (if use_sim self then
     modify (fun self => set_dist_dtc (dist_dtc self + rnd_dist rnd) self) >>
     modify (fun self => set_time_dtc (time_dtc self + (1#10)) self)
   else
     let! d := _read "dist_since_dtc_cleared" 0 in
     let! t := _read "time_since_dtc_cleared" 0 in
     (if truthy d then
        let! d := need_num d in
        if py_gt d 0 then modify (set_dist_dtc d) else ret tt
      else ret tt) >>
     (if truthy t then
        let! t := need_num t in
        if py_gt t 0 then modify (set_time_dtc t) else ret tt
      else ret tt)) >>
  let! self := get in
  configure (show_dist_lbl (dist_dtc self)) >>
  configure (show_time_lbl (clock (time_dtc self))).

(** [_clear_dtc]; [askyesno] is the answer of the confirmation dialog.
    The message boxes show text and change nothing. *)
Definition _clear_dtc (obd_connection : option OBD.Connection)
    (askyesno : bool) : M OBDDashboard unit :=
  if askyesno then
    let! self := get in
    if negb (use_sim self) then
      try_catch_Exception
        (let! _ := lift (read_obd_data obd_connection
                           (dict_get (commands self) "clear_dtc")) in
         modify (set_dist_dtc 0) >>
         modify (set_time_dtc 0))
        (fun _ => ret tt)
    else
      modify (set_dist_dtc 0) >>
      modify (set_time_dtc 0)
  else ret tt.

(** The gauges that [_page_main], [_page_temp] and [_page_fuel] create. *)
Definition gauge_range (id : GaugeId) : Q * Q :=
  match id with
  | speed => (0, 200)
  | rpm => (0, 8000)
  | throttle => (0, 100)
  | coolant => (-40, 120)
  | intake_t => (-40, 80)
  | oil => (0, 150)
  | fuel_p => (0, 600)
  | fuel_r => (0, 50)
  | intake_p => (0, 300)
  end.

(** [OBDDashboard.__init__].  [connected] is the result of
    [initialize_obd_connection()], [load_commands] the outcome of
    [read_json.load_commands()], whose errors are of class [Exception]
    and are caught by the [except Exception] of [__init__]. *)
Definition OBDDashboard_init (use_sim : bool) (connected : bool)
    (load_commands : ReadJson.Loaded (gmap string PyCommand))
    : OBDDashboard :=
  let '(use_sim, commands) :=
    if negb use_sim then
      if connected then
        match load_commands with
        | ReadJson.Done c => (false, c)
        | ReadJson.Failed _ => (true, ∅)
        end
      else (true, ∅)
    else (use_sim, ∅) in
  {| use_sim := use_sim;
     commands := commands;
     runtime := 0;
     dist_dtc := 0;
     time_dtc := 0;
     gauges := fun id =>
       snd (GaugeWidget_init (fst (gauge_range id)) (snd (gauge_range id)));
     labels := {| load_lbl := 0; load_bar := 0; timing := 0;
                  runtime_lbl := (0, 0, 0)%Z;
                  maf_lbl := 0; maf_bar := 0; max_maf := 255;
                  dist_lbl := 0; time_lbl := (0, 0, 0)%Z |} |}.

(** What the user and the timer do to a running dashboard. *)
Inductive Action : Type :=
| Tick (obd_connection : option OBD.Connection) (rnd : Draws)
| ClearDtc (obd_connection : option OBD.Connection) (askyesno : bool).

Definition perform (a : Action) : M OBDDashboard unit :=
  match a with
  | Tick c rnd => _update c rnd
  | ClearDtc c yes => _clear_dtc c yes
  end.

(** The state after a list of actions; an exception that escapes an action
    is reported by the toolkit and the next action runs on the state
    reached. *)
Fixpoint run (acts : list Action) (self : OBDDashboard) : OBDDashboard :=
  match acts with
  | [] => self
  | a :: rest => run rest (snd (perform a self))
  end.

(** ** The places where [obd_dashboard_gui.py] differs *)

Module QtGui.

(** The PyQt5 gauge keeps no last drawn value.  [update_requests] counts
    the calls of [self.update()], each of which asks the toolkit for a
    repaint. *)
Record GaugeWidget : Type := {
  min_value : Q;
  max_value : Q;
  current_value : Q;
  update_requests : nat
}.

Definition set_value (value : PyVal) : M GaugeWidget unit :=
  let! self := get in
  let! v := need_num value in
  put {| min_value := min_value self;
         max_value := max_value self;
         current_value := py_max (min_value self) (py_min (max_value self) v);
         update_requests := S (update_requests self) |}.

(** What [paintEvent] draws: the span of the active arc in degrees and
    in the sixteenths of a degree given to [drawArc], the scale marks
    and the needle angle. *)
Record Painting : Type := {
  active_span : Q;
  arc_sixteenths : Z;
  scale_marks : list (Q * Z);
  needle_angle : Q
}.

Definition start_angle : Q := 225.
Definition span_angle : Q := 270.

Definition _draw_scale_marks (self : GaugeWidget) : list (Q * Z) :=
  map (fun i =>
         (start_angle - (span_angle * inject_Z (Z.of_nat i) / 8),
          py_int (min_value self
                  + (max_value self - min_value self)
                    * inject_Z (Z.of_nat i) / 8)))
      (seq 0 9).

Definition paintEvent (self : GaugeWidget) : Exc Painting :=
  and_then (py_truediv (current_value self - min_value self)
                       (max_value self - min_value self))
    (fun value_ratio =>
       let active_span := span_angle * value_ratio in
       Ok {| active_span := active_span;
             arc_sixteenths := py_int (active_span * 16);
             scale_marks := _draw_scale_marks self;
             needle_angle := start_angle - (span_angle * value_ratio) |}).

(** [read_obd_data(command)]: the handler is [except Exception as e],
    where [dashboard.py] has a bare [except:]. *)
Definition read_obd_data (obd_connection : option OBD.Connection)
    (command : PyCommand) : Exc (option OBD.Value) :=
  match obd_connection with
  | None => Ok None
  | Some conn =>
      try_except_Exception
        (and_then (OBD.query conn command) (fun response =>
           Ok (if negb (OBD.is_null response)
               then Some (OBD.value response)
               else None)))
        (fun _ => Ok None)
  end.

(** The accumulators of the PyQt5 dashboard and what [_clear_dtc_codes]
    reads. *)
Record OBDDashboard : Type := {
  use_simulation : bool;
  commands : gmap string PyCommand;
  runtime_seconds : Q;
  distance_since_clear : Q;
  time_since_clear : Q
}.

Definition reset_since_clear (self : OBDDashboard) : OBDDashboard :=
  {| use_simulation := use_simulation self;
     commands := commands self;
     runtime_seconds := runtime_seconds self;
     distance_since_clear := 0;
     time_since_clear := 0 |}.

(** [_clear_dtc_codes]; [yes] tells whether the reply of the question
    box is [QMessageBox.Yes].  The catalog is indexed with
    [self.commands['clear_dtc']], and the handler is
    [except Exception as e]. *)
Definition _clear_dtc_codes (obd_connection : option OBD.Connection)
    (yes : bool) : M OBDDashboard unit :=
  if yes then
    let! self := get in
    if negb (use_simulation self) then
      try_catch_Exception
        (let! command := lift (dict_getitem (commands self) "clear_dtc") in
         let! _ := lift (read_obd_data obd_connection command) in
         modify reset_since_clear)
        (fun _ => ret tt)
    else modify reset_since_clear
  else ret tt.

(** [int((maf / max_maf) * 100) if max_maf > 0 else 0].  The quotient
    and the product are rounded binary64 operations, whose results are
    not modelled: [percent maf max_maf] is the integer that
    [int((maf / max_maf) * 100)] gives for a nonzero [max_maf]. *)
Definition maf_progress (percent : Q -> Q -> Z) (maf max_maf : Q) : Exc Z :=
  if py_gt max_maf 0
  then and_then (py_truediv maf max_maf) (fun _ => Ok (percent maf max_maf))
  else Ok 0%Z.

End QtGui.

(** ** Notions used to state the properties *)

(** Weakest precondition of a computation for a postcondition on the
    outcome and the state reached. *)
Definition wp {S A : Type} (m : M S A) (post : Exc A -> S -> Prop) (s : S)
    : Prop :=
  post (fst (m s)) (snd (m s)).

(** Every gauge of the dashboard has a sound range. *)
Definition gauges_ok (self : OBDDashboard) : Prop :=
  forall id, spec_ok (gauges self id).

(** The command name has an entry in the catalog. *)
Definition mapped (self : OBDDashboard) (cmd : string) : Prop :=
  dict_contains (commands self) cmd = true.

(** The names that [_update] reads in Live mode, with the default passed
    at each call. *)
Definition live_reads : list (string * Q) :=
  [("speed", 0); ("rpm", 0); ("throttle_pos", 0); ("eng_load", 0);
   ("timing_advance", 0); ("coolant_temp", 80); ("intake_temp", 25);
   ("oil_temp", 90); ("fuel_pressure", 300); ("fuel_rate", 5);
   ("maf", 10); ("max_maf", 255); ("run_time", 0);
   ("dist_since_dtc_cleared", 0); ("time_since_dtc_cleared", 0)].

Definition all_mapped (self : OBDDashboard) : Prop :=
  forall cmd default, In (cmd, default) live_reads -> mapped self cmd.

(** The query of a command gives nothing: there is no connection, the
    query raises, or the response is null. *)
Definition query_fails (obd_connection : option OBD.Connection)
    (command : PyCommand) : Prop :=
  match obd_connection with
  | None => True
  | Some conn =>
      match OBD.query conn command with
      | Raise _ => True
      | Ok response => OBD.is_null response = true
      end
  end.

(** The number that [_read] returns in Live mode for a mapped name. *)
Definition live_value (obd_connection : option OBD.Connection)
    (catalog : gmap string PyCommand) (cmd : string) (default : Q) : Q :=
  match catalog !! cmd with
  | Some command =>
      match read_obd_data obd_connection command with
      | Ok (Some res) => magnitude_or_self res
      | _ => default
      end
  | None => default
  end.

(** An accumulator after a Live read: overwritten by a strictly positive
    value, kept otherwise. *)
Definition overwritten_if_positive (read old : Q) : Q :=
  if py_gt read 0 then read else old.

(** The gauge after [set_value] of a number. *)
Definition gauge_after (v : Q) (g : GaugeWidget) : GaugeWidget :=
  snd (set_value (VNum v) g).

(** [z] is an integer nearest to [x]. *)
Definition nearest_int (x : Q) (z : Z) : Prop :=
  Qabs (x - inject_Z z) <= 1#2.

(** What a Live tick that completes leaves behind, in terms of the
    numbers read. *)
Definition live_tick_post (obd_connection : option OBD.Connection)
    (rnd : Draws) (s s' : OBDDashboard) : Prop :=
  let rd := live_value obd_connection (commands s) in
  use_sim s' = false /\
  commands s' = commands s /\
  runtime s' = overwritten_if_positive (rd "run_time" 0) (runtime s) /\
  dist_dtc s' =
    overwritten_if_positive (rd "dist_since_dtc_cleared" 0) (dist_dtc s) /\
  time_dtc s' =
    overwritten_if_positive (rd "time_since_dtc_cleared" 0) (time_dtc s) /\
  (forall id,
     gauges s' id =
     gauge_after
       match id with
       | speed => rd "speed" 0
       | rpm => rd "rpm" 0
       | throttle => rd "throttle_pos" 0
       | coolant => rd "coolant_temp" 80
       | intake_t => rd "intake_temp" 25
       | oil => rd "oil_temp" 90
       | fuel_p => rd "fuel_pressure" 300
       | fuel_r => rd "fuel_rate" 5
       | intake_p => inject_Z (rnd_ip rnd)
       end
       (gauges s id)) /\
  labels s' =
    {| load_lbl := py_int (rd "eng_load" 0);
       load_bar := rd "eng_load" 0 / 100;
       timing := rd "timing_advance" 0;
       runtime_lbl := clock (runtime s');
       maf_lbl := rd "maf" 10;
       maf_bar := if py_gt (rd "max_maf" 255) 0
                  then rd "maf" 10 / rd "max_maf" 255
                  else 0;
       max_maf := rd "max_maf" 255;
       dist_lbl := dist_dtc s';
       time_lbl := clock (time_dtc s') |}.

(** What a Simulated tick leaves behind. *)
Definition sim_tick_post (rnd : Draws) (s s' : OBDDashboard) : Prop :=
  use_sim s' = true /\
  commands s' = commands s /\
  runtime s' = runtime s + (1#10) /\
  dist_dtc s' = dist_dtc s + rnd_dist rnd /\
  time_dtc s' = time_dtc s + (1#10) /\
  (forall id,
     gauges s' id =
     gauge_after
       match id with
       | speed => inject_Z (rnd_spd rnd)
       | rpm => inject_Z (rnd_r rnd)
       | throttle => inject_Z (rnd_thr rnd)
       | coolant => inject_Z (rnd_cool rnd)
       | intake_t => inject_Z (rnd_int_t rnd)
       | oil => inject_Z (rnd_oil rnd)
       | fuel_p => inject_Z (rnd_fp rnd)
       | fuel_r => rnd_fr rnd
       | intake_p => inject_Z (rnd_ip rnd)
       end
       (gauges s id)) /\
  maf_bar (labels s') = rnd_maf rnd / 255.

(** A computation keeps the invariant [I] of the state, gives results in
    [Q] and raises only exceptions of [E]. *)
Definition hoare {S A : Type} (I : S -> Prop) (E : PyExc -> Prop)
    (m : M S A) (Q : A -> Prop) : Prop :=
  forall s, I s ->
    I (snd (m s)) /\
    match fst (m s) with
    | Ok a => Q a
    | Raise e => E e
    end.

(** An accumulator in Live mode: kept, or overwritten by the number read
    when that number is strictly positive. *)
Definition kept_or_positive_read (old new read : Q) : Prop :=
  new = old \/ (new = read /\ 0 < read).

(** The accumulators of [s] against those of the state [s0] at the start
    of a Live tick with connection [c]. *)
Definition live_rel (c : option OBD.Connection) (s0 s : OBDDashboard)
    : Prop :=
  use_sim s = false /\
  commands s = commands s0 /\
  kept_or_positive_read (runtime s0) (runtime s)
    (live_value c (commands s0) "run_time" 0) /\
  kept_or_positive_read (dist_dtc s0) (dist_dtc s)
    (live_value c (commands s0) "dist_since_dtc_cleared" 0) /\
  kept_or_positive_read (time_dtc s0) (time_dtc s)
    (live_value c (commands s0) "time_since_dtc_cleared" 0).

(** Every gauge has a sound range and all its renders lie on the arc. *)
Definition renders_on_arc (self : OBDDashboard) : Prop :=
  gauges_ok self /\
  forall id, Forall on_arc (canvas (gauges self id)).

(** The query of the command raises no exception that is not of class
    [Exception]. *)
Definition raises_only_Exception (obd_connection : option OBD.Connection)
    (command : PyCommand) : Prop :=
  match obd_connection with
  | None => True
  | Some conn =>
      match OBD.query conn command with
      | Raise e => is_Exception e = true
      | Ok _ => True
      end
  end.

(** The exception is not a division by zero. *)
Definition no_zero_division (e : PyExc) : Prop := e <> ZeroDivisionError.

(** No condition on the exception. *)
Definition any_exception (e : PyExc) : Prop := True.

(** The draws of a tick respect the bounds of the generator. *)
Definition action_ok (a : Action) : Prop :=
  match a with
  | Tick _ rnd => draws_ok rnd
  | ClearDtc _ _ => True
  end.

(** The action is a confirmed clearing of the trouble codes. *)
Definition is_clear (a : Action) : bool :=
  match a with
  | ClearDtc _ yes => yes
  | Tick _ _ => false
  end.

(** ** Sample data *)

(** The binary64 numbers written 50.3, 50.6, 0.3, 0.8, 0.6 and 1.1. *)
Definition float_50_3 : Q := 3539547832136499 # 70368744177664.
Definition float_50_6 : Q := 7121316910779597 # 140737488355328.
Definition float_0_3 : Q := 5404319552844595 # 18014398509481984.
Definition float_0_8 : Q := 3602879701896397 # 4503599627370496.
Definition float_0_6 : Q := 5404319552844595 # 9007199254740992.
Definition float_1_1 : Q := 2476979795053773 # 2251799813685248.

(** A catalog with an entry for every name the dashboard uses. *)
Definition full_catalog : gmap string PyCommand :=
  list_to_map
    [("speed", Cmd "SPEED"); ("rpm", Cmd "RPM");
     ("throttle_pos", Cmd "THROTTLE_POS"); ("eng_load", Cmd "ENGINE_LOAD");
     ("timing_advance", Cmd "TIMING_ADVANCE");
     ("coolant_temp", Cmd "COOLANT_TEMP"); ("intake_temp", Cmd "INTAKE_TEMP");
     ("oil_temp", Cmd "OIL_TEMP"); ("fuel_pressure", Cmd "FUEL_PRESSURE");
     ("fuel_rate", Cmd "FUEL_RATE"); ("maf", Cmd "MAF");
     ("max_maf", Cmd "MAX_MAF"); ("run_time", Cmd "RUN_TIME");
     ("dist_since_dtc_cleared", Cmd "DISTANCE_SINCE_DTC_CLEAR");
     ("time_since_dtc_cleared", Cmd "TIME_SINCE_DTC_CLEARED");
     ("get_dtc", Cmd "GET_DTC"); ("clear_dtc", Cmd "CLEAR_DTC")].

(** The same catalog without the oil temperature. *)
Definition catalog_without_oil : gmap string PyCommand :=
  delete "oil_temp" full_catalog.

(** An adapter that answers every query with the quantity [q]. *)
Definition answering (q : Q) : option OBD.Connection :=
  Some {| OBD.query := fun _ =>
            Ok {| OBD.is_null := false; OBD.value := OBD.Quantity q |} |}.

(** An adapter of a running engine: it answers the run time, the distance
    and the time since the codes were cleared with the given quantities
    and every other query with 50. *)
Definition ecu (run_time dist time : Q) : option OBD.Connection :=
  Some {| OBD.query := fun command =>
            let q :=
              match command with
              | CmdNone => 50
              | Cmd name =>
                  if String.eqb name "RUN_TIME" then run_time
                  else if String.eqb name "DISTANCE_SINCE_DTC_CLEAR" then dist
                  else if String.eqb name "TIME_SINCE_DTC_CLEARED" then time
                  else 50
              end in
            Ok {| OBD.is_null := false; OBD.value := OBD.Quantity q |} |}.

(** An adapter whose every query raises. *)
Definition broken : option OBD.Connection :=
  Some {| OBD.query := fun _ => Raise AdapterError |}.

(** An adapter whose every query is interrupted from the keyboard. *)
Definition interrupted : option OBD.Connection :=
  Some {| OBD.query := fun _ => Raise KeyboardInterrupt |}.

(** Draws within the bounds of the generator. *)
Definition some_draws : Draws :=
  {| rnd_spd := 90; rnd_r := 3000; rnd_thr := 40;
     rnd_ld := 50; rnd_tim := 12;
     rnd_cool := 90; rnd_int_t := 30; rnd_oil := 100;
     rnd_fp := 400; rnd_fr := 7;
     rnd_ip := 100; rnd_maf := 20;
     rnd_dist := 3#100 |}.

(** A dashboard started with [--real] on a connected adapter. *)
Definition live_dashboard (catalog : gmap string PyCommand) : OBDDashboard :=
  OBDDashboard_init false true (ReadJson.Done catalog).

(** A dashboard started without [--real]. *)
Definition sim_dashboard : OBDDashboard :=
  OBDDashboard_init true false (ReadJson.Failed ReadJson.OSError).

(** The accumulators of the clear-action scenario on the PyQt5 dashboard
    in Live mode. *)
Definition qt_scenario (catalog : gmap string PyCommand)
    : QtGui.OBDDashboard :=
  {| QtGui.use_simulation := false;
     QtGui.commands := catalog;
     QtGui.runtime_seconds := 5000;
     QtGui.distance_since_clear := 423#10;
     QtGui.time_since_clear := 7200 |}.

(** A catalog without the command that clears the trouble codes. *)
Definition catalog_without_clear : gmap string PyCommand :=
  delete "clear_dtc" full_catalog.

(** ** Page navigation ([dashboard.py]) *)

(** The colours of a navigation button: those of the theme it is created
    with, those of the current page, those of the other pages. *)
Inductive ButtonStyle : Type :=
| Themed
| Highlighted
| Plain.

(** The attributes that [_switch] reads and writes.  A page is [true]
    when it is packed, that is shown. *)
Record Navigation : Type := {
  current_page : Z;
  pages : list bool;
  nav_btns : list ButtonStyle
}.

Definition _switch (idx : Z) : M Navigation unit :=
  let! self := get in
  if Z.eqb idx (current_page self) then ret tt
  else
    put {| current_page := idx;
           pages := imap (fun i _ => Z.eqb (Z.of_nat i) idx) (pages self);
           nav_btns :=
             imap (fun i _ =>
                     if Z.eqb (Z.of_nat i) idx then Highlighted else Plain)
                  (nav_btns self) |}.

(** The command of navigation button [page_idx]. *)
Definition _make_switch_command (page_idx : nat) : M Navigation unit :=
  _switch (Z.of_nat page_idx).

(** [a % b] on integers. *)
Definition py_imod (a b : Z) : Exc Z :=
  if Z.eqb b 0 then Raise ZeroDivisionError else Ok (a mod b)%Z.

(** The dashboard as the event loop sees it: the navigation attributes
    and the callbacks that [after(0, ...)] has posted and that have not
    run yet, oldest first.  A posted [lambda: self._switch(next_page)]
    is kept as its [next_page]. *)
Record EventLoop : Type := {
  nav : Navigation;
  posted : list Z
}.

(** [_gpio_next_page]: the next page is computed from the current page
    when the button is pressed, and the switch is posted, not run. *)
Definition _gpio_next_page : M EventLoop unit :=
  let! self := get in
  let! next_page :=
    lift (py_imod (current_page (nav self) + 1)
                  (Z.of_nat (length (pages (nav self))))) in
  put {| nav := nav self; posted := posted self ++ [next_page] |}.

(** The event loop runs the posted callbacks, oldest first. *)
Fixpoint run_callbacks (callbacks : list Z) : M Navigation unit :=
  match callbacks with
  | [] => ret tt
  | next_page :: rest => _switch next_page >> run_callbacks rest
  end.

Definition run_posted : M EventLoop unit :=
  fun self =>
    let (r, n) := run_callbacks (posted self) (nav self) in
    (r, {| nav := n; posted := [] |}).

(** The navigation part of [_setup_ui]: four buttons, four pages that
    are not packed yet, [current_page = -1], then [_switch(0)]. *)
Definition Navigation_setup : Exc unit * Navigation :=
  _switch 0 {| current_page := -1;
               pages := replicate 4 false;
               nav_btns := replicate 4 Themed |}.

(** [n] presses of the GPIO button, the event loop running the posted
    callback after each press. *)
Fixpoint presses_served (n : nat) : M EventLoop unit :=
  match n with
  | O => ret tt
  | S n => _gpio_next_page >> run_posted >> presses_served n
  end.

(** [n] presses of the GPIO button with the event loop busy: no posted
    callback runs in between. *)
Fixpoint presses_pending (n : nat) : M EventLoop unit :=
  match n with
  | O => ret tt
  | S n => _gpio_next_page >> presses_pending n
  end.

(** The event loop with nothing posted. *)
Definition idle (n : Navigation) : EventLoop :=
  {| nav := n; posted := [] |}.

(** The loop of [test_gpio_logic.py]: the page numbers it prints. *)
Fixpoint simulate_presses (n : nat) (current_page num_pages : Z) : list Z :=
  match n with
  | O => []
  | S n =>
      let current_page := ((current_page + 1) mod num_pages)%Z in
      (current_page + 1)%Z :: simulate_presses n current_page num_pages
  end.

(** Exactly the current page is shown and exactly its button is
    highlighted. *)
Definition nav_ok (s : Navigation) : Prop :=
  (0 <= current_page s < 4)%Z /\
  pages s = map (fun i => Z.eqb (Z.of_nat i) (current_page s)) (seq 0 4) /\
  nav_btns s =
    map (fun i => if Z.eqb (Z.of_nat i) (current_page s)
                  then Highlighted else Plain) (seq 0 4).

(** ** The helper of [get_data.py] *)

Module GetData.

(** [read_obd_data(command)] on the connection made at import: no
    [try]. *)
Definition read_obd_data (connection : OBD.Connection)
    (command : PyCommand) : Exc (option OBD.Value) :=
  and_then (OBD.query connection command) (fun response =>
    if OBD.is_null response then Ok None
    else Ok (Some (OBD.value response))).

End GetData.

(** ** The legacy dashboard ([obd_dashboard_gui_backup.py]) *)

Module Backup.

Record OBDDashboard : Type := {
  use_simulation : bool;
  commands : gmap string PyCommand
}.

(** [read_obd_data(command)]; the handler is [except Exception as e]. *)
Definition read_obd_data (obd_connection : option OBD.Connection)
    (command : PyCommand) : Exc (option OBD.Value) :=
  match obd_connection with
  | None => Ok None
  | Some conn =>
      try_except_Exception
        (and_then (OBD.query conn command) (fun response =>
           if OBD.is_null response then Ok None
           else Ok (Some (OBD.value response))))
        (fun _ => Ok None)
  end.

(** [read_obd_value(command_name, default)].  Inside the [try], [Some v]
    is the [return] of a value and [None] falls through to
    [return default]; the handler is [except Exception as e]. *)
Definition read_obd_value (obd_connection : option OBD.Connection)
    (command_name : string) (default : Q) : M OBDDashboard PyVal :=
  let! self := get in
  if use_simulation self then ret VNone
  else
    let! returned :=
      lift (try_except_Exception
              (if dict_contains (commands self) command_name then
                 and_then (dict_getitem (commands self) command_name)
                   (fun command =>
                 and_then (read_obd_data obd_connection command)
                   (fun result =>
                      match result with
                      | Some res => Ok (Some (VNum (magnitude_or_self res)))
                      | None => Ok None
                      end))
               else Ok None)
              (fun _ => Ok None)) in
    match returned with
    | Some v => ret v
    | None => ret (VNum default)
    end.

End Backup.

(** ** Start of the program ([dashboard.py], [__main__]) *)

(** [use_sim = "--real" not in sys.argv] *)
Definition use_sim_of_argv (argv : list string) : bool :=
  negb (existsb (String.eqb "--real") argv).

(** [app = OBDDashboard(use_sim=use_sim)] with the catalog read by
    [read_json.load_commands()]. *)
Definition start (argv : list string) (connected : bool)
    (known : string -> bool) (file : ReadJson.Loaded (gmap string string))
    : OBDDashboard :=
  OBDDashboard_init (use_sim_of_argv argv) connected
    (ReadJson.load_commands known file).

(** ** More notions used to state the properties *)

(** The render on top of the canvas. *)
Definition last_render (g : GaugeWidget) : option Geometry :=
  head (canvas g).

(** The gauge of attribute [id] has the range it was created with, a
    value in that range and the invariant of a render state. *)
Definition dashboard_ok (self : OBDDashboard) : Prop :=
  forall id,
    render_ok (gauges self id) /\
    min_val (gauges self id) = fst (gauge_range id) /\
    max_val (gauges self id) = snd (gauge_range id) /\
    fst (gauge_range id) <= value (gauges self id) <= snd (gauge_range id).

(** The names whose values a Live tick uses as numbers. *)
Definition core_names : list string :=
  ["speed"; "rpm"; "throttle_pos"; "eng_load"; "timing_advance";
   "coolant_temp"; "intake_temp"; "oil_temp"; "fuel_pressure";
   "fuel_rate"; "maf"; "max_maf"; "run_time"].

Definition core_mapped (self : OBDDashboard) : Prop :=
  forall cmd, In cmd core_names -> mapped self cmd.

(** The only exception is [TypeError]. *)
Definition only_type_error (e : PyExc) : Prop := e = TypeError.

(** The number that [_update] sets on a gauge in Simulated mode. *)
Definition sim_value (rnd : Draws) (id : GaugeId) : Q :=
  match id with
  | speed => inject_Z (rnd_spd rnd)
  | rpm => inject_Z (rnd_r rnd)
  | throttle => inject_Z (rnd_thr rnd)
  | coolant => inject_Z (rnd_cool rnd)
  | intake_t => inject_Z (rnd_int_t rnd)
  | oil => inject_Z (rnd_oil rnd)
  | fuel_p => inject_Z (rnd_fp rnd)
  | fuel_r => rnd_fr rnd
  | intake_p => inject_Z (rnd_ip rnd)
  end.
(** ** Facts about the Python arithmetic *)

Lemma py_gt_true (a b : Q) : py_gt a b = true <-> b < a.
Proof.
  unfold py_gt. destruct (Qle_bool a b) eqn:E; simpl.
  - apply Qle_bool_iff in E. split; [discriminate | lra].
  - split; [intros _ | reflexivity].
    apply Qnot_le_lt. intros H. apply Qle_bool_iff in H. congruence.
Qed.

Lemma py_gt_false (a b : Q) : py_gt a b = false <-> a <= b.
Proof.
  destruct (py_gt a b) eqn:E.
  - apply py_gt_true in E. split; [discriminate | lra].
  - split; [intros _ | reflexivity].
    apply Qnot_lt_le. intros H. apply py_gt_true in H. congruence.
Qed.

(** Case analysis on every comparison of the goal, innermost first. *)
Ltac py_cases :=
  repeat match goal with
  | |- context [py_gt ?a ?b] =>
      lazymatch a with
      | context [py_gt _ _] => fail
      | _ =>
        lazymatch b with
        | context [py_gt _ _] => fail
        | _ =>
          let E := fresh "E" in
          destruct (py_gt a b) eqn:E;
          [apply py_gt_true in E | apply py_gt_false in E]
        end
      end
  end.

Lemma py_max_spec (a b : Q) : a <= py_max a b /\ b <= py_max a b.
Proof. unfold py_max. py_cases; lra. Qed.

Lemma py_min_spec (a b : Q) : py_min a b <= a /\ py_min a b <= b.
Proof. unfold py_min. py_cases; lra. Qed.

Lemma py_truediv_ok (a b : Q) : ~ b == 0 -> py_truediv a b = Ok (a / b).
Proof.
  intros H. unfold py_truediv.
  destruct (Qeq_bool b 0) eqn:E; [|reflexivity].
  apply Qeq_bool_eq in E. contradiction.
Qed.

(** [int()] truncates toward zero. *)
Lemma py_int_trunc (x : Q) :
  (0 <= x -> inject_Z (py_int x) <= x < inject_Z (py_int x) + 1) /\
  (x <= 0 -> inject_Z (py_int x) - 1 < x <= inject_Z (py_int x)).
Proof.
  destruct x as [n d]. unfold py_int, Qle, Qlt, inject_Z. simpl.
  pose proof (Z.quot_rem' n (Z.pos d)) as Hq.
  split; intros H0.
  - assert (Hn : (0 <= n)%Z) by lia.
    pose proof (Z.rem_bound_pos n (Z.pos d) Hn ltac:(lia)). nia.
  - assert (Hn : (n <= 0)%Z) by lia.
    pose proof (Z.rem_bound_pos_neg n (Z.pos d) ltac:(lia) Hn). nia.
Qed.

(** ** Facts about the gauge *)

Lemma clamp_range (g : GaugeWidget) (v : Q) :
  min_val g <= max_val g -> min_val g <= clamp g v <= max_val g.
Proof. intros H. unfold clamp, py_max, py_min. py_cases; lra. Qed.

Lemma clamp_inside (g : GaugeWidget) (v : Q) :
  min_val g <= v <= max_val g -> clamp g v == v.
Proof. intros H. unfold clamp, py_max, py_min. py_cases; lra. Qed.

Lemma clamp_below (g : GaugeWidget) (v : Q) :
  spec_ok g -> v <= min_val g -> clamp g v = min_val g.
Proof.
  unfold spec_ok, clamp, py_max, py_min. intros H Hv.
  destruct (py_gt (max_val g) v) eqn:E1.
  - destruct (py_gt v (min_val g)) eqn:E2; [|reflexivity].
    apply py_gt_true in E2. lra.
  - apply py_gt_false in E1. lra.
Qed.

Lemma clamp_above (g : GaugeWidget) (v : Q) :
  spec_ok g -> max_val g <= v -> clamp g v = max_val g.
Proof.
  unfold spec_ok, clamp, py_max, py_min. intros H Hv.
  destruct (py_gt (max_val g) v) eqn:E1.
  - apply py_gt_true in E1. lra.
  - destruct (py_gt (max_val g) (min_val g)) eqn:E2; [reflexivity|].
    apply py_gt_false in E2. lra.
Qed.


Lemma draw_ok (g : GaugeWidget) : spec_ok g -> draw g = (Ok tt, with_render g).
Proof.
  intros H. unfold draw, bind, get, lift, put.
  rewrite py_truediv_ok by (unfold spec_ok in H; lra).
  reflexivity.
Qed.

Lemma set_value_run (g : GaugeWidget) (v : Q) :
  spec_ok g ->
  set_value (VNum v) g =
    (Ok tt, if must_redraw g (clamp g v)
            then with_render (with_value g (clamp g v))
            else g).
Proof.
  intros H. unfold set_value, bind, get, need_num, ret, put.
  destruct (must_redraw g (clamp g v)); [|reflexivity].
  apply draw_ok. exact H.
Qed.

Lemma ratio_bounds (g : GaugeWidget) :
  spec_ok g -> min_val g <= value g <= max_val g -> 0 <= ratio_of g <= 1.
Proof.
  unfold spec_ok, ratio_of. intros H [H1 H2]. split.
  - apply Qle_shift_div_l; lra.
  - apply Qle_shift_div_r; lra.
Qed.

Lemma render_on_arc (g : GaugeWidget) :
  spec_ok g -> min_val g <= value g <= max_val g -> on_arc (render g).
Proof.
  intros H Hv. destruct (ratio_bounds g H Hv) as [H0 H1].
  unfold on_arc, render, _draw_needle. simpl. lra.
Qed.





Lemma spec_ok_gauge_after (g : GaugeWidget) (v : Q) :
  spec_ok g -> spec_ok (gauge_after v g).
Proof.
  intros H. unfold gauge_after. rewrite (set_value_run g v H). simpl.
  destruct (must_redraw g (clamp g v)); exact H.
Qed.

(** [set_value] keeps the invariant of the render state. *)
Lemma render_ok_gauge_after (g : GaugeWidget) (v : Q) :
  render_ok g -> render_ok (gauge_after v g).
Proof.
  intros [H Hl]. unfold gauge_after. rewrite (set_value_run g v H). simpl.
  destruct (must_redraw g (clamp g v)).
  - split; [exact H | simpl]. split; [reflexivity|].
    apply clamp_range. unfold spec_ok in H. lra.
  - split; assumption.
Qed.

Lemma render_ok_init (lo hi : Q) :
  lo < hi -> render_ok (snd (GaugeWidget_init lo hi)).
Proof.
  intros H. unfold GaugeWidget_init. rewrite draw_ok by exact H.
  split; [exact H | exact I].
Qed.

(** ** Properties of the gauge *)

(** C1. For every gauge with [min < max] and every raw value (so also
    every value of [min-100, max+100]), [set_value] clamps the value into
    [min, max] before the ratio is computed: the clamped value is the raw
    value when that lies in the range, the minimum when it lies below and
    the maximum when it lies above.  The call does not raise, and either
    the redraw test fails and the gauge is left as it was, or the clamped
    value is stored and exactly one render is drawn, whose active arc has
    an extent of -270 times the ratio of the clamped value, between -270
    and 0 degrees, and whose needle angle is 225 minus 270 times that
    ratio, between 225 - 270 and 225 degrees. *)
Theorem set_value_stays_on_arc (g : GaugeWidget) (val : Q) :
  spec_ok g ->
  (min_val g <= val <= max_val g -> clamp g val == val) /\
  (val <= min_val g -> clamp g val = min_val g) /\
  (max_val g <= val -> clamp g val = max_val g) /\
  min_val g <= clamp g val <= max_val g /\
  fst (set_value (VNum val) g) = Ok tt /\
  (must_redraw g (clamp g val) = false /\
   snd (set_value (VNum val) g) = g \/
   must_redraw g (clamp g val) = true /\
   exists geo,
     value (snd (set_value (VNum val) g)) = clamp g val /\
     canvas (snd (set_value (VNum val) g)) = geo :: canvas g /\
     extent geo =
       -270 * ((clamp g val - min_val g) / (max_val g - min_val g)) /\
     needle geo =
       225 - 270 * ((clamp g val - min_val g) / (max_val g - min_val g)) /\
     on_arc geo).
Proof.
  intros H.
  assert (Hc : min_val g <= clamp g val <= max_val g).
  { apply clamp_range. unfold spec_ok in H. lra. }
  split; [apply clamp_inside|].
  split; [apply clamp_below; exact H|].
  split; [apply clamp_above; exact H|].
  split; [exact Hc|]. rewrite set_value_run by exact H.
  split; [reflexivity|]. simpl.
  destruct (must_redraw g (clamp g val));
    [right; split; [reflexivity|] | left; split; reflexivity].
  exists (render (with_value g (clamp g val))).
  repeat split; try reflexivity;
    apply (render_on_arc (with_value g (clamp g val)) H Hc).
Qed.

Lemma set_value_stays_on_arc_witness :
  let g := snd (GaugeWidget_init 0 200) in
  clamp g 120 == 120 /\ clamp g 300 = 200 /\ clamp g (-7) = 0 /\
  fst (set_value (VNum 300) g) = Ok tt /\
  value (snd (set_value (VNum 120) g)) = 120.
Proof.
  intros g.
  assert (H : spec_ok g) by (vm_compute; reflexivity).
  destruct (set_value_stays_on_arc g 120 H) as (Hin & _).
  destruct (set_value_stays_on_arc g 300 H) as (_ & _ & Hhi & _ & Hok & _).
  destruct (set_value_stays_on_arc g (-7) H) as (_ & Hlo & _).
  split; [apply Hin; vm_compute; split; discriminate|].
  split; [apply Hhi; vm_compute; discriminate|].
  split; [apply Hlo; vm_compute; discriminate|].
  split; [exact Hok | vm_compute; reflexivity].
Defined.




(** The scenario on the throttle gauge (range 0 to 100): after 50 was
    drawn, 50.3 is not drawn and 50.6 is. *)
Example throttle_50_3_not_drawn :
  redraws (gauge_after 50 (snd (GaugeWidget_init 0 100)))
          (set_value (VNum float_50_3)) = 0%nat.
Proof. vm_compute. reflexivity. Qed.

Example throttle_50_6_drawn :
  redraws (gauge_after 50 (snd (GaugeWidget_init 0 100)))
          (set_value (VNum float_50_6)) = 1%nat.
Proof. vm_compute. reflexivity. Qed.

(** After 0.6 was drawn, 1.1 is drawn: the two binary64 numbers differ
    by 0.5 + 2^-53, which is a binary64 number. *)
Example float_0_6_then_1_1_drawn :
  exact_difference float_1_1 float_0_6 /\
  redraws (gauge_after float_0_6 (snd (GaugeWidget_init 0 100)))
          (set_value (VNum float_1_1)) = 1%nat.
Proof. repeat split; vm_compute; reflexivity. Qed.

(** The binary64 numbers written 0.3 and 0.8 differ by 0.5 + 2^-54, which
    is not a binary64 number: their difference is rounded by the code,
    and the redraw policy above is silent on them. *)
Example float_0_3_then_0_8_rounded :
  float_0_8 - float_0_3 == (1#2) + (1 # 2 ^ 54) /\
  is_binary64 (float_0_8 - float_0_3) = false.
Proof. split; vm_compute; reflexivity. Qed.

(** The PyQt5 gauge has no redraw threshold: every [set_value] of a number
    asks for a repaint. *)
Lemma qt_set_value_always_updates (g : QtGui.GaugeWidget) (v : Q) :
  QtGui.update_requests (snd (QtGui.set_value (VNum v) g)) =
  S (QtGui.update_requests g).
Proof. reflexivity. Qed.

Lemma nth_error_draw_marks (g : GaugeWidget) (i : nat) :
  (i < 9)%nat ->
  nth_error (_draw_marks g) i = Some (mark_angle i, py_int (mark_val g i)).
Proof.
  intros H. unfold _draw_marks.
  do 9 (destruct i as [|i]; [reflexivity|]). lia.
Qed.

(** C7, as the code has it.  For every gauge and every [i] in [0..8],
    mark [i] is placed at angle [225 - 270 * i / 8] and labelled with
    [min + (max - min) * i / 8] truncated toward zero by [int()]; there
    are nine marks, and a gauge with minimum 0 and maximum 8000 shows the
    labels 0, 1000, ..., 8000. *)
Theorem draw_marks_layout (g : GaugeWidget) (i : nat) :
  (i < 9)%nat ->
  length (_draw_marks g) = 9%nat /\
  (exists label,
     nth_error (_draw_marks g) i =
       Some (225 - (270 * inject_Z (Z.of_nat i) / 8), label) /\
     label =
       py_int (min_val g
               + (max_val g - min_val g) * inject_Z (Z.of_nat i) / 8) /\
     (0 <= mark_val g i ->
      inject_Z label <= mark_val g i < inject_Z label + 1) /\
     (mark_val g i <= 0 ->
      inject_Z label - 1 < mark_val g i <= inject_Z label)) /\
  (min_val g = 0 -> max_val g = 8000 ->
   map snd (_draw_marks g) =
     [0; 1000; 2000; 3000; 4000; 5000; 6000; 7000; 8000]%Z).
Proof.
  intros H. split; [reflexivity|]. split.
  - exists (py_int (mark_val g i)).
    split; [apply nth_error_draw_marks; exact H|].
    split; [reflexivity|]. apply py_int_trunc.
  - intros Hmin Hmax. unfold _draw_marks, mark_val.
    rewrite Hmin, Hmax. vm_compute. reflexivity.
Qed.

Lemma draw_marks_layout_witness :
  nth_error (map snd (_draw_marks (snd (GaugeWidget_init 0 8000)))) 3
  = Some 3000%Z.
Proof.
  destruct (draw_marks_layout (snd (GaugeWidget_init 0 8000)) 3
              ltac:(lia)) as (_ & _ & H).
  rewrite H by reflexivity. reflexivity.
Defined.

(** C7 fails as stated: on the oil gauge (range 0 to 150) mark 1 stands
    for 18.75 and is labelled 18, which is not a nearest integer. *)
Lemma draw_marks_nearest_counterexample :
  ~ (forall (g : GaugeWidget) (i : nat),
       spec_ok g -> (i < 9)%nat ->
       exists angle label,
         nth_error (_draw_marks g) i = Some (angle, label) /\
         nearest_int (mark_val g i) label).
Proof.
  intros H.
  destruct (H (snd (GaugeWidget_init 0 150)) 1%nat
              ltac:(reflexivity) ltac:(lia)) as (angle & label & Hn & Hr).
  vm_compute in Hn. injection Hn as _ Hl. subst label.
  vm_compute in Hr. apply Hr. reflexivity.
Qed.

(** The PyQt5 gauge lays out and labels its scale marks in the same
    way. *)
Lemma qt_scale_marks_same (g : GaugeWidget) (q : QtGui.GaugeWidget) :
  QtGui.min_value q = min_val g -> QtGui.max_value q = max_val g ->
  QtGui._draw_scale_marks q = _draw_marks g.
Proof.
  intros Hmin Hmax. unfold QtGui._draw_scale_marks, _draw_marks, mark_val.
  rewrite Hmin, Hmax. reflexivity.
Qed.

(** In [dashboard.py], [draw] at the minimum gives an active arc of
    extent 0 and at the maximum an extent of -270 degrees; [set_value] of
    the minimum or of the maximum on a gauge that has drawn no value yet
    draws these renders. *)
Lemma draw_extent_ends (g : GaugeWidget) :
  spec_ok g ->
  draw g = (Ok tt, with_render g) /\
  (value g == min_val g -> extent (render g) == 0) /\
  (value g == max_val g -> extent (render g) == -270) /\
  (_last_drawn_value g = None ->
   (exists geo, canvas (gauge_after (min_val g) g) = geo :: canvas g /\
                extent geo == 0) /\
   (exists geo, canvas (gauge_after (max_val g) g) = geo :: canvas g /\
                extent geo == -270)).
Proof.
  intros H. split; [apply draw_ok; exact H|].
  unfold spec_ok in H.
  assert (Hmin : forall x, x == min_val g ->
            -270 * ((x - min_val g) / (max_val g - min_val g)) == 0).
  { intros x Hx.
    setoid_replace (x - min_val g) with 0 using relation Qeq by lra.
    field. lra. }
  assert (Hmax : forall x, x == max_val g ->
            -270 * ((x - min_val g) / (max_val g - min_val g)) == -270).
  { intros x Hx.
    setoid_replace (x - min_val g) with (max_val g - min_val g)
      using relation Qeq by lra.
    field. lra. }
  split; [exact (Hmin (value g))|]. split; [exact (Hmax (value g))|].
  intros Hn. unfold gauge_after.
  rewrite !set_value_run by exact H.
  unfold must_redraw. rewrite Hn. simpl.
  split; eexists; (split; [reflexivity|]); simpl; unfold ratio_of; simpl.
  - apply Hmin, clamp_inside. lra.
  - apply Hmax, clamp_inside. lra.
Qed.

(** In the PyQt5 gauge the active span is the same ratio of 270 degrees,
    with a positive sign. *)
Lemma qt_paint_span_at_ends (g : QtGui.GaugeWidget) :
  QtGui.min_value g < QtGui.max_value g ->
  exists p, QtGui.paintEvent g = Ok p /\
    (QtGui.current_value g == QtGui.min_value g -> QtGui.active_span p == 0) /\
    (QtGui.current_value g == QtGui.max_value g ->
     QtGui.active_span p == 270).
Proof.
  intros H. unfold QtGui.paintEvent.
  rewrite py_truediv_ok by lra. simpl. eexists. split; [reflexivity|].
  simpl. unfold QtGui.span_angle. split; intros Hx.
  - setoid_replace (QtGui.current_value g - QtGui.min_value g) with 0
      using relation Qeq by lra.
    field. lra.
  - setoid_replace (QtGui.current_value g - QtGui.min_value g)
      with (QtGui.max_value g - QtGui.min_value g)
      using relation Qeq by lra.
    field. lra.
Qed.

(** ** Running computations *)

Lemma wp_bind {S A B : Type} (m : M S A) (k : A -> M S B)
    (post : Exc B -> S -> Prop) (s : S) :
  wp m (fun res s' =>
          match res with
          | Ok a => wp (k a) post s'
          | Raise e => post (Raise e) s'
          end) s ->
  wp (bind m k) post s.
Proof.
  unfold wp, bind. destruct (m s) as [[a|e] s']; simpl; trivial.
Qed.

Lemma wp_run {S A : Type} (m : M S A) (post : Exc A -> S -> Prop)
    (s s' : S) (res : Exc A) :
  m s = (res, s') -> post res s' -> wp m post s.
Proof. intros E H. unfold wp. rewrite E. exact H. Qed.

Lemma py_truediv_100 (x : Q) : py_truediv x 100 = Ok (x / 100).
Proof. reflexivity. Qed.

Lemma maf_fraction_run (maf mmaf : Q) :
  maf_fraction maf mmaf = Ok (if py_gt mmaf 0 then maf / mmaf else 0).
Proof.
  unfold maf_fraction. destruct (py_gt mmaf 0) eqn:E; [|reflexivity].
  apply py_gt_true in E. apply py_truediv_ok. lra.
Qed.

Lemma on_gauge_set_value (id : GaugeId) (v : Q) (s : OBDDashboard) :
  spec_ok (gauges s id) ->
  on_gauge id (set_value (VNum v)) s
  = (Ok tt, set_gauge id (gauge_after v (gauges s id)) s).
Proof.
  intros H. unfold on_gauge, gauge_after.
  rewrite (set_value_run (gauges s id) v H). reflexivity.
Qed.

(** ** Reading from the adapter *)

Lemma read_state (c : option OBD.Connection) (cmd : string) (default : Q)
    (s : OBDDashboard) :
  snd (_read c cmd default s) = s.
Proof.
  unfold _read, bind, get, lift, ret.
  destruct (use_sim s || negb (dict_contains (commands s) cmd));
    [reflexivity|].
  destruct (try_except _ _) as [[v|]|e]; reflexivity.
Qed.

Lemma read_mapped (c : option OBD.Connection) (cmd : string) (default : Q)
    (s : OBDDashboard) :
  use_sim s = false -> mapped s cmd ->
  _read c cmd default s
  = (Ok (VNum (live_value c (commands s) cmd default)), s).
Proof.
  unfold _read, mapped, bind, get, lift, ret, live_value, dict_getitem,
    dict_contains.
  intros Hlive Hin. rewrite Hlive.
  destruct (commands s !! cmd) as [command|] eqn:E; [|discriminate].
  simpl.
  destruct (read_obd_data c command) as [[res|]|e]; reflexivity.
Qed.

Lemma read_unmapped (c : option OBD.Connection) (cmd : string) (default : Q)
    (s : OBDDashboard) :
  commands s !! cmd = None -> _read c cmd default s = (Ok VNone, s).
Proof.
  unfold _read, bind, get, ret, dict_contains. intros E. rewrite E.
  rewrite orb_true_r. reflexivity.
Qed.

Lemma read_obd_data_fails (c : option OBD.Connection) (command : PyCommand) :
  query_fails c command -> read_obd_data c command = Ok None.
Proof.
  unfold query_fails, read_obd_data. destruct c as [conn|]; [|reflexivity].
  destruct (OBD.query conn command) as [response|e]; [|reflexivity].
  intros H. simpl. rewrite H. reflexivity.
Qed.

Lemma live_value_fails (c : option OBD.Connection)
    (catalog : gmap string PyCommand) (cmd : string) (default : Q) :
  (forall command, catalog !! cmd = Some command -> query_fails c command) ->
  live_value c catalog cmd default = default.
Proof.
  unfold live_value. intros H.
  destruct (catalog !! cmd) as [command|]; [|reflexivity].
  rewrite read_obd_data_fails by (apply H; reflexivity). reflexivity.
Qed.

(** ** One tick, run to its end *)

Ltac state_simpl :=
  cbv zeta; unfold of_int;
  cbn [fst snd use_sim commands runtime dist_dtc time_dtc gauges labels
       set_runtime set_dist_dtc set_time_dtc set_gauge set_labels
       GaugeId_eqb spd r thr ld tim cool int_t oil_t fp fr ip maf mmaf
       of_int need_num
       load_lbl load_bar timing runtime_lbl maf_lbl maf_bar max_maf
       dist_lbl time_lbl
       show_load_lbl show_load_bar show_timing show_runtime_lbl
       show_maf_lbl show_maf_bar show_max_maf show_dist_lbl show_time_lbl].

Ltac solve_mapped :=
  lazymatch goal with
  | Hm : all_mapped ?s0 |- mapped _ ?cmd =>
      change (mapped s0 cmd); eapply Hm;
      repeat (first [left; reflexivity | right])
  end.

Ltac run_step :=
  lazymatch goal with
  | |- wp (bind _ _) _ _ => apply wp_bind
  | |- wp (_read _ _ _) _ _ =>
      eapply wp_run;
      [apply read_mapped; [state_simpl; assumption | solve_mapped] |]
  | |- wp (on_gauge _ (set_value (VNum _))) _ _ =>
      eapply wp_run; [apply on_gauge_set_value; state_simpl; auto |]
  | |- wp (lift (py_truediv _ 100)) _ _ =>
      eapply wp_run; [unfold lift; rewrite py_truediv_100; reflexivity |]
  | |- wp (lift (maf_fraction _ _)) _ _ =>
      eapply wp_run; [unfold lift; rewrite maf_fraction_run; reflexivity |]
  | |- wp (if ?b then _ else _) _ _ =>
      first [ match goal with H : b = _ |- _ => rewrite H end
            | let E := fresh "E" in destruct b eqn:E ]
  | |- wp _ _ _ => eapply wp_run; [reflexivity |]
  end;
  state_simpl.

Lemma truthy_false (q : Q) : truthy (VNum q) = false -> py_gt q 0 = false.
Proof.
  simpl. intros H. apply negb_false_iff, Qeq_bool_eq in H.
  apply py_gt_false. lra.
Qed.

Lemma live_tick_spec (c : option OBD.Connection) (rnd : Draws)
    (s : OBDDashboard) :
  use_sim s = false -> gauges_ok s -> all_mapped s ->
  wp (_update c rnd)
     (fun res s' => res = Ok tt /\ live_tick_post c rnd s s') s.
Proof.
  intros Hlive Hg Hm. unfold _update. state_simpl.
  repeat run_step;
    (split; [reflexivity|]);
    unfold live_tick_post, overwritten_if_positive; state_simpl;
    repeat match goal with
           | H : truthy (VNum _) = false |- _ => apply truthy_false in H
           end;
    repeat match goal with
           | H : py_gt _ _ = _ |- _ => rewrite H
           end;
    repeat split; try reflexivity; try assumption;
    intros id; destruct id; reflexivity.
Qed.

Lemma sim_tick_spec (c : option OBD.Connection) (rnd : Draws)
    (s : OBDDashboard) :
  use_sim s = true -> gauges_ok s ->
  wp (_update c rnd)
     (fun res s' => res = Ok tt /\ sim_tick_post rnd s s') s.
Proof.
  intros Hsim Hg. unfold _update. state_simpl.
  repeat run_step.
  split; [reflexivity|]. unfold sim_tick_post. state_simpl.
  repeat split; try reflexivity; try assumption.
  intros id; destruct id; reflexivity.
Qed.

Lemma gauges_ok_after (s s' : OBDDashboard) (f : GaugeId -> Q) :
  gauges_ok s ->
  (forall id, gauges s' id = gauge_after (f id) (gauges s id)) ->
  gauges_ok s'.
Proof.
  intros Hg H id. unfold gauges_ok in Hg. rewrite H.
  apply spec_ok_gauge_after, Hg.
Qed.

Lemma live_tick_gauges_ok (c : option OBD.Connection) (rnd : Draws)
    (s s' : OBDDashboard) :
  gauges_ok s -> live_tick_post c rnd s s' -> gauges_ok s'.
Proof.
  intros Hg (_ & _ & _ & _ & _ & H & _).
  eapply gauges_ok_after; [exact Hg | exact H].
Qed.

Lemma sim_tick_gauges_ok (rnd : Draws) (s s' : OBDDashboard) :
  gauges_ok s -> sim_tick_post rnd s s' -> gauges_ok s'.
Proof.
  intros Hg (_ & _ & _ & _ & _ & H & _).
  eapply gauges_ok_after; [exact Hg | exact H].
Qed.

Lemma gauges_ok_init (use_sim connected : bool)
    (load_commands : ReadJson.Loaded (gmap string PyCommand)) :
  gauges_ok (OBDDashboard_init use_sim connected load_commands).
Proof.
  intros id. unfold OBDDashboard_init.
  destruct (if negb use_sim then _ else _) as [u cat].
  cbn [gauges]. unfold GaugeWidget_init.
  destruct id; cbn [gauge_range fst snd];
    (rewrite draw_ok; [|reflexivity]); reflexivity.
Qed.

Lemma all_mapped_full (s : OBDDashboard) :
  commands s = full_catalog -> all_mapped s.
Proof.
  intros H cmd default Hin. unfold mapped. rewrite H.
  unfold live_reads in Hin. simpl in Hin.
  repeat (destruct Hin as [Hin | Hin];
          [injection Hin as <- _; vm_compute; reflexivity|]).
  contradiction.
Qed.

(** ** The adapter helper *)

Lemma read_obd_data_returns (c : option OBD.Connection)
    (command : PyCommand) :
  exists v, read_obd_data c command = Ok v.
Proof.
  unfold read_obd_data. destruct c as [conn|]; [|eexists; reflexivity].
  destruct (OBD.query conn command) as [response|e];
    eexists; reflexivity.
Qed.

(** The helper of [obd_dashboard_gui.py] in terms of the query. *)
Lemma qt_read_obd_data_run (c : option OBD.Connection)
    (command : PyCommand) :
  QtGui.read_obd_data c command
  = match c with
    | None => Ok None
    | Some conn =>
        match OBD.query conn command with
        | Ok response =>
            Ok (if OBD.is_null response then None
                else Some (OBD.value response))
        | Raise e => if is_Exception e then Ok None else Raise e
        end
    end.
Proof.
  unfold QtGui.read_obd_data. destruct c as [conn|]; [|reflexivity].
  destruct (OBD.query conn command) as [response|e]; [|reflexivity].
  simpl. destruct (OBD.is_null response); reflexivity.
Qed.

(** It raises only what [except Exception] does not catch. *)
Lemma qt_read_obd_data_raises (c : option OBD.Connection)
    (command : PyCommand) (e : PyExc) :
  QtGui.read_obd_data c command = Raise e ->
  is_Exception e = false /\
  exists conn, c = Some conn /\ OBD.query conn command = Raise e.
Proof.
  rewrite qt_read_obd_data_run. destruct c as [conn|]; [|discriminate].
  destruct (OBD.query conn command) as [response|e'] eqn:Eq;
    [discriminate|].
  destruct (is_Exception e') eqn:E; [discriminate|].
  intros [= <-]. split; [exact E|]. exists conn.
  split; [reflexivity | exact Eq].
Qed.

Lemma qt_read_obd_data_returns (c : option OBD.Connection)
    (command : PyCommand) :
  raises_only_Exception c command ->
  exists v, QtGui.read_obd_data c command = Ok v.
Proof.
  rewrite qt_read_obd_data_run. unfold raises_only_Exception.
  destruct c as [conn|]; [|eexists; reflexivity].
  destruct (OBD.query conn command) as [response|e].
  - eexists; reflexivity.
  - intros ->. eexists; reflexivity.
Qed.

(** The two helpers agree unless the query raises an exception that is
    not of class [Exception]. *)
Lemma qt_read_obd_data_same (c : option OBD.Connection)
    (command : PyCommand) :
  raises_only_Exception c command ->
  QtGui.read_obd_data c command = read_obd_data c command.
Proof.
  rewrite qt_read_obd_data_run.
  unfold raises_only_Exception, read_obd_data.
  destruct c as [conn|]; [|reflexivity].
  destruct (OBD.query conn command) as [response|e].
  - intros _. simpl. destruct (OBD.is_null response); reflexivity.
  - intros ->. reflexivity.
Qed.

(** C10, as the code has it.  The helper of [dashboard.py] is total and
    never raises: it returns [None] when no connection was made, when the
    query raises any exception and when the response is null, and the
    value of the response otherwise.  The helper of
    [obd_dashboard_gui.py] returns the same results, but for a query
    that raises an exception which is not of class [Exception]: that
    exception is propagated to the caller. *)
Theorem read_obd_data_total (obd_connection : option OBD.Connection)
    (command : PyCommand) :
  (exists v, read_obd_data obd_connection command = Ok v) /\
  (obd_connection = None ->
   read_obd_data obd_connection command = Ok None /\
   QtGui.read_obd_data obd_connection command = Ok None) /\
  (forall conn,
     obd_connection = Some conn ->
     match OBD.query conn command with
     | Raise e =>
         read_obd_data obd_connection command = Ok None /\
         QtGui.read_obd_data obd_connection command
         = if is_Exception e then Ok None else Raise e
     | Ok response =>
         read_obd_data obd_connection command =
         Ok (if OBD.is_null response then None
             else Some (OBD.value response)) /\
         QtGui.read_obd_data obd_connection command =
         Ok (if OBD.is_null response then None
             else Some (OBD.value response))
     end) /\
  (raises_only_Exception obd_connection command ->
   QtGui.read_obd_data obd_connection command
   = read_obd_data obd_connection command).
Proof.
  split; [apply read_obd_data_returns|].
  split; [intros ->; split; reflexivity|].
  split.
  - intros conn ->. rewrite qt_read_obd_data_run. unfold read_obd_data.
    destruct (OBD.query conn command) as [response|e];
      [|split; reflexivity].
    simpl. destruct (OBD.is_null response); split; reflexivity.
  - apply qt_read_obd_data_same.
Qed.

Lemma read_obd_data_total_witness :
  QtGui.read_obd_data broken (Cmd "SPEED")
  = read_obd_data broken (Cmd "SPEED").
Proof.
  apply (proj2 (proj2 (proj2 (read_obd_data_total broken (Cmd "SPEED"))))).
  reflexivity.
Defined.

(** C10 fails as stated for the helper of [obd_dashboard_gui.py]: a
    query that is interrupted from the keyboard raises
    [KeyboardInterrupt], which [except Exception] does not catch and the
    helper propagates. *)
Lemma qt_read_obd_data_propagates_counterexample :
  ~ (forall (obd_connection : option OBD.Connection) (command : PyCommand),
       exists v, QtGui.read_obd_data obd_connection command = Ok v).
Proof.
  intros H. destruct (H interrupted (Cmd "SPEED")) as [v Hv].
  vm_compute in Hv. discriminate Hv.
Qed.

(** ** Invariants of computations that may raise *)

Section Hoare.

Context {S : Type}.
Variable I : S -> Prop.
Variable E : PyExc -> Prop.

Lemma hoare_bind {A B : Type} (m : M S A) (k : A -> M S B)
    (Q : A -> Prop) (Q' : B -> Prop) :
  hoare I E m Q -> (forall a, Q a -> hoare I E (k a) Q') ->
  hoare I E (bind m k) Q'.
Proof.
  intros Hm Hk s Hs. unfold bind.
  destruct (Hm s Hs) as [Hi Hr].
  destruct (m s) as [[a|e] s']; simpl in *.
  - apply (Hk a Hr s' Hi).
  - split; assumption.
Qed.

Lemma hoare_weaken {A : Type} (m : M S A) (Q Q' : A -> Prop) :
  hoare I E m Q -> (forall a, Q a -> Q' a) -> hoare I E m Q'.
Proof.
  intros Hm HQ s Hs. destruct (Hm s Hs) as [Hi Hr].
  split; [exact Hi|]. destruct (fst (m s)); auto.
Qed.

Lemma hoare_ret {A : Type} (a : A) (Q : A -> Prop) :
  Q a -> hoare I E (ret a) Q.
Proof. intros H s Hs. split; assumption. Qed.

Lemma hoare_get : hoare I E get I.
Proof. intros s Hs. split; assumption. Qed.

Lemma hoare_raise {A : Type} (e : PyExc) (Q : A -> Prop) :
  E e -> hoare I E (raise e) Q.
Proof. intros H s Hs. split; assumption. Qed.

Lemma hoare_lift {A : Type} (res : Exc A) (Q : A -> Prop) :
  match res with Ok a => Q a | Raise e => E e end ->
  hoare I E (lift res) Q.
Proof. intros H s Hs. split; assumption. Qed.

Lemma hoare_modify (f : S -> S) :
  (forall s, I s -> I (f s)) -> hoare I E (modify f) (fun _ => True).
Proof. intros H s Hs. split; [apply H; exact Hs | exact Logic.I]. Qed.

Lemma hoare_need_num (v : PyVal) :
  E TypeError -> hoare I E (need_num v) (fun q => v = VNum q).
Proof.
  intros H. destruct v as [|q]; simpl.
  - apply hoare_raise. exact H.
  - apply hoare_ret. reflexivity.
Qed.

Lemma hoare_if {A : Type} (b : bool) (m1 m2 : M S A) (Q : A -> Prop) :
  (b = true -> hoare I E m1 Q) -> (b = false -> hoare I E m2 Q) ->
  hoare I E (if b then m1 else m2) Q.
Proof. destruct b; auto. Qed.

Lemma hoare_run {A : Type} (m : M S A) (Q : A -> Prop) (s : S) :
  hoare I E m Q -> I s ->
  I (snd (m s)) /\ (forall e, fst (m s) = Raise e -> E e).
Proof.
  intros H Hs. destruct (H s Hs) as [Hi Hr]. split; [exact Hi|].
  intros e He. rewrite He in Hr. exact Hr.
Qed.

End Hoare.

Lemma read_returns (c : option OBD.Connection) (cmd : string) (default : Q)
    (s : OBDDashboard) :
  exists v, _read c cmd default s = (Ok v, s).
Proof.
  unfold _read, bind, get, lift, ret.
  destruct (use_sim s || negb (dict_contains (commands s) cmd));
    [eexists; reflexivity|].
  unfold dict_getitem.
  destruct (commands s !! cmd) as [command|]; simpl;
    [|eexists; reflexivity].
  destruct (read_obd_data_returns c command) as [[res|] ->]; simpl;
    eexists; reflexivity.
Qed.

Lemma hoare_read (I : OBDDashboard -> Prop) (E : PyExc -> Prop)
    (c : option OBD.Connection) (cmd : string) (default : Q) :
  hoare I E (_read c cmd default) (fun _ => True).
Proof.
  intros s Hs. destruct (read_returns c cmd default s) as [v ->].
  split; [exact Hs | exact Logic.I].
Qed.

(** ** No division by zero in a tick *)

Lemma set_value_safe (v : PyVal) (g : GaugeWidget) :
  spec_ok g ->
  spec_ok (snd (set_value v g)) /\
  fst (set_value v g) <> Raise ZeroDivisionError.
Proof.
  intros H. destruct v as [|q].
  - split; [exact H | discriminate].
  - fold (gauge_after q g). split; [apply spec_ok_gauge_after; exact H|].
    rewrite set_value_run by exact H. discriminate.
Qed.

Lemma hoare_gauge_safe (id : GaugeId) (v : PyVal) :
  hoare gauges_ok no_zero_division (on_gauge id (set_value v))
        (fun _ => True).
Proof.
  intros s Hs. unfold on_gauge.
  destruct (set_value_safe v (gauges s id) (Hs id)) as [Hg Hr].
  destruct (set_value v (gauges s id)) as [res g]. simpl in *. split.
  - intros j. simpl. destruct (GaugeId_eqb id j); [exact Hg | apply Hs].
  - destruct res as [u|e]; [exact Logic.I|].
    intros ->. apply Hr. reflexivity.
Qed.

Lemma gauges_ok_frame (f : OBDDashboard -> OBDDashboard) :
  (forall s, gauges (f s) = gauges s) ->
  forall s, gauges_ok s -> gauges_ok (f s).
Proof. intros H s Hs id. rewrite H. apply Hs. Qed.

(** One step through a computation whose invariant depends on the gauges
    only: [gauge_rule] treats a call on a gauge, [frame_rule] an
    assignment to another attribute. *)
Ltac inv_step gauge_rule frame_rule :=
  lazymatch goal with
  | |- hoare _ _ (bind _ _) _ =>
      apply hoare_bind with (Q := fun _ => True); [| intros ? _]
  | |- hoare _ _ (_read _ _ _) _ => apply hoare_read
  | |- hoare _ _ (on_gauge _ (set_value _)) _ => apply gauge_rule
  | |- hoare _ _ (need_num _) _ =>
      eapply hoare_weaken;
      [apply hoare_need_num; first [exact Logic.I | discriminate]
      | intros; exact Logic.I]
  | |- hoare _ _ (lift (py_truediv _ 100)) _ =>
      apply hoare_lift; rewrite py_truediv_100; exact Logic.I
  | |- hoare _ _ (lift (maf_fraction _ _)) _ =>
      apply hoare_lift; rewrite maf_fraction_run; exact Logic.I
  | |- hoare _ _ (if _ then _ else _) _ => apply hoare_if; intros ?
  | |- hoare _ _ get _ =>
      eapply hoare_weaken; [apply hoare_get | intros; exact Logic.I]
  | |- hoare _ _ (ret _) _ => apply hoare_ret; exact Logic.I
  | |- hoare _ _ (modify _) _ =>
      apply hoare_modify; apply frame_rule; reflexivity
  | |- hoare _ _ (configure _) _ =>
      apply hoare_modify; apply frame_rule; reflexivity
  end.

Lemma update_safe (c : option OBD.Connection) (rnd : Draws) :
  hoare gauges_ok no_zero_division (_update c rnd) (fun _ => True).
Proof.
  unfold _update. cbv zeta.
  repeat inv_step hoare_gauge_safe gauges_ok_frame.
Qed.

(** ** Every render of the dashboard lies on the arc *)

Lemma set_value_on_arc (v : PyVal) (g : GaugeWidget) :
  spec_ok g -> Forall on_arc (canvas g) ->
  Forall on_arc (canvas (snd (set_value v g))).
Proof.
  intros H Hc. destruct v as [|q]; [exact Hc|].
  rewrite set_value_run by exact H. cbn [snd].
  destruct (must_redraw g (clamp g q)); [|exact Hc].
  cbn [canvas with_render with_value]. constructor; [|exact Hc].
  apply render_on_arc; [exact H|].
  cbn [min_val max_val value with_value].
  apply clamp_range. unfold spec_ok in H. lra.
Qed.

Lemma hoare_gauge_on_arc (id : GaugeId) (v : PyVal) :
  hoare renders_on_arc any_exception (on_gauge id (set_value v))
        (fun _ => True).
Proof.
  intros s [Hg Hc]. unfold on_gauge.
  destruct (set_value_safe v (gauges s id) (Hg id)) as [Hg' _].
  pose proof (set_value_on_arc v (gauges s id) (Hg id) (Hc id)) as Hc'.
  destruct (set_value v (gauges s id)) as [res g]. simpl in *. split.
  - split; intros j; simpl;
      (destruct (GaugeId_eqb id j); [assumption | auto]).
  - destruct res; exact Logic.I.
Qed.

Lemma renders_on_arc_frame (f : OBDDashboard -> OBDDashboard) :
  (forall s, gauges (f s) = gauges s) ->
  forall s, renders_on_arc s -> renders_on_arc (f s).
Proof.
  intros H s [Hg Hc]. split; intros id; rewrite H; auto.
Qed.

Lemma update_on_arc (c : option OBD.Connection) (rnd : Draws) :
  hoare renders_on_arc any_exception (_update c rnd) (fun _ => True).
Proof.
  unfold _update. cbv zeta.
  repeat inv_step hoare_gauge_on_arc renders_on_arc_frame.
Qed.

Lemma init_on_arc (use_sim connected : bool)
    (load_commands : ReadJson.Loaded (gmap string PyCommand)) :
  renders_on_arc (OBDDashboard_init use_sim connected load_commands).
Proof.
  split; [apply gauges_ok_init|].
  intros id. unfold OBDDashboard_init.
  destruct (if negb use_sim then _ else _) as [u cat].
  cbn [gauges]. unfold GaugeWidget_init.
  destruct id; cbn [gauge_range fst snd];
    (rewrite draw_ok; [|reflexivity]);
    (constructor; [|constructor]);
    (apply render_on_arc; [reflexivity | simpl; lra]).
Qed.

(** ** The accumulators in a Live tick, whatever its outcome *)

Lemma hoare_read_live (c : option OBD.Connection) (s0 : OBDDashboard)
    (cmd : string) (default : Q) :
  hoare (live_rel c s0) any_exception (_read c cmd default)
        (fun v => v = VNone \/
                  v = VNum (live_value c (commands s0) cmd default)).
Proof.
  intros s Hs. pose proof Hs as (Hu & Hc & _).
  destruct (commands s !! cmd) as [command|] eqn:Hcmd.
  - rewrite read_mapped;
      [| exact Hu | unfold mapped, dict_contains; rewrite Hcmd; reflexivity].
    rewrite Hc. split; [exact Hs | right; reflexivity].
  - rewrite read_unmapped by exact Hcmd.
    split; [exact Hs | left; reflexivity].
Qed.

Lemma hoare_gauge_frame (c : option OBD.Connection) (s0 : OBDDashboard)
    (id : GaugeId) (m : M GaugeWidget unit) :
  hoare (live_rel c s0) any_exception (on_gauge id m) (fun _ => True).
Proof.
  intros s Hs. unfold on_gauge. destruct (m (gauges s id)) as [res g].
  split; [exact Hs | destruct res; exact I].
Qed.

Lemma live_rel_frame (c : option OBD.Connection) (s0 : OBDDashboard)
    (f : Labels -> Labels) (s : OBDDashboard) :
  live_rel c s0 s -> live_rel c s0 (set_labels (f (labels s)) s).
Proof. intros H. exact H. Qed.

Lemma live_rel_refl (c : option OBD.Connection) (s : OBDDashboard) :
  use_sim s = false -> live_rel c s s.
Proof.
  intros H. unfold live_rel, kept_or_positive_read.
  repeat split; try assumption; left; reflexivity.
Qed.

(** The number assigned to an accumulator is the number read, and it is
    positive. *)
Ltac positive_read :=
  lazymatch goal with
  | |- ?q = _ /\ _ =>
      match goal with
      | Hn : ?v = VNum q, Hv : ?v = VNone \/ ?v = VNum _,
        Hp : py_gt q 0 = true |- _ =>
          rewrite Hn in Hv; destruct Hv as [Hv | Hv]; [discriminate Hv|];
          injection Hv as Hv; rewrite <- Hv;
          split; [reflexivity | apply py_gt_true; exact Hp]
      end
  end.

Ltac rel_modify :=
  apply hoare_modify;
  let s := fresh "s" in
  intros s (? & ? & ? & ? & ?);
  unfold live_rel, kept_or_positive_read;
  cbn [use_sim commands runtime dist_dtc time_dtc
       set_runtime set_dist_dtc set_time_dtc];
  repeat split; try assumption; right; positive_read.

Ltac rel_step :=
  lazymatch goal with
  | |- hoare (live_rel ?c ?s0) _ (bind (_read ?c ?cmd ?d) _) _ =>
      apply hoare_bind
        with (Q := fun v => v = VNone \/
                            v = VNum (live_value c (commands s0) cmd d));
      [apply hoare_read_live | intros ? ?]
  | |- hoare _ _ (bind (need_num ?v) _) _ =>
      apply hoare_bind with (Q := fun q => v = VNum q);
      [apply hoare_need_num; exact I | intros ? ?]
  | |- hoare _ _ (bind _ _) _ =>
      apply hoare_bind with (Q := fun _ => True); [| intros ? _]
  | |- hoare _ _ (on_gauge _ _) _ => apply hoare_gauge_frame
  | |- hoare _ _ (lift ?res) _ =>
      apply hoare_lift; destruct res; exact I
  | |- hoare _ _ (if _ then _ else _) _ => apply hoare_if; intros ?
  | |- hoare _ _ get _ =>
      eapply hoare_weaken; [apply hoare_get | intros; exact I]
  | |- hoare _ _ (ret _) _ => apply hoare_ret; exact I
  | |- hoare _ _ (configure _) _ =>
      apply hoare_modify; intros; apply live_rel_frame; assumption
  | |- hoare _ _ (modify _) _ => rel_modify
  end.

Lemma update_live_rel (c : option OBD.Connection) (rnd : Draws)
    (s0 : OBDDashboard) :
  hoare (live_rel c s0) any_exception (_update c rnd) (fun _ => True).
Proof.
  unfold _update. cbv zeta.
  apply hoare_bind with (Q := live_rel c s0); [apply hoare_get|].
  intros self (Hu & _). rewrite Hu.
  repeat rel_step.
Qed.

(** ** Clearing the trouble codes *)

Lemma clear_dtc_run (c : option OBD.Connection) (yes : bool)
    (s : OBDDashboard) :
  _clear_dtc c yes s
  = (Ok tt, if yes then set_time_dtc 0 (set_dist_dtc 0 s) else s).
Proof.
  unfold _clear_dtc. destruct yes; [|reflexivity].
  unfold bind, get, try_catch_Exception, lift, modify.
  destruct (use_sim s); simpl; [reflexivity|].
  destruct (read_obd_data_returns c (dict_get (commands s) "clear_dtc"))
    as [v ->].
  reflexivity.
Qed.

(** The PyQt5 dashboard indexes the catalog: without an entry for
    ['clear_dtc'] the [KeyError] is handled and nothing is reset; with
    one, a confirmed clearing resets the two accumulators unless the
    helper propagates an exception, which then escapes. *)
Lemma qt_clear_dtc_codes_run (c : option OBD.Connection)
    (s : QtGui.OBDDashboard) :
  QtGui.use_simulation s = false ->
  QtGui._clear_dtc_codes c true s
  = match QtGui.commands s !! "clear_dtc" with
    | Some command =>
        match QtGui.read_obd_data c command with
        | Ok _ => (Ok tt, QtGui.reset_since_clear s)
        | Raise e => (Raise e, s)
        end
    | None => (Ok tt, s)
    end.
Proof.
  intros Hu. unfold QtGui._clear_dtc_codes, bind, get,
    try_catch_Exception, lift, modify, dict_getitem.
  rewrite Hu. simpl.
  destruct (QtGui.commands s !! "clear_dtc") as [command|]; [|reflexivity].
  destruct (QtGui.read_obd_data c command) as [v|e] eqn:E; [reflexivity|].
  apply qt_read_obd_data_raises in E. destruct E as [-> _]. reflexivity.
Qed.

Lemma qt_clear_dtc_codes_sim (c : option OBD.Connection)
    (s : QtGui.OBDDashboard) :
  QtGui.use_simulation s = true ->
  QtGui._clear_dtc_codes c true s = (Ok tt, QtGui.reset_since_clear s).
Proof.
  intros Hu. unfold QtGui._clear_dtc_codes, bind, get, modify.
  rewrite Hu. reflexivity.
Qed.

Lemma qt_clear_dtc_codes_runtime (c : option OBD.Connection) (yes : bool)
    (s : QtGui.OBDDashboard) :
  QtGui.runtime_seconds (snd (QtGui._clear_dtc_codes c yes s))
  = QtGui.runtime_seconds s.
Proof.
  destruct yes; [|reflexivity].
  destruct (QtGui.use_simulation s) eqn:Hu.
  - rewrite qt_clear_dtc_codes_sim by exact Hu. reflexivity.
  - rewrite qt_clear_dtc_codes_run by exact Hu.
    destruct (QtGui.commands s !! "clear_dtc") as [command|];
      [|reflexivity].
    destruct (QtGui.read_obd_data c command); reflexivity.
Qed.

(** X21. Whatever the timer, the adapter and the user do to a dashboard,
    in either mode and also after ticks that raised, every render of every
    gauge lies on the arc: the extent of the active arc is between -270
    and 0 degrees and the needle between -45 and 225 degrees. *)
Lemma dashboard_renders_on_arc (use_sim connected : bool)
    (load_commands : ReadJson.Loaded (gmap string PyCommand))
    (acts : list Action) (id : GaugeId) :
  Forall on_arc
    (canvas (gauges (run acts (OBDDashboard_init use_sim connected
                                                 load_commands)) id)).
Proof.
  assert (H : forall s, renders_on_arc s -> renders_on_arc (run acts s)).
  { induction acts as [|a acts IH]; intros s Hs; [exact Hs|].
    simpl. apply IH. destruct a as [c rnd | c yes]; simpl.
    - exact (proj1 (hoare_run _ _ _ _ s (update_on_arc c rnd) Hs)).
    - rewrite clear_dtc_run. destruct yes; exact Hs. }
  apply H, init_on_arc.
Qed.

(** C5, as the code has it.  From a state with the distance since the
    clearing at 42.3, the time since the clearing at 7200 and the run
    time at 5000, a confirmed clearing of the trouble codes never changes
    the run time.  In [dashboard.py] it does not raise and sets the two
    accumulators to 0 in both modes and, in Live mode, for every adapter:
    whether there is no connection, the clear query raises, or its
    response is null or not.  In [obd_dashboard_gui.py] it does so in
    Simulated mode, and in Live mode when the catalog has an entry for
    ['clear_dtc'] and the clear query raises no exception that is not of
    class [Exception]; without the entry it resets nothing, and an
    exception that is not of class [Exception] escapes with nothing
    reset. *)
Theorem clear_dtc_resets (obd_connection : option OBD.Connection)
    (s : OBDDashboard) (q : QtGui.OBDDashboard) :
  dist_dtc s == 423#10 -> time_dtc s == 7200 -> runtime s == 5000 ->
  QtGui.distance_since_clear q == 423#10 ->
  QtGui.time_since_clear q == 7200 ->
  QtGui.runtime_seconds q == 5000 ->
  (fst (_clear_dtc obd_connection true s) = Ok tt /\
   dist_dtc (snd (_clear_dtc obd_connection true s)) = 0 /\
   time_dtc (snd (_clear_dtc obd_connection true s)) = 0 /\
   runtime (snd (_clear_dtc obd_connection true s)) = runtime s /\
   runtime (snd (_clear_dtc obd_connection true s)) == 5000) /\
  (QtGui.runtime_seconds (snd (QtGui._clear_dtc_codes obd_connection true q))
   = QtGui.runtime_seconds q /\
   QtGui.runtime_seconds (snd (QtGui._clear_dtc_codes obd_connection true q))
   == 5000) /\
  (QtGui.use_simulation q = true \/
   (exists command,
      QtGui.commands q !! "clear_dtc" = Some command /\
      raises_only_Exception obd_connection command) ->
   QtGui._clear_dtc_codes obd_connection true q
   = (Ok tt, QtGui.reset_since_clear q) /\
   QtGui.distance_since_clear
     (snd (QtGui._clear_dtc_codes obd_connection true q)) = 0 /\
   QtGui.time_since_clear
     (snd (QtGui._clear_dtc_codes obd_connection true q)) = 0) /\
  (QtGui.use_simulation q = false ->
   QtGui.commands q !! "clear_dtc" = None ->
   QtGui._clear_dtc_codes obd_connection true q = (Ok tt, q)) /\
  (QtGui.use_simulation q = false ->
   forall command conn e,
     QtGui.commands q !! "clear_dtc" = Some command ->
     obd_connection = Some conn ->
     OBD.query conn command = Raise e ->
     is_Exception e = false ->
     QtGui._clear_dtc_codes obd_connection true q = (Raise e, q)).
Proof.
  intros _ _ Hr _ _ Hq. split; [|split; [|split; [|split]]].
  - rewrite clear_dtc_run. simpl.
    repeat split; try reflexivity. exact Hr.
  - rewrite qt_clear_dtc_codes_runtime. split; [reflexivity | exact Hq].
  - intros Hcase.
    assert (E : QtGui._clear_dtc_codes obd_connection true q
                = (Ok tt, QtGui.reset_since_clear q)).
    { destruct (QtGui.use_simulation q) eqn:Hu.
      - apply qt_clear_dtc_codes_sim. exact Hu.
      - destruct Hcase as [Hsim | (command & Hc & Hexc)]; [discriminate|].
        rewrite qt_clear_dtc_codes_run by exact Hu. rewrite Hc.
        destruct (qt_read_obd_data_returns _ _ Hexc) as [v ->].
        reflexivity. }
    rewrite E. repeat split; reflexivity.
  - intros Hu Hc. rewrite qt_clear_dtc_codes_run by exact Hu.
    rewrite Hc. reflexivity.
  - intros Hu command conn e Hc -> Hquery He.
    rewrite qt_clear_dtc_codes_run by exact Hu. rewrite Hc.
    rewrite qt_read_obd_data_run, Hquery, He. reflexivity.
Qed.

Lemma clear_dtc_resets_witness :
  let s := set_runtime 5000
             (set_time_dtc 7200
                (set_dist_dtc (423#10) (live_dashboard full_catalog))) in
  let q := qt_scenario full_catalog in
  (dist_dtc (snd (_clear_dtc broken true s)) = 0 /\
   time_dtc (snd (_clear_dtc broken true s)) = 0 /\
   runtime (snd (_clear_dtc broken true s)) == 5000) /\
  (QtGui.distance_since_clear (snd (QtGui._clear_dtc_codes broken true q))
   = 0 /\
   QtGui.time_since_clear (snd (QtGui._clear_dtc_codes broken true q)) = 0).
Proof.
  intros s q.
  destruct (clear_dtc_resets broken s q)
    as ((_ & Hd & Ht & _ & Hr) & _ & Hqt & _);
    [reflexivity | reflexivity | reflexivity
     | reflexivity | reflexivity | reflexivity |].
  split; [split; [exact Hd | split; [exact Ht | exact Hr]]|].
  apply Hqt. right. exists (Cmd "CLEAR_DTC").
  split; [vm_compute; reflexivity | reflexivity].
Defined.

(** C5 fails as stated on the PyQt5 dashboard: in Live mode with a
    catalog that has no entry for ['clear_dtc'], a confirmed clearing
    leaves the distance at 42.3 and the time at 7200. *)
Lemma qt_clear_without_entry_counterexample :
  ~ (forall (obd_connection : option OBD.Connection)
            (q : QtGui.OBDDashboard),
       QtGui.distance_since_clear q == 423#10 ->
       QtGui.time_since_clear q == 7200 ->
       QtGui.runtime_seconds q == 5000 ->
       QtGui.distance_since_clear
         (snd (QtGui._clear_dtc_codes obd_connection true q)) == 0 /\
       QtGui.time_since_clear
         (snd (QtGui._clear_dtc_codes obd_connection true q)) == 0).
Proof.
  intros H.
  destruct (H (answering 1) (qt_scenario catalog_without_clear)
              ltac:(reflexivity) ltac:(reflexivity) ltac:(reflexivity))
    as [Hd _].
  vm_compute in Hd. discriminate Hd.
Qed.

(** ** The accumulators *)

Lemma draws_ok_dist (rnd : Draws) : draws_ok rnd -> 0 < rnd_dist rnd.
Proof.
  unfold draws_ok. intros H.
  do 12 (destruct H as [_ H]). lra.
Qed.

Lemma sim_tick_run (c : option OBD.Connection) (rnd : Draws)
    (s : OBDDashboard) :
  use_sim s = true -> gauges_ok s ->
  fst (_update c rnd s) = Ok tt /\
  sim_tick_post rnd s (snd (_update c rnd s)).
Proof. intros Hu Hg. exact (sim_tick_spec c rnd s Hu Hg). Qed.

Lemma live_tick_run (c : option OBD.Connection) (rnd : Draws)
    (s : OBDDashboard) :
  use_sim s = false -> gauges_ok s -> all_mapped s ->
  fst (_update c rnd s) = Ok tt /\
  live_tick_post c rnd s (snd (_update c rnd s)).
Proof. intros Hu Hg Hm. exact (live_tick_spec c rnd s Hu Hg Hm). Qed.

(** In Simulated mode no run of ticks and clearings lowers the runtime,
    and a run without a confirmed clearing lowers neither of the other
    two accumulators. *)
Lemma sim_run_monotone (acts : list Action) (s : OBDDashboard) :
  use_sim s = true -> gauges_ok s -> Forall action_ok acts ->
  runtime s <= runtime (run acts s) /\
  (forallb (fun a => negb (is_clear a)) acts = true ->
   dist_dtc s <= dist_dtc (run acts s) /\
   time_dtc s <= time_dtc (run acts s)).
Proof.
  intros Hu Hg Hok. revert s Hu Hg.
  induction Hok as [|a acts Ha Hok IH]; intros s Hu Hg.
  - simpl. split; [lra | intros _; lra].
  - simpl. destruct a as [c rnd | c yes]; simpl in *.
    + destruct (sim_tick_run c rnd s Hu Hg) as [_ Hpost].
      pose proof (sim_tick_gauges_ok rnd s _ Hg Hpost) as Hg'.
      destruct Hpost as (Hu' & _ & Hr & Hd & Ht & _).
      destruct (IH _ Hu' Hg') as [IHr IHd].
      pose proof (draws_ok_dist rnd Ha).
      split; [rewrite Hr in IHr; lra|].
      intros Hc. destruct (IHd Hc) as [IH1 IH2].
      rewrite Hd in IH1. rewrite Ht in IH2. lra.
    + rewrite clear_dtc_run. simpl.
      assert (Hs : use_sim (if yes then set_time_dtc 0 (set_dist_dtc 0 s)
                            else s) = true /\
                   gauges_ok (if yes then set_time_dtc 0 (set_dist_dtc 0 s)
                              else s) /\
                   runtime (if yes then set_time_dtc 0 (set_dist_dtc 0 s)
                            else s) = runtime s)
        by (destruct yes; repeat split; assumption).
      destruct Hs as (Hu' & Hg' & Hr).
      destruct (IH _ Hu' Hg') as [IHr IHd].
      split; [rewrite Hr in IHr; exact IHr|].
      destruct yes; simpl; [discriminate|]. exact IHd.
Qed.

(** C4, as the code has it.  In Simulated mode every tick completes and
    strictly increases the three accumulators, so that no run of ticks and
    clearings lowers the runtime, nor the other two when nothing is
    cleared.  Clearing never changes the runtime; a confirmed clearing
    sets the distance and the time since clear to 0, a declined one
    changes nothing.  In Live mode a tick, whatever its outcome, leaves
    each accumulator as it was or overwrites it with the number read, and
    overwrites only with a strictly positive number: a zero or failed read
    keeps the prior value, and a positive read replaces it whether it is
    greater or smaller. *)
Theorem accumulators_per_action :
  (forall c rnd s,
     use_sim s = true -> gauges_ok s -> draws_ok rnd ->
     fst (_update c rnd s) = Ok tt /\
     runtime s < runtime (snd (_update c rnd s)) /\
     dist_dtc s < dist_dtc (snd (_update c rnd s)) /\
     time_dtc s < time_dtc (snd (_update c rnd s))) /\
  (forall acts s,
     use_sim s = true -> gauges_ok s -> Forall action_ok acts ->
     runtime s <= runtime (run acts s) /\
     (forallb (fun a => negb (is_clear a)) acts = true ->
      dist_dtc s <= dist_dtc (run acts s) /\
      time_dtc s <= time_dtc (run acts s))) /\
  (forall c yes s,
     runtime (snd (_clear_dtc c yes s)) = runtime s /\
     (yes = true ->
      dist_dtc (snd (_clear_dtc c yes s)) = 0 /\
      time_dtc (snd (_clear_dtc c yes s)) = 0) /\
     (yes = false -> snd (_clear_dtc c yes s) = s)) /\
  (forall c rnd s,
     use_sim s = false ->
     live_rel c s (snd (_update c rnd s))) /\
  (forall c rnd s,
     use_sim s = false -> gauges_ok s -> all_mapped s ->
     fst (_update c rnd s) = Ok tt /\
     runtime (snd (_update c rnd s)) =
       overwritten_if_positive (live_value c (commands s) "run_time" 0)
                               (runtime s) /\
     (live_value c (commands s) "run_time" 0 <= 0 ->
      runtime (snd (_update c rnd s)) = runtime s)).
Proof.
  split; [|split; [|split; [|split]]].
  - intros c rnd s Hu Hg Hd.
    destruct (sim_tick_run c rnd s Hu Hg)
      as (Hok & _ & _ & Hr & Hdist & Ht & _).
    pose proof (draws_ok_dist rnd Hd).
    rewrite Hr, Hdist, Ht. repeat split; [exact Hok | lra | lra | lra].
  - exact sim_run_monotone.
  - intros c yes s. rewrite clear_dtc_run.
    destruct yes; simpl; repeat split; try reflexivity; discriminate.
  - intros c rnd s Hu.
    exact (proj1 (hoare_run _ _ _ _ s (update_live_rel c rnd s)
                    (live_rel_refl c s Hu))).
  - intros c rnd s Hu Hg Hm.
    destruct (live_tick_run c rnd s Hu Hg Hm) as (Hok & _ & _ & Hr & _).
    split; [exact Hok|]. split; [exact Hr|].
    intros Hle. rewrite Hr. unfold overwritten_if_positive.
    apply py_gt_false in Hle. rewrite Hle. reflexivity.
Qed.

Lemma accumulators_per_action_witness :
  runtime sim_dashboard
  < runtime (snd (_update None some_draws sim_dashboard)).
Proof.
  destruct accumulators_per_action as (Hsim & _).
  destruct (Hsim None some_draws sim_dashboard) as (_ & Hr & _).
  - reflexivity.
  - apply gauges_ok_init.
  - unfold draws_ok, some_draws. simpl. repeat split; (lia || lra).
  - exact Hr.
Defined.

(** C4 fails as stated: in Live mode, once the adapter has reported a run
    time of 5000 s, a distance of 15 km and a time of 7200 s, a tick that
    reads 10 s, 12 km and 60 s lowers all three accumulators. *)
Lemma live_accumulators_decrease_counterexample :
  let s := run [Tick (ecu 5000 15 7200) some_draws]
               (live_dashboard full_catalog) in
  let s' := run [Tick (ecu 10 12 60) some_draws] s in
  use_sim s = false /\
  runtime s = 5000 /\ dist_dtc s = 15 /\ time_dtc s = 7200 /\
  runtime s' < runtime s /\
  dist_dtc s' < dist_dtc s /\
  time_dtc s' < time_dtc s.
Proof. vm_compute. repeat split; reflexivity. Qed.

(** ** The distance since the codes were cleared *)

Lemma live_tick_dist (c : option OBD.Connection) (rnd : Draws)
    (s : OBDDashboard) (d : Q) :
  use_sim s = false -> gauges_ok s -> all_mapped s ->
  live_value c (commands s) "dist_since_dtc_cleared" 0 == d ->
  let s' := snd (_update c rnd s) in
  use_sim s' = false /\ gauges_ok s' /\ all_mapped s' /\
  commands s' = commands s /\
  (0 < d -> dist_dtc s' == d) /\
  (d <= 0 -> dist_dtc s' = dist_dtc s).
Proof.
  intros Hu Hg Hm Hd s'.
  destruct (live_tick_run c rnd s Hu Hg Hm) as [_ Hpost].
  pose proof (live_tick_gauges_ok c rnd s _ Hg Hpost) as Hg'.
  destruct Hpost as (Hu' & Hc & _ & Hdist & _).
  fold s' in Hu', Hc, Hdist, Hg'.
  split; [exact Hu'|]. split; [exact Hg'|].
  split; [intros cmd default Hin; unfold mapped; rewrite Hc;
          exact (Hm cmd default Hin)|].
  split; [exact Hc|].
  rewrite Hdist. unfold overwritten_if_positive. split; intros Hsign.
  - assert (E : py_gt (live_value c (commands s)
                         "dist_since_dtc_cleared" 0) 0 = true)
      by (apply py_gt_true; lra).
    rewrite E. exact Hd.
  - assert (E : py_gt (live_value c (commands s)
                         "dist_since_dtc_cleared" 0) 0 = false)
      by (apply py_gt_false; lra).
    rewrite E. reflexivity.
Qed.

(** C6. In Live mode, when the distance read on four successive ticks
    is 12.0, 0, -1 and 15.0, [dist_dtc] after the ticks is 12.0, 12.0,
    12.0 and 15.0: a read that is not positive leaves it as it was. *)
Theorem live_distance_sequence (c1 c2 c3 c4 : option OBD.Connection)
    (r1 r2 r3 r4 : Draws) (s : OBDDashboard) :
  use_sim s = false -> gauges_ok s -> all_mapped s ->
  live_value c1 (commands s) "dist_since_dtc_cleared" 0 == 12 ->
  live_value c2 (commands s) "dist_since_dtc_cleared" 0 == 0 ->
  live_value c3 (commands s) "dist_since_dtc_cleared" 0 == -1 ->
  live_value c4 (commands s) "dist_since_dtc_cleared" 0 == 15 ->
  dist_dtc (run [Tick c1 r1] s) == 12 /\
  dist_dtc (run [Tick c1 r1; Tick c2 r2] s) == 12 /\
  dist_dtc (run [Tick c1 r1; Tick c2 r2; Tick c3 r3] s) == 12 /\
  dist_dtc (run [Tick c1 r1; Tick c2 r2; Tick c3 r3; Tick c4 r4] s) == 15.
Proof.
  intros Hu Hg Hm H1 H2 H3 H4. simpl.
  destruct (live_tick_dist c1 r1 s 12 Hu Hg Hm H1)
    as (Hu1 & Hg1 & Hm1 & Hc1 & Hp1 & _).
  set (s1 := snd (_update c1 r1 s)) in *.
  rewrite <- Hc1 in H2, H3, H4.
  destruct (live_tick_dist c2 r2 s1 0 Hu1 Hg1 Hm1 H2)
    as (Hu2 & Hg2 & Hm2 & Hc2 & _ & Hk2).
  set (s2 := snd (_update c2 r2 s1)) in *.
  rewrite <- Hc2 in H3, H4.
  destruct (live_tick_dist c3 r3 s2 (-1) Hu2 Hg2 Hm2 H3)
    as (Hu3 & Hg3 & Hm3 & Hc3 & _ & Hk3).
  set (s3 := snd (_update c3 r3 s2)) in *.
  rewrite <- Hc3 in H4.
  destruct (live_tick_dist c4 r4 s3 15 Hu3 Hg3 Hm3 H4)
    as (_ & _ & _ & _ & Hp4 & _).
  assert (D1 : dist_dtc s1 == 12) by (apply Hp1; lra).
  assert (D2 : dist_dtc s2 == 12) by (rewrite Hk2 by lra; exact D1).
  assert (D3 : dist_dtc s3 == 12) by (rewrite Hk3 by lra; exact D2).
  repeat split; try assumption. apply Hp4. lra.
Qed.

Lemma live_distance_sequence_witness :
  let s := live_dashboard full_catalog in
  dist_dtc (run [Tick (ecu 100 12 60) some_draws;
                 Tick (ecu 101 0 61) some_draws;
                 Tick (ecu 102 (-1) 62) some_draws] s) == 12.
Proof.
  intros s.
  assert (Hu : use_sim s = false) by reflexivity.
  assert (Hg : gauges_ok s) by apply gauges_ok_init.
  assert (Hm : all_mapped s) by (apply all_mapped_full; reflexivity).
  destruct (live_distance_sequence
              (ecu 100 12 60) (ecu 101 0 61) (ecu 102 (-1) 62)
              (ecu 103 15 63) some_draws some_draws some_draws some_draws
              s Hu Hg Hm) as (_ & _ & H3 & _);
    [vm_compute; reflexivity | vm_compute; reflexivity
    | vm_compute; reflexivity | vm_compute; reflexivity |].
  exact H3.
Defined.

(** ** The MAF bar *)

(** C9. The fraction shown by the MAF bar is [maf / max_maf] when
    [max_maf] is strictly positive and 0 otherwise, and no tick, in either
    mode and whatever the adapter answers, raises a division by zero on a
    dashboard whose gauges have sound ranges.  A tick that completes shows
    that fraction.  The PyQt5 dashboard guards its percentage the same
    way: it divides only by a strictly positive [max_maf], shows 0
    otherwise and never raises a division by zero. *)
Theorem maf_bar_never_divides_by_zero (c : option OBD.Connection)
    (rnd : Draws) (s : OBDDashboard) (maf mmaf : Q) :
  gauges_ok s ->
  (0 < mmaf -> maf_fraction maf mmaf = Ok (maf / mmaf)) /\
  (mmaf <= 0 -> maf_fraction maf mmaf = Ok 0) /\
  fst (_update c rnd s) <> Raise ZeroDivisionError /\
  (use_sim s = true ->
   fst (_update c rnd s) = Ok tt /\
   maf_bar (labels (snd (_update c rnd s))) = rnd_maf rnd / 255) /\
  (use_sim s = false -> all_mapped s ->
   fst (_update c rnd s) = Ok tt /\
   maf_bar (labels (snd (_update c rnd s))) =
     if py_gt (live_value c (commands s) "max_maf" 255) 0
     then live_value c (commands s) "maf" 10
          / live_value c (commands s) "max_maf" 255
     else 0) /\
  (forall percent,
     (0 < mmaf ->
      QtGui.maf_progress percent maf mmaf = Ok (percent maf mmaf)) /\
     (mmaf <= 0 -> QtGui.maf_progress percent maf mmaf = Ok 0%Z) /\
     QtGui.maf_progress percent maf mmaf <> Raise ZeroDivisionError).
Proof.
  intros Hg.
  split; [intros H; rewrite maf_fraction_run;
          apply py_gt_true in H; rewrite H; reflexivity|].
  split; [intros H; rewrite maf_fraction_run;
          apply py_gt_false in H; rewrite H; reflexivity|].
  split.
  { intros He.
    exact (proj2 (hoare_run _ _ _ _ s (update_safe c rnd) Hg)
             ZeroDivisionError He eq_refl). }
  split.
  { intros Hu. destruct (sim_tick_run c rnd s Hu Hg) as [Hok Hpost].
    split; [exact Hok|].
    destruct Hpost as (_ & _ & _ & _ & _ & _ & Hbar). exact Hbar. }
  split.
  { intros Hu Hm. destruct (live_tick_run c rnd s Hu Hg Hm) as [Hok Hpost].
    split; [exact Hok|].
    destruct Hpost as (_ & _ & _ & _ & _ & _ & Hl).
    rewrite Hl. reflexivity. }
  intros percent. unfold QtGui.maf_progress.
  destruct (py_gt mmaf 0) eqn:E.
  - apply py_gt_true in E. rewrite py_truediv_ok by lra. simpl.
    split; [reflexivity|]. split; [intros H; lra | discriminate].
  - apply py_gt_false in E.
    split; [intros H; lra|]. split; [reflexivity | discriminate].
Qed.

Lemma maf_bar_never_divides_by_zero_witness :
  maf_fraction 10 0 = Ok 0 /\
  fst (_update (ecu 100 12 60) some_draws (live_dashboard full_catalog))
  <> Raise ZeroDivisionError.
Proof.
  destruct (maf_bar_never_divides_by_zero (ecu 100 12 60) some_draws
              (live_dashboard full_catalog) 10 0
              (gauges_ok_init false true (ReadJson.Done full_catalog)))
    as (_ & Hz & Hsafe & _).
  split; [apply Hz; lra | exact Hsafe].
Defined.

(** ** More about the gauge *)

Lemma draw_last_render (g : GaugeWidget) :
  spec_ok g -> last_render (snd (draw g)) = Some (render g).
Proof. intros H. rewrite draw_ok by exact H. reflexivity. Qed.

(** In exact arithmetic the value shown after [set_value] lies within
    0.5 of the clamped input. *)
Lemma gauge_after_sound (g : GaugeWidget) (v : Q) :
  render_ok g ->
  render_ok (gauge_after v g) /\
  _last_drawn_value (gauge_after v g) = Some (value (gauge_after v g)) /\
  min_val g <= value (gauge_after v g) <= max_val g /\
  Qabs (value (gauge_after v g) - clamp g v) <= 1#2.
Proof.
  intros Hr. split; [apply render_ok_gauge_after; exact Hr|].
  destruct Hr as [H Hl]. unfold gauge_after.
  rewrite set_value_run by exact H. cbn [snd].
  assert (Hc : min_val g <= clamp g v <= max_val g)
    by (apply clamp_range; unfold spec_ok in H; lra).
  unfold must_redraw. destruct (_last_drawn_value g) as [last|] eqn:El.
  - destruct Hl as [Hv Hrange].
    destruct (py_gt (Qabs (clamp g v - last)) (1#2)) eqn:E.
    + cbn [value _last_drawn_value with_render with_value].
      split; [reflexivity|]. split; [exact Hc|].
      apply Qabs_case; intros; lra.
    + apply py_gt_false in E. rewrite El, Hv.
      split; [reflexivity|]. split; [exact Hrange|].
      revert E. apply Qabs_case; intros; apply Qabs_case; intros; lra.
  - cbn [value _last_drawn_value with_render with_value].
    split; [reflexivity|]. split; [exact Hc|].
    apply Qabs_case; intros; lra.
Qed.

(** X1. After [set_value] on a gauge in a sound render state, the state
    is sound again, a value has been drawn, and the value shown is the
    one last drawn and lies in the range.  It is the clamped input when
    nothing was drawn before, and when the binary64 difference between
    the clamped input and the last drawn value is exact it lies within
    0.5 of the clamped input: there the redraw threshold never lets the
    display lag by more. *)
Theorem set_value_lag_bound (g : GaugeWidget) (v : Q) :
  render_ok g ->
  render_ok (gauge_after v g) /\
  _last_drawn_value (gauge_after v g) = Some (value (gauge_after v g)) /\
  min_val g <= value (gauge_after v g) <= max_val g /\
  (_last_drawn_value g = None -> value (gauge_after v g) = clamp g v) /\
  (forall last,
     _last_drawn_value g = Some last ->
     exact_difference (clamp g v) last ->
     Qabs (value (gauge_after v g) - clamp g v) <= 1#2).
Proof.
  intros Hr.
  destruct (gauge_after_sound g v Hr) as (Hok & Hlast & Hrange & Hlag).
  split; [exact Hok|]. split; [exact Hlast|]. split; [exact Hrange|].
  split; [|intros last _ _; exact Hlag].
  intros Hn. destruct Hr as [H _]. unfold gauge_after.
  rewrite set_value_run by exact H. unfold must_redraw. rewrite Hn.
  reflexivity.
Qed.

Lemma set_value_lag_bound_witness :
  let g := gauge_after 50 (snd (GaugeWidget_init 0 100)) in
  Qabs (value (gauge_after float_50_3 g) - clamp g float_50_3) <= 1#2.
Proof.
  intros g.
  assert (Hr : render_ok g).
  { apply render_ok_gauge_after, render_ok_init. reflexivity. }
  destruct (set_value_lag_bound g float_50_3 Hr) as (_ & _ & _ & _ & Hlag).
  apply (Hlag 50); [reflexivity|].
  repeat split; vm_compute; reflexivity.
Defined.

(** X2. In every render of a gauge with [min < max] the needle stands at
    the end of the active arc ([needle = 225 + extent]), and when the
    value is the one that scale mark [i] stands for, the needle points at
    mark [i]. *)
Theorem needle_meets_arc_and_marks (g : GaugeWidget) (i : nat) :
  spec_ok g -> (i < 9)%nat ->
  exists geo angle label,
    last_render (snd (draw g)) = Some geo /\
    needle geo == 225 + extent geo /\
    nth_error (marks geo) i = Some (angle, label) /\
    (value g == mark_val g i -> needle geo == angle).
Proof.
  intros H Hi. exists (render g), (mark_angle i), (py_int (mark_val g i)).
  split; [apply draw_last_render; exact H|].
  unfold render, _draw_needle, ratio_of.
  cbn [needle extent marks]. split; [lra|].
  split; [apply nth_error_draw_marks; exact Hi|].
  intros Hv. unfold mark_angle, mark_val in *. unfold spec_ok in H.
  setoid_replace (value g - min_val g)
    with ((max_val g - min_val g) * inject_Z (Z.of_nat i) / 8)
    using relation Qeq by lra.
  field. lra.
Qed.

Lemma needle_meets_arc_and_marks_witness :
  exists geo,
    last_render (snd (draw (gauge_after 2000 (snd (GaugeWidget_init 0 8000)))))
    = Some geo /\
    needle geo == 225 + extent geo.
Proof.
  destruct (needle_meets_arc_and_marks
              (gauge_after 2000 (snd (GaugeWidget_init 0 8000))) 2)
    as (geo & angle & label & Hd & Hn & _);
    [vm_compute; reflexivity | lia |].
  exists geo. split; [exact Hd | exact Hn].
Defined.

(** X3. On gauges with the same sound range, a greater value turns the
    needle further clockwise and lengthens the active arc: neither the
    needle angle nor the extent grows with the value. *)
Theorem needle_monotone (g1 g2 : GaugeWidget) :
  spec_ok g1 ->
  min_val g2 = min_val g1 -> max_val g2 = max_val g1 ->
  value g1 <= value g2 ->
  exists geo1 geo2,
    last_render (snd (draw g1)) = Some geo1 /\
    last_render (snd (draw g2)) = Some geo2 /\
    needle geo2 <= needle geo1 /\
    extent geo2 <= extent geo1.
Proof.
  intros H Hmin Hmax Hv.
  assert (H2 : spec_ok g2) by (unfold spec_ok; rewrite Hmin, Hmax; exact H).
  exists (render g1), (render g2).
  split; [apply draw_last_render; exact H|].
  split; [apply draw_last_render; exact H2|].
  unfold render, _draw_needle, ratio_of. cbn [needle extent].
  rewrite Hmin, Hmax. unfold spec_ok in H.
  assert (Hr : (value g1 - min_val g1) / (max_val g1 - min_val g1)
               <= (value g2 - min_val g1) / (max_val g1 - min_val g1)).
  { apply Qmult_le_compat_r; [lra|].
    apply Qlt_le_weak, Qinv_lt_0_compat. lra. }
  lra.
Qed.

Lemma needle_monotone_witness :
  exists geo1 geo2,
    last_render (snd (draw (gauge_after 10 (snd (GaugeWidget_init 0 100)))))
    = Some geo1 /\
    last_render (snd (draw (gauge_after 90 (snd (GaugeWidget_init 0 100)))))
    = Some geo2 /\
    needle geo2 <= needle geo1.
Proof.
  destruct (needle_monotone
              (gauge_after 10 (snd (GaugeWidget_init 0 100)))
              (gauge_after 90 (snd (GaugeWidget_init 0 100))))
    as (geo1 & geo2 & H1 & H2 & Hn & _);
    [vm_compute; reflexivity | reflexivity | reflexivity
    | vm_compute; discriminate |].
  exists geo1, geo2. repeat split; assumption.
Defined.

Lemma Zle_of_Qlt_succ (a b : Z) :
  inject_Z a < inject_Z b + 1 -> (a <= b)%Z.
Proof.
  intros H. apply Z.lt_succ_r. rewrite <- Z.add_1_r.
  rewrite Zlt_Qlt, inject_Z_plus. exact H.
Qed.

(** [int()] respects the order and the equality of numbers. *)
Lemma py_int_monotone (x y : Q) : x <= y -> (py_int x <= py_int y)%Z.
Proof.
  intros Hxy.
  destruct (py_int_trunc x) as [Hx0 Hx1].
  destruct (py_int_trunc y) as [Hy0 Hy1].
  destruct (Qlt_le_dec x 0) as [Hx | Hx];
    destruct (Qlt_le_dec y 0) as [Hy | Hy].
  - specialize (Hx1 ltac:(lra)). specialize (Hy1 ltac:(lra)).
    apply Zle_of_Qlt_succ. lra.
  - specialize (Hx1 ltac:(lra)). specialize (Hy0 Hy).
    assert (py_int x <= 0)%Z
      by (apply Zle_of_Qlt_succ; change (inject_Z 0) with 0; lra).
    assert (0 <= py_int y)%Z
      by (apply Zle_of_Qlt_succ; change (inject_Z 0) with 0; lra).
    lia.
  - lra.
  - specialize (Hx0 Hx). specialize (Hy0 Hy).
    apply Zle_of_Qlt_succ. lra.
Qed.

Lemma py_int_proper (x y : Q) : x == y -> py_int x = py_int y.
Proof.
  intros H. apply Z.le_antisymm; apply py_int_monotone; lra.
Qed.

(** X4. The scale of a gauge with [min < max] starts at 225 degrees with
    the label [int(min)], ends at -45 degrees with the label [int(max)],
    steps by 33.75 degrees clockwise from one mark to the next, and its
    labels never decrease along the scale. *)
Theorem scale_ends_and_order (g : GaugeWidget) (i : nat) :
  spec_ok g -> (i < 8)%nat ->
  (exists angle,
     nth_error (_draw_marks g) 0 = Some (angle, py_int (min_val g)) /\
     angle == 225) /\
  (exists angle,
     nth_error (_draw_marks g) 8 = Some (angle, py_int (max_val g)) /\
     angle == -45) /\
  (exists a1 l1 a2 l2,
     nth_error (_draw_marks g) i = Some (a1, l1) /\
     nth_error (_draw_marks g) (S i) = Some (a2, l2) /\
     a2 == a1 - (135#4) /\
     (l1 <= l2)%Z).
Proof.
  intros H Hi. unfold spec_ok in H. split; [|split].
  - exists (mark_angle 0). rewrite nth_error_draw_marks by lia.
    split; [|reflexivity].
    rewrite (py_int_proper (mark_val g 0) (min_val g)); [reflexivity|].
    unfold mark_val. simpl (inject_Z _). field.
  - exists (mark_angle 8). rewrite nth_error_draw_marks by lia.
    split; [|reflexivity].
    rewrite (py_int_proper (mark_val g 8) (max_val g)); [reflexivity|].
    unfold mark_val. simpl (inject_Z _). field.
  - exists (mark_angle i), (py_int (mark_val g i)),
      (mark_angle (S i)), (py_int (mark_val g (S i))).
    rewrite !nth_error_draw_marks by lia.
    split; [reflexivity|]. split; [reflexivity|].
    assert (Hs : inject_Z (Z.of_nat (S i)) == inject_Z (Z.of_nat i) + 1).
    { rewrite Nat2Z.inj_succ, <- Z.add_1_r, inject_Z_plus. reflexivity. }
    split.
    + unfold mark_angle. rewrite Hs. field.
    + apply py_int_monotone. unfold mark_val. rewrite Hs.
      assert (0 <= (max_val g - min_val g) / 8)
        by (apply Qle_shift_div_l; lra).
      assert (E : (max_val g - min_val g) * (inject_Z (Z.of_nat i) + 1) / 8
                  == (max_val g - min_val g) * inject_Z (Z.of_nat i) / 8
                     + (max_val g - min_val g) / 8) by field.
      rewrite E. lra.
Qed.

Lemma scale_ends_and_order_witness :
  exists angle,
    nth_error (_draw_marks (snd (GaugeWidget_init (-40) 120))) 0
    = Some (angle, (-40)%Z) /\
    angle == 225.
Proof.
  destruct (scale_ends_and_order (snd (GaugeWidget_init (-40) 120)) 3)
    as (H0 & _); [vm_compute; reflexivity | lia |].
  exact H0.
Defined.



(** ** The clock labels *)

Lemma Qfloor_unique (x : Q) (z : Z) :
  inject_Z z <= x < inject_Z z + 1 -> Qfloor x = z.
Proof.
  intros [Hl Hu].
  pose proof (Qfloor_le x) as Hf. pose proof (Qlt_floor x) as Hg.
  rewrite inject_Z_plus in Hg. change (inject_Z 1) with 1 in Hg.
  apply Z.le_antisymm; apply Zle_of_Qlt_succ; lra.
Qed.

Lemma py_int_inject (z : Z) : py_int (inject_Z z) = z.
Proof. unfold py_int. simpl. apply Z.quot_1_r. Qed.

(** [x // n] on a number and a positive integer [n] is the integer
    quotient of the floor of [x]. *)
Lemma py_floordiv_floor (x : Q) (n : Z) :
  (0 < n)%Z ->
  py_floordiv x (inject_Z n) = inject_Z (Qfloor x / n).
Proof.
  intros Hn. unfold py_floordiv. f_equal. apply Qfloor_unique.
  pose proof (Qfloor_le x) as Hf. pose proof (Qlt_floor x) as Hg.
  rewrite inject_Z_plus in Hg. change (inject_Z 1) with 1 in Hg.
  pose proof (Z.div_mod (Qfloor x) n ltac:(lia)) as Hdm.
  pose proof (Z.mod_pos_bound (Qfloor x) n Hn) as Hb.
  assert (Hnq : 0 < inject_Z n)
    by (change 0 with (inject_Z 0); rewrite <- Zlt_Qlt; exact Hn).
  assert (E : inject_Z (Qfloor x)
              == inject_Z n * inject_Z (Qfloor x / n)
                 + inject_Z (Qfloor x mod n)).
  { rewrite <- inject_Z_mult, <- inject_Z_plus, <- Hdm. reflexivity. }
  assert (Hm0 : 0 <= inject_Z (Qfloor x mod n))
    by (change 0 with (inject_Z 0); rewrite <- Zle_Qle; lia).
  assert (Hm1 : inject_Z (Qfloor x mod n) + 1 <= inject_Z n).
  { change 1 with (inject_Z 1).
    rewrite <- inject_Z_plus, <- Zle_Qle. lia. }
  split.
  - apply Qle_shift_div_l; [exact Hnq|]. nra.
  - apply Qlt_shift_div_r; [exact Hnq|]. nra.
Qed.

(** [x % n] keeps the fraction of [x] and reduces its floor. *)
Lemma py_mod_floor (x : Q) (n : Z) :
  (0 < n)%Z ->
  Qfloor (py_mod x (inject_Z n)) = (Qfloor x mod n)%Z /\
  0 <= py_mod x (inject_Z n).
Proof.
  intros Hn. unfold py_mod. rewrite py_floordiv_floor by exact Hn.
  pose proof (Qfloor_le x) as Hf. pose proof (Qlt_floor x) as Hg.
  rewrite inject_Z_plus in Hg. change (inject_Z 1) with 1 in Hg.
  pose proof (Z.div_mod (Qfloor x) n ltac:(lia)) as Hdm.
  pose proof (Z.mod_pos_bound (Qfloor x) n Hn) as Hb.
  assert (E : inject_Z (Qfloor x)
              == inject_Z n * inject_Z (Qfloor x / n)
                 + inject_Z (Qfloor x mod n)).
  { rewrite <- inject_Z_mult, <- inject_Z_plus, <- Hdm. reflexivity. }
  assert (Hm0 : 0 <= inject_Z (Qfloor x mod n))
    by (change 0 with (inject_Z 0); rewrite <- Zle_Qle; lia).
  split; [apply Qfloor_unique|]; lra.
Qed.

Lemma py_int_floor (x : Q) : 0 <= x -> py_int x = Qfloor x.
Proof.
  intros H. symmetry. apply Qfloor_unique.
  exact (proj1 (py_int_trunc x) H).
Qed.

(** X6. For a number of seconds that is not negative, the three numbers
    of a clock label are the hours, minutes and seconds of the whole
    seconds elapsed: minutes and seconds lie in 0..59, hours are not
    negative, and [3600 h + 60 m + s] is the floor of the number. *)
Theorem clock_decomposes (x : Q) :
  0 <= x ->
  let '(h, m, s) := clock x in
  (0 <= h)%Z /\ (0 <= m < 60)%Z /\ (0 <= s < 60)%Z /\
  (3600 * h + 60 * m + s = Qfloor x)%Z.
Proof.
  intros Hx. unfold clock.
  change 3600 with (inject_Z 3600). change 60 with (inject_Z 60).
  destruct (py_mod_floor x 3600 ltac:(lia)) as [Hm3600 Hp3600].
  destruct (py_mod_floor x 60 ltac:(lia)) as [Hm60 Hp60].
  rewrite (py_floordiv_floor x 3600) by lia.
  rewrite (py_floordiv_floor (py_mod x (inject_Z 3600)) 60) by lia.
  rewrite !py_int_inject, Hm3600.
  rewrite (py_int_floor _ Hp60), Hm60.
  assert (H0 : (0 <= Qfloor x)%Z).
  { apply Zle_of_Qlt_succ. pose proof (Qlt_floor x) as Hg.
    rewrite inject_Z_plus in Hg. change (inject_Z 1) with 1 in Hg.
    change (inject_Z 0) with 0. lra. }
  pose proof (Z.div_mod (Qfloor x) 3600 ltac:(lia)).
  pose proof (Z.mod_pos_bound (Qfloor x) 3600 ltac:(lia)).
  pose proof (Z.div_mod (Qfloor x mod 3600) 60 ltac:(lia)).
  pose proof (Z.mod_pos_bound (Qfloor x mod 3600) 60 ltac:(lia)).
  pose proof (Z.mod_pos_bound (Qfloor x) 60 ltac:(lia)).
  assert (Qfloor x mod 60 = (Qfloor x mod 3600) mod 60)%Z.
  { symmetry. apply Z.mod_mod_divide. exists 60%Z. reflexivity. }
  assert (0 <= Qfloor x / 3600)%Z by (apply Z.div_pos; lia).
  assert (0 <= (Qfloor x mod 3600) / 60 < 60)%Z
    by (split; [apply Z.div_pos; lia | apply Z.div_lt_upper_bound; lia]).
  repeat split; lia.
Qed.

Lemma clock_decomposes_witness :
  let '(h, m, s) := clock (7325 + (1#2)) in
  (0 <= h)%Z /\ (0 <= m < 60)%Z /\ (0 <= s < 60)%Z /\
  (3600 * h + 60 * m + s = Qfloor (7325 + (1#2)))%Z.
Proof. apply (clock_decomposes (7325 + (1#2))). lra. Defined.

(** Two hours, two minutes and five and a half seconds. *)
Example clock_7325 : clock (7325 + (1#2)) = (2, 2, 5)%Z.
Proof. vm_compute. reflexivity. Qed.

(** ** Page navigation *)

Lemma switch_run (idx : Z) (s : Navigation) :
  _switch idx s
  = (Ok tt,
     if Z.eqb idx (current_page s) then s
     else {| current_page := idx;
             pages := imap (fun i _ => Z.eqb (Z.of_nat i) idx) (pages s);
             nav_btns :=
               imap (fun i _ =>
                       if Z.eqb (Z.of_nat i) idx then Highlighted else Plain)
                    (nav_btns s) |}).
Proof.
  unfold _switch, bind, get, ret, put.
  destruct (Z.eqb idx (current_page s)); reflexivity.
Qed.

Lemma nav_ok_eq (s s' : Navigation) :
  nav_ok s -> nav_ok s' -> current_page s = current_page s' -> s = s'.
Proof.
  destruct s as [c p b], s' as [c' p' b']. unfold nav_ok. simpl.
  intros (_ & -> & ->) (_ & -> & ->) ->. reflexivity.
Qed.

Lemma switch_nav_ok (idx : Z) (s : Navigation) :
  nav_ok s -> (0 <= idx < 4)%Z ->
  nav_ok (snd (_switch idx s)) /\ current_page (snd (_switch idx s)) = idx.
Proof.
  intros Hs Hidx. rewrite switch_run. cbn [snd].
  destruct (Z.eqb_spec idx (current_page s)) as [-> | Hne].
  - split; [exact Hs | reflexivity].
  - destruct Hs as (_ & Hp & Hb). unfold nav_ok. rewrite Hp, Hb.
    split; [|reflexivity]. split; [exact Hidx|]. split; reflexivity.
Qed.

Lemma setup_nav_ok :
  fst Navigation_setup = Ok tt /\
  nav_ok (snd Navigation_setup) /\
  current_page (snd Navigation_setup) = 0%Z.
Proof.
  unfold Navigation_setup. rewrite switch_run. cbn.
  split; [reflexivity|]. split; [|reflexivity].
  unfold nav_ok. cbn. repeat split; lia.
Qed.

(** X7. After [_setup_ui] page 0 is the current page.  From then on
    [_switch] to one of the four pages never raises and leaves exactly
    that page shown and exactly its button highlighted; to the current
    page it changes nothing.  An index outside 0..3 hides every page and
    highlights no button. *)
Theorem switch_shows_one_page :
  (fst Navigation_setup = Ok tt /\
   nav_ok (snd Navigation_setup) /\
   current_page (snd Navigation_setup) = 0%Z) /\
  (forall s idx,
     nav_ok s -> (0 <= idx < 4)%Z ->
     fst (_switch idx s) = Ok tt /\
     nav_ok (snd (_switch idx s)) /\
     current_page (snd (_switch idx s)) = idx /\
     (idx = current_page s -> snd (_switch idx s) = s)) /\
  (forall s idx,
     nav_ok s -> ~ (0 <= idx < 4)%Z ->
     current_page (snd (_switch idx s)) = idx /\
     pages (snd (_switch idx s)) = [false; false; false; false] /\
     nav_btns (snd (_switch idx s)) = [Plain; Plain; Plain; Plain]).
Proof.
  split; [|split].
  - exact setup_nav_ok.
  - intros s idx Hs Hidx. split; [rewrite switch_run; reflexivity|].
    destruct (switch_nav_ok idx s Hs Hidx) as [Hok Hc].
    split; [exact Hok|]. split; [exact Hc|].
    intros ->. rewrite switch_run, Z.eqb_refl. reflexivity.
  - intros s idx (Hc & Hp & Hb) Hidx. rewrite switch_run. cbn [snd].
    destruct (Z.eqb_spec idx (current_page s)) as [-> | Hne];
      [contradiction|].
    cbn [current_page pages nav_btns]. rewrite Hp, Hb. cbn.
    split; [reflexivity|].
    repeat match goal with
           | |- context [Z.eqb ?a idx] =>
               destruct (Z.eqb_spec a idx); [lia|]
           end.
    split; reflexivity.
Qed.

Lemma gpio_next_page_run (s : EventLoop) :
  nav_ok (nav s) ->
  _gpio_next_page s
  = (Ok tt,
     {| nav := nav s;
        posted := posted s ++ [((current_page (nav s) + 1) mod 4)%Z] |}).
Proof.
  intros (_ & Hp & _). unfold _gpio_next_page, bind, get, lift, put.
  rewrite Hp. reflexivity.
Qed.

(** A callback for the page that is shown changes nothing. *)
Lemma run_callbacks_repeat (k : nat) (n : Navigation) :
  run_callbacks (repeat (current_page n) k) n = (Ok tt, n).
Proof.
  induction k as [|k IH]; [reflexivity|].
  cbn [repeat run_callbacks]. unfold bind.
  rewrite switch_run, Z.eqb_refl. exact IH.
Qed.

(** Callbacks that were all posted for the same page show that page. *)
Lemma run_callbacks_same (k : nat) (idx : Z) (n : Navigation) :
  run_callbacks (repeat idx (S k)) n = (Ok tt, snd (_switch idx n)).
Proof.
  cbn [repeat run_callbacks]. unfold bind.
  destruct (_switch idx n) as [r n'] eqn:E.
  pose proof (switch_run idx n) as Hrun. rewrite E in Hrun.
  injection Hrun as -> Hn'. cbn [snd].
  assert (Hidx : current_page n' = idx).
  { rewrite Hn'. destruct (Z.eqb_spec idx (current_page n)) as [-> | _];
      reflexivity. }
  rewrite <- Hidx. apply run_callbacks_repeat.
Qed.

Lemma presses_pending_run (k : nat) (s : EventLoop) :
  nav_ok (nav s) ->
  presses_pending k s
  = (Ok tt,
     {| nav := nav s;
        posted :=
          posted s ++ repeat ((current_page (nav s) + 1) mod 4)%Z k |}).
Proof.
  revert s. induction k as [|k IH]; intros s Hs.
  - cbn. rewrite app_nil_r. destruct s; reflexivity.
  - cbn [presses_pending]. unfold bind.
    rewrite gpio_next_page_run by exact Hs.
    rewrite IH by exact Hs. cbn [nav posted repeat].
    rewrite <- app_assoc. reflexivity.
Qed.

(** One press and the run of its callback. *)
Lemma press_served_run (n : Navigation) :
  nav_ok n ->
  (_gpio_next_page >> run_posted) (idle n)
  = (Ok tt, idle (snd (_switch ((current_page n + 1) mod 4) n))).
Proof.
  intros Hn. unfold bind. rewrite gpio_next_page_run by exact Hn.
  unfold run_posted, idle. cbn [nav posted app].
  pose proof (run_callbacks_same 0 ((current_page n + 1) mod 4) n) as Hcb.
  cbn [repeat] in Hcb. rewrite Hcb. reflexivity.
Qed.

Lemma presses_served_spec (n : nat) (n0 : Navigation) :
  nav_ok n0 ->
  exists n1,
    presses_served n (idle n0) = (Ok tt, idle n1) /\
    nav_ok n1 /\
    current_page n1 = ((current_page n0 + Z.of_nat n) mod 4)%Z.
Proof.
  revert n0. induction n as [|n IH]; intros n0 Hs.
  - exists n0. split; [reflexivity|]. split; [exact Hs|].
    destruct Hs as (Hc & _). rewrite Z.add_0_r, Z.mod_small; lia.
  - destruct (switch_nav_ok ((current_page n0 + 1) mod 4) n0 Hs
                ltac:(apply Z.mod_pos_bound; lia)) as [Hok Hc].
    destruct (IH _ Hok) as (n1 & Hrun & Hn1 & Hp).
    exists n1. split; [|split; [exact Hn1|]].
    + cbn [presses_served].
      change (_gpio_next_page >> run_posted >> presses_served n)
        with (bind _gpio_next_page
                (fun _ => bind run_posted (fun _ => presses_served n))).
      pose proof (press_served_run n0 Hs) as Hone.
      unfold bind in Hone |- *.
      destruct (_gpio_next_page (idle n0)) as [[[]|e] s1];
        [|discriminate Hone].
      rewrite Hone. exact Hrun.
    + rewrite Hp, Hc, Nat2Z.inj_succ, Zplus_mod_idemp_l.
      f_equal. lia.
Qed.

(** X8. A press of the GPIO button computes the next of the four pages
    from the page that is current at the press and posts the switch to
    the event loop; nothing is shown before the event loop runs the
    posted callback.  When the event loop runs the callback of each
    press before the next press, [n] presses lead from page [p] to page
    [(p + n) mod 4] with exactly that page shown, four presses restore
    the state, and the page numbers that [test_gpio_logic.py] prints are
    those the dashboard visits, counted from 1.  When the event loop is
    busy and one or more presses are handled before any posted callback
    runs, they all post the same page, and the dashboard advances by one
    page only. *)
Theorem gpio_presses_cycle (n0 : Navigation) (n : nat) :
  nav_ok n0 ->
  _gpio_next_page (idle n0)
  = (Ok tt, {| nav := n0;
               posted := [((current_page n0 + 1) mod 4)%Z] |}) /\
  fst (presses_served n (idle n0)) = Ok tt /\
  posted (snd (presses_served n (idle n0))) = [] /\
  nav_ok (nav (snd (presses_served n (idle n0)))) /\
  current_page (nav (snd (presses_served n (idle n0))))
  = ((current_page n0 + Z.of_nat n) mod 4)%Z /\
  snd (presses_served 4 (idle n0)) = idle n0 /\
  simulate_presses n (current_page n0) 4
  = map (fun k =>
           (current_page (nav (snd (presses_served (S k) (idle n0)))) + 1)%Z)
        (seq 0 n) /\
  ((0 < n)%nat ->
   presses_pending n (idle n0)
   = (Ok tt, {| nav := n0;
                posted := repeat ((current_page n0 + 1) mod 4)%Z n |}) /\
   (presses_pending n >> run_posted) (idle n0)
   = presses_served 1 (idle n0) /\
   current_page (nav (snd ((presses_pending n >> run_posted) (idle n0))))
   = ((current_page n0 + 1) mod 4)%Z).
Proof.
  intros Hs.
  split; [rewrite gpio_next_page_run by exact Hs; reflexivity|].
  destruct (presses_served_spec n n0 Hs) as (n1 & Hrun & Hn1 & Hp).
  rewrite Hrun. cbn [fst snd idle nav posted].
  split; [reflexivity|]. split; [reflexivity|].
  split; [exact Hn1|]. split; [exact Hp|]. split; [|split].
  - destruct (presses_served_spec 4 n0 Hs) as (n4 & Hrun4 & H4 & Hp4).
    rewrite Hrun4. cbn [snd]. f_equal.
    apply nav_ok_eq; [exact H4 | exact Hs |].
    rewrite Hp4. destruct Hs as (Hc & _).
    change (Z.of_nat 4) with (1 * 4)%Z.
    rewrite Z.mod_add by lia. apply Z.mod_small. exact Hc.
  - assert (G : forall m p k,
              (0 <= p < 4)%Z ->
              p = ((current_page n0 + Z.of_nat k) mod 4)%Z ->
              simulate_presses m p 4
              = map (fun j =>
                       (current_page
                          (nav (snd (presses_served (S j) (idle n0))))
                        + 1)%Z)
                    (seq k m)).
    { induction m as [|m IH]; intros p k Hp0 Hpk; [reflexivity|].
      cbn [simulate_presses seq map].
      destruct (presses_served_spec (S k) n0 Hs) as (nk & Hrunk & _ & Hk).
      assert (E : ((p + 1) mod 4
                   = (current_page n0 + Z.of_nat (S k)) mod 4)%Z).
      { rewrite Hpk, Nat2Z.inj_succ, Zplus_mod_idemp_l. f_equal. lia. }
      rewrite Hrunk. cbn [snd idle nav]. rewrite Hk, <- E. f_equal.
      apply IH; [apply Z.mod_pos_bound; lia | exact E]. }
    apply G; [exact (proj1 Hs)|].
    rewrite Z.add_0_r. symmetry. apply Z.mod_small. exact (proj1 Hs).
  - intros Hpos.
    assert (Hpend := presses_pending_run n (idle n0) Hs).
    cbn [idle nav posted app] in Hpend.
    split; [exact Hpend|].
    assert (Hboth : (presses_pending n >> run_posted) (idle n0)
                    = (Ok tt,
                       idle (snd (_switch ((current_page n0 + 1) mod 4)
                                          n0)))).
    { unfold bind. rewrite Hpend. unfold run_posted. cbn [nav posted].
      destruct n as [|k]; [lia|].
      rewrite run_callbacks_same. reflexivity. }
    assert (Hone : presses_served 1 (idle n0)
                   = (Ok tt,
                      idle (snd (_switch ((current_page n0 + 1) mod 4)
                                         n0)))).
    { cbn [presses_served].
      change (_gpio_next_page >> run_posted >> ret tt)
        with (bind _gpio_next_page
                (fun _ => bind run_posted (fun _ => ret tt))).
      pose proof (press_served_run n0 Hs) as Hsrv.
      unfold bind in Hsrv |- *.
      destruct (_gpio_next_page (idle n0)) as [[[]|e] s1];
        [|discriminate Hsrv].
      rewrite Hsrv. reflexivity. }
    rewrite Hboth, Hone. split; [reflexivity|].
    cbn [snd idle nav].
    apply (switch_nav_ok ((current_page n0 + 1) mod 4) n0 Hs).
    apply Z.mod_pos_bound. lia.
Qed.

Lemma gpio_presses_cycle_witness :
  current_page (nav (snd (presses_served 10 (idle (snd Navigation_setup)))))
  = 2%Z /\
  current_page
    (nav (snd ((presses_pending 10 >> run_posted)
                 (idle (snd Navigation_setup))))) = 1%Z.
Proof.
  destruct setup_nav_ok as (_ & Hs & _).
  destruct (gpio_presses_cycle (snd Navigation_setup) 10 Hs)
    as (_ & _ & _ & _ & Hp & _ & _ & Hpend).
  split; [rewrite Hp; reflexivity|].
  destruct (Hpend ltac:(lia)) as (_ & _ & Hone).
  rewrite Hone. reflexivity.
Defined.

(** ** Reads, in every mode *)

(** X9. [_read] never raises and never changes the dashboard.  It gives
    [None] exactly in Simulated mode or when the name has no entry in the
    catalog; otherwise it gives a number: the magnitude of the value read,
    or the default when the read gave nothing. *)
Theorem read_outcome (c : option OBD.Connection) (cmd : string)
    (default : Q) (s : OBDDashboard) :
  exists v,
    _read c cmd default s = (Ok v, s) /\
    (v = VNone <-> use_sim s = true \/ commands s !! cmd = None) /\
    (use_sim s = false ->
     forall command, commands s !! cmd = Some command ->
       v = VNum match read_obd_data c command with
                | Ok (Some res) => magnitude_or_self res
                | _ => default
                end).
Proof.
  destruct (use_sim s) eqn:Hu.
  - exists VNone. unfold _read, bind, get, ret. rewrite Hu.
    split; [reflexivity|]. split; [|discriminate].
    split; [intros _; left; reflexivity | reflexivity].
  - destruct (commands s !! cmd) as [command|] eqn:Hc.
    + exists (VNum (live_value c (commands s) cmd default)).
      split; [apply read_mapped;
              [exact Hu | unfold mapped, dict_contains; rewrite Hc;
                          reflexivity]|].
      split; [split; [discriminate | intros [H | H]; discriminate]|].
      intros _ command' [= <-]. unfold live_value. rewrite Hc. reflexivity.
    + exists VNone. split; [apply read_unmapped; exact Hc|].
      split; [|intros _ command [=]].
      split; [intros _; right; reflexivity | reflexivity].
Qed.

(** The helper of the legacy dashboard is the helper of
    [obd_dashboard_gui.py]. *)
Lemma backup_read_obd_data_same (c : option OBD.Connection)
    (command : PyCommand) :
  Backup.read_obd_data c command = QtGui.read_obd_data c command.
Proof.
  unfold Backup.read_obd_data, QtGui.read_obd_data.
  destruct c as [conn|]; [|reflexivity].
  destruct (OBD.query conn command) as [response|e]; [|reflexivity].
  simpl. destruct (OBD.is_null response); reflexivity.
Qed.

(** X10. In Live mode the [read_obd_value] of the legacy dashboard
    never changes the dashboard.  For a name without a catalog entry it
    gives the default, where [_read] gives [None].  For a name with an
    entry it gives the number that [_read] gives, unless the query raises
    an exception that is not of class [Exception]: that exception passes
    both [except Exception] handlers and escapes, where [_read] gives the
    default. *)
Theorem backup_read_obd_value_number (c : option OBD.Connection)
    (cmd : string) (default : Q) (b : Backup.OBDDashboard)
    (s : OBDDashboard) :
  Backup.use_simulation b = false -> use_sim s = false ->
  Backup.commands b = commands s ->
  snd (Backup.read_obd_value c cmd default b) = b /\
  (commands s !! cmd = None ->
   fst (_read c cmd default s) = Ok VNone /\
   fst (Backup.read_obd_value c cmd default b) = Ok (VNum default)) /\
  (forall command,
     commands s !! cmd = Some command ->
     (raises_only_Exception c command ->
      Backup.read_obd_value c cmd default b
      = (Ok (VNum (live_value c (commands s) cmd default)), b) /\
      fst (_read c cmd default s)
      = fst (Backup.read_obd_value c cmd default b)) /\
     (forall conn e,
        c = Some conn -> OBD.query conn command = Raise e ->
        is_Exception e = false ->
        Backup.read_obd_value c cmd default b = (Raise e, b) /\
        fst (_read c cmd default s) = Ok (VNum default))).
Proof.
  intros Hb Hu Hc.
  assert (E : Backup.read_obd_value c cmd default b
              = match commands s !! cmd with
                | None => (Ok (VNum default), b)
                | Some command =>
                    match QtGui.read_obd_data c command with
                    | Ok (Some res) => (Ok (VNum (magnitude_or_self res)), b)
                    | Ok None => (Ok (VNum default), b)
                    | Raise e => (Raise e, b)
                    end
                end).
  { unfold Backup.read_obd_value, bind, get, lift, ret,
      dict_contains, dict_getitem, try_except_Exception.
    rewrite Hb, Hc.
    destruct (commands s !! cmd) as [command|]; [|reflexivity].
    cbn [and_then]. rewrite backup_read_obd_data_same.
    destruct (QtGui.read_obd_data c command) as [[res|]|e] eqn:Er;
      try reflexivity.
    apply qt_read_obd_data_raises in Er. destruct Er as [He _].
    cbn [and_then]. rewrite He. reflexivity. }
  rewrite E. split; [|split].
  - destruct (commands s !! cmd) as [command|]; [|reflexivity].
    destruct (QtGui.read_obd_data c command) as [[res|]|e]; reflexivity.
  - intros Hn. rewrite Hn, read_unmapped by exact Hn.
    split; reflexivity.
  - intros command Hcmd. rewrite Hcmd.
    assert (Hm : mapped s cmd)
      by (unfold mapped, dict_contains; rewrite Hcmd; reflexivity).
    rewrite read_mapped by assumption.
    unfold live_value. rewrite Hcmd. split.
    + intros Hexc.
      rewrite (qt_read_obd_data_same c command Hexc).
      destruct (read_obd_data_returns c command) as [[res|] ->];
        split; reflexivity.
    + intros conn e -> Hq He.
      rewrite qt_read_obd_data_run. cbv iota. rewrite Hq. cbv iota.
      rewrite He.
      unfold read_obd_data. rewrite Hq. split; reflexivity.
Qed.

Lemma backup_read_obd_value_number_witness :
  fst (Backup.read_obd_value broken "oil_temp" 90
         {| Backup.use_simulation := false;
            Backup.commands := catalog_without_oil |})
  = Ok (VNum 90) /\
  fst (Backup.read_obd_value interrupted "speed" 0
         {| Backup.use_simulation := false;
            Backup.commands := full_catalog |})
  = Raise KeyboardInterrupt.
Proof.
  split.
  - destruct (backup_read_obd_value_number broken "oil_temp" 90
                {| Backup.use_simulation := false;
                   Backup.commands := catalog_without_oil |}
                (live_dashboard catalog_without_oil)
                eq_refl eq_refl eq_refl) as (_ & H & _).
    destruct H as [_ H]; [vm_compute; reflexivity | exact H].
  - destruct (backup_read_obd_value_number interrupted "speed" 0
                {| Backup.use_simulation := false;
                   Backup.commands := full_catalog |}
                (live_dashboard full_catalog)
                eq_refl eq_refl eq_refl) as (_ & _ & H).
    destruct (H (Cmd "SPEED") ltac:(vm_compute; reflexivity)) as [_ Hint].
    destruct (Hint _ KeyboardInterrupt eq_refl eq_refl eq_refl) as [Hr _].
    rewrite Hr. reflexivity.
Defined.

(** X11. The helper of [get_data.py] has no [try]: it gives what the
    helper of the dashboard gives whenever the query answers, and hands
    on the exception of a query that raises, which the helper of the
    dashboard turns into [None]. *)
Theorem get_data_read_obd_data (connection : OBD.Connection)
    (command : PyCommand) :
  (forall response,
     OBD.query connection command = Ok response ->
     GetData.read_obd_data connection command
     = read_obd_data (Some connection) command) /\
  (forall e,
     OBD.query connection command = Raise e ->
     GetData.read_obd_data connection command = Raise e /\
     read_obd_data (Some connection) command = Ok None) /\
  try_except (GetData.read_obd_data connection command) (fun _ => Ok None)
  = read_obd_data (Some connection) command.
Proof.
  unfold GetData.read_obd_data, read_obd_data.
  destruct (OBD.query connection command) as [response|e]; cbn.
  - split; [|split]; try (intros ? [=]);
      destruct (OBD.is_null response); reflexivity.
  - split; [|split]; try (intros ? [=]); try reflexivity.
    subst. split; reflexivity.
Qed.

(** ** Ticks, in every mode *)

Lemma bind_get_run {S A : Type} (k : S -> M S A) (s : S) :
  bind get k s = k s s.
Proof. reflexivity. Qed.

(** X12. In Simulated mode nothing depends on the adapter: a tick and
    the clearing of the trouble codes give the same outcome and the same
    state for any two connections, and every read gives [None]. *)
Theorem sim_ignores_adapter (c1 c2 : option OBD.Connection) (rnd : Draws)
    (yes : bool) (cmd : string) (default : Q) (s : OBDDashboard) :
  use_sim s = true ->
  _update c1 rnd s = _update c2 rnd s /\
  _clear_dtc c1 yes s = _clear_dtc c2 yes s /\
  _read c1 cmd default s = (Ok VNone, s).
Proof.
  intros Hu. split; [|split].
  - unfold _update. cbv zeta. rewrite !bind_get_run, Hu. reflexivity.
  - unfold _clear_dtc. destruct yes; [|reflexivity].
    rewrite !bind_get_run, Hu. reflexivity.
  - unfold _read. rewrite bind_get_run, Hu. reflexivity.
Qed.

Lemma sim_ignores_adapter_witness :
  _update broken some_draws sim_dashboard
  = _update (ecu 100 12 60) some_draws sim_dashboard.
Proof.
  exact (proj1 (sim_ignores_adapter broken (ecu 100 12 60) some_draws
                  true "speed" 0 sim_dashboard eq_refl)).
Defined.

Lemma hoare_gauge_type_error (id : GaugeId) (v : PyVal) :
  hoare gauges_ok only_type_error (on_gauge id (set_value v))
        (fun _ => True).
Proof.
  intros s Hs. unfold on_gauge.
  destruct (set_value_safe v (gauges s id) (Hs id)) as [Hg _].
  assert (Hr : match fst (set_value v (gauges s id)) with
               | Ok _ => True
               | Raise e => only_type_error e
               end).
  { destruct v as [|q]; [reflexivity|].
    rewrite set_value_run by apply Hs. exact I. }
  destruct (set_value v (gauges s id)) as [res g]. simpl in *.
  split; [|exact Hr].
  intros j. simpl. destruct (GaugeId_eqb id j); [exact Hg | apply Hs].
Qed.

Ltac type_step :=
  lazymatch goal with
  | |- hoare _ _ (need_num _) _ =>
      eapply hoare_weaken;
      [apply hoare_need_num; reflexivity | intros; exact I]
  | |- _ => inv_step hoare_gauge_type_error gauges_ok_frame
  end.

Lemma update_type_error (c : option OBD.Connection) (rnd : Draws) :
  hoare gauges_ok only_type_error (_update c rnd) (fun _ => True).
Proof.
  unfold _update. cbv zeta. repeat type_step.
Qed.

(** X13. On a dashboard whose gauges have sound ranges, the only
    exception a tick can raise, in either mode and whatever the adapter
    answers, is [TypeError]; and after a tick that raised the gauges
    still have sound ranges, so the next tick runs on a sound
    dashboard. *)
Theorem tick_raises_only_type_error (c : option OBD.Connection)
    (rnd : Draws) (s : OBDDashboard) :
  gauges_ok s ->
  gauges_ok (snd (_update c rnd s)) /\
  (forall e, fst (_update c rnd s) = Raise e -> e = TypeError).
Proof.
  intros Hg.
  exact (hoare_run _ _ _ _ s (update_type_error c rnd) Hg).
Qed.

Lemma tick_raises_only_type_error_witness :
  fst (_update broken some_draws (live_dashboard catalog_without_oil))
  = Raise TypeError.
Proof.
  destruct (tick_raises_only_type_error broken some_draws
              (live_dashboard catalog_without_oil)
              (gauges_ok_init false true (ReadJson.Done catalog_without_oil)))
    as [_ H].
  destruct (fst (_update broken some_draws
                   (live_dashboard catalog_without_oil))) as [u|e] eqn:E.
  - vm_compute in E. discriminate E.
  - rewrite (H e eq_refl). reflexivity.
Defined.

(** ** When a Live tick completes *)

Lemma read_live_cases (c : option OBD.Connection) (cmd : string)
    (default : Q) (s : OBDDashboard) :
  use_sim s = false ->
  _read c cmd default s
  = (Ok (if dict_contains (commands s) cmd
         then VNum (live_value c (commands s) cmd default)
         else VNone), s).
Proof.
  intros Hu. destruct (dict_contains (commands s) cmd) eqn:E.
  - apply read_mapped; assumption.
  - apply read_unmapped. unfold dict_contains in E.
    destruct (commands s !! cmd); [discriminate | reflexivity].
Qed.

(** One step of a Live tick in which a name may lack its entry: the
    entry is looked at where the value is used. *)
Ltac live_step :=
  lazymatch goal with
  | |- wp (bind _ _) _ _ => apply wp_bind
  | |- wp (_read _ _ _) _ _ =>
      eapply wp_run; [apply read_live_cases; state_simpl; assumption |]
  | |- wp (on_gauge _ (set_value (if ?b then _ else _))) _ _ =>
      let E := fresh "E" in destruct b eqn:E
  | |- wp (need_num (if ?b then _ else _)) _ _ =>
      let E := fresh "E" in destruct b eqn:E
  | |- wp (if truthy (if ?b then _ else _) then _ else _) _ _ =>
      let E := fresh "E" in destruct b eqn:E; cbn [truthy]
  | |- wp (on_gauge _ (set_value (VNum _))) _ _ =>
      eapply wp_run; [apply on_gauge_set_value; state_simpl; auto |]
  | |- wp (lift (py_truediv _ 100)) _ _ =>
      eapply wp_run; [unfold lift; rewrite py_truediv_100; reflexivity |]
  | |- wp (lift (maf_fraction _ _)) _ _ =>
      eapply wp_run; [unfold lift; rewrite maf_fraction_run; reflexivity |]
  | |- wp (if ?b then _ else _) _ _ =>
      first [ match goal with H : b = _ |- _ => rewrite H end
            | let E := fresh "E" in destruct b eqn:E ]
  | |- wp _ _ _ => eapply wp_run; [reflexivity |]
  end;
  state_simpl.

Ltac core_mapped_here :=
  let cmd := fresh "cmd" in
  let Hin := fresh "Hin" in
  intros cmd Hin; unfold core_names in Hin; simpl in Hin;
  repeat (destruct Hin as [<- | Hin]; [assumption|]);
  contradiction.

Ltac not_core_mapped_here :=
  let Hc := fresh "Hc" in
  intros Hc;
  match goal with
  | E : dict_contains _ ?k = false |- _ =>
      rewrite (Hc k) in E
        by (unfold core_names; repeat (first [left; reflexivity | right]));
      discriminate E
  end.

Lemma live_tick_outcome (c : option OBD.Connection) (rnd : Draws)
    (s : OBDDashboard) :
  use_sim s = false -> gauges_ok s ->
  wp (_update c rnd)
     (fun res _ =>
        (res = Ok tt /\ core_mapped s) \/
        (res = Raise TypeError /\ ~ core_mapped s)) s.
Proof.
  intros Hlive Hg. unfold _update. state_simpl.
  repeat live_step;
    first [ left; split; [reflexivity | unfold mapped in *; core_mapped_here]
          | right; split; [reflexivity | unfold mapped; not_core_mapped_here] ].
Qed.

(** X14. On a Live dashboard whose gauges have sound ranges a tick
    completes exactly when the thirteen names whose values it uses as
    numbers (the twelve metrics shown and the run time) have entries in
    the catalog, and raises [TypeError] otherwise; entries for the
    distance and the time since clear may be missing. *)
Theorem live_tick_completes_iff (c : option OBD.Connection) (rnd : Draws)
    (s : OBDDashboard) :
  use_sim s = false -> gauges_ok s ->
  (fst (_update c rnd s) = Ok tt <-> core_mapped s) /\
  (~ core_mapped s -> fst (_update c rnd s) = Raise TypeError).
Proof.
  intros Hlive Hg.
  pose proof (live_tick_outcome c rnd s Hlive Hg) as H. unfold wp in H.
  destruct H as [[Hok Hm] | [Hr Hn]].
  - split; [split; [intros _; exact Hm | intros _; exact Hok]|].
    intros Hn. contradiction.
  - split; [split; [rewrite Hr; discriminate | contradiction]|].
    intros _. exact Hr.
Qed.

Lemma live_tick_completes_iff_witness :
  fst (_update (ecu 100 12 60) some_draws
         (live_dashboard
            (delete "time_since_dtc_cleared"
               (delete "dist_since_dtc_cleared" full_catalog))))
  = Ok tt.
Proof.
  apply (live_tick_completes_iff (ecu 100 12 60) some_draws
           (live_dashboard
              (delete "time_since_dtc_cleared"
                 (delete "dist_since_dtc_cleared" full_catalog)))
           eq_refl (gauges_ok_init false true _)).
  intros cmd Hin. unfold core_names in Hin. simpl in Hin.
  repeat (destruct Hin as [<- | Hin]; [vm_compute; reflexivity|]).
  contradiction.
Defined.

(** ** Live reads *)

Lemma live_value_unmapped (c : option OBD.Connection)
    (catalog : gmap string PyCommand) (cmd : string) (default : Q) :
  dict_contains catalog cmd = false ->
  live_value c catalog cmd default = default.
Proof.
  unfold dict_contains, live_value.
  destruct (catalog !! cmd); [discriminate | reflexivity].
Qed.

Ltac core_contradiction Hm :=
  match goal with
  | E : dict_contains _ ?k = false |- _ =>
      rewrite (Hm k) in E
        by (unfold core_names; repeat (first [left; reflexivity | right]));
      discriminate E
  end.

(** A Live tick in which the names used as numbers have entries runs to
    its end. *)
Lemma live_tick_spec_core (c : option OBD.Connection) (rnd : Draws)
    (s : OBDDashboard) :
  use_sim s = false -> gauges_ok s -> core_mapped s ->
  wp (_update c rnd)
     (fun res s' => res = Ok tt /\ live_tick_post c rnd s s') s.
Proof.
  intros Hlive Hg Hm. unfold core_mapped, mapped in Hm.
  unfold _update. state_simpl.
  repeat live_step;
    try core_contradiction Hm;
    (split; [reflexivity|]);
    unfold live_tick_post, overwritten_if_positive; state_simpl;
    repeat match goal with
           | H : dict_contains _ _ = false |- _ =>
               rewrite (live_value_unmapped _ _ _ _ H); clear H
           end;
    repeat match goal with
           | H : negb (Qeq_bool ?q 0) = false |- _ =>
               apply (truthy_false q) in H
           end;
    repeat match goal with
           | H : py_gt _ _ = _ |- _ => rewrite H
           end;
    repeat split; try reflexivity; try assumption;
    intros id; destruct id; reflexivity.
Qed.

Lemma all_mapped_core (s : OBDDashboard) : all_mapped s -> core_mapped s.
Proof.
  intros Hm cmd Hin. unfold core_names in Hin. simpl in Hin.
  repeat (destruct Hin as [<- | Hin];
          [eapply Hm; unfold live_reads;
           repeat (first [left; reflexivity | right])|]).
  contradiction.
Qed.

(** C3, as the code has it.  In Live mode, for every metric whose command
    name has an entry in the catalog, whatever entries the other names
    have, a read whose query gives nothing (no connection, an exception,
    a null response) returns the default passed by the caller, raises
    nothing and leaves the dashboard as it was.  A tick in which the
    names whose values are used as numbers have entries completes, and
    what it shows is computed from the numbers read with these defaults:
    0 for speed, rpm, throttle, engine load, timing advance, run time,
    distance and time since clear; 80 for the coolant, 25 for the intake
    and 90 for the oil temperature; 300 for the fuel pressure, 5 for the
    fuel rate, 10 for the MAF and 255 for its maximum. *)
Theorem live_read_defaults (c : option OBD.Connection) (rnd : Draws)
    (s : OBDDashboard) :
  use_sim s = false ->
  (forall cmd default command,
     commands s !! cmd = Some command -> query_fails c command ->
     _read c cmd default s = (Ok (VNum default), s) /\
     live_value c (commands s) cmd default = default) /\
  (gauges_ok s -> core_mapped s ->
   fst (_update c rnd s) = Ok tt /\
   live_tick_post c rnd s (snd (_update c rnd s)) /\
   ((forall command, query_fails c command) ->
    runtime (snd (_update c rnd s)) = runtime s /\
    dist_dtc (snd (_update c rnd s)) = dist_dtc s /\
    time_dtc (snd (_update c rnd s)) = time_dtc s /\
    (forall id,
       gauges (snd (_update c rnd s)) id =
       gauge_after
         match id with
         | speed | rpm | throttle => 0
         | coolant => 80
         | intake_t => 25
         | oil => 90
         | fuel_p => 300
         | fuel_r => 5
         | intake_p => inject_Z (rnd_ip rnd)
         end
         (gauges s id)) /\
    load_lbl (labels (snd (_update c rnd s))) = 0%Z /\
    timing (labels (snd (_update c rnd s))) = 0 /\
    maf_lbl (labels (snd (_update c rnd s))) = 10 /\
    max_maf (labels (snd (_update c rnd s))) = 255)).
Proof.
  intros Hu.
  assert (Hdef : forall cmd default,
            (forall command, commands s !! cmd = Some command ->
                             query_fails c command) ->
            live_value c (commands s) cmd default = default)
    by (intros; apply live_value_fails; assumption).
  split.
  - intros cmd default command Hcmd Hf.
    assert (Hv : live_value c (commands s) cmd default = default).
    { apply Hdef. intros command' Hc'. congruence. }
    split; [|exact Hv].
    rewrite read_mapped;
      [| exact Hu | unfold mapped, dict_contains; rewrite Hcmd; reflexivity].
    rewrite Hv. reflexivity.
  - intros Hg Hm.
    destruct (live_tick_spec_core c rnd s Hu Hg Hm) as [Hok Hpost].
    split; [exact Hok|]. split; [exact Hpost|].
    intros Hall.
    destruct Hpost as (_ & _ & Hr & Hd & Ht & Hgauges & Hl).
    rewrite Hr, Hd, Ht, Hl. unfold overwritten_if_positive.
    rewrite !Hdef by (intros; apply Hall).
    repeat split; try reflexivity.
    intros id. rewrite Hgauges.
    destruct id; rewrite ?Hdef by (intros; apply Hall); reflexivity.
Qed.

Lemma live_read_defaults_witness :
  let s := live_dashboard catalog_without_oil in
  _read broken "coolant_temp" 80 s = (Ok (VNum 80), s) /\
  (let s := live_dashboard full_catalog in
   value (gauges (snd (_update broken some_draws s)) coolant) = 80 /\
   value (gauges (snd (_update broken some_draws s)) fuel_p) = 300 /\
   max_maf (labels (snd (_update broken some_draws s))) = 255).
Proof.
  intros s. split.
  - destruct (live_read_defaults broken some_draws s eq_refl) as (Hread & _).
    apply (Hread "coolant_temp" 80 (Cmd "COOLANT_TEMP"));
      [vm_compute; reflexivity | exact I].
  - intros s'.
    assert (Hg : gauges_ok s') by apply gauges_ok_init.
    assert (Hm : core_mapped s')
      by (apply all_mapped_core, all_mapped_full; reflexivity).
    destruct (live_read_defaults broken some_draws s' eq_refl)
      as (_ & Htick).
    destruct (Htick Hg Hm) as (_ & _ & Hall).
    destruct Hall as (_ & _ & _ & Hgauges & _ & _ & _ & Hmax);
      [intros command; exact I|].
    rewrite !Hgauges.
    split; [|split; [|exact Hmax]]; vm_compute; reflexivity.
Defined.

(** C3 fails as stated: with a catalog that has no entry for the oil
    temperature, the Live read of ['oil_temp'] gives [None] and not the
    default 90, and the tick raises [TypeError] when the oil gauge is
    set. *)
Lemma live_read_unmapped_counterexample :
  let s := live_dashboard catalog_without_oil in
  use_sim s = false /\
  fst (_read broken "oil_temp" 90 s) = Ok VNone /\
  fst (_read broken "oil_temp" 90 s) <> Ok (VNum 90) /\
  fst (_update broken some_draws s) = Raise TypeError.
Proof.
  vm_compute. repeat split; try reflexivity. discriminate.
Qed.


(** ** What the gauges of a dashboard show *)

Lemma gauge_ok_after (id : GaugeId) (v : PyVal) (g : GaugeWidget) :
  render_ok g ->
  min_val g = fst (gauge_range id) -> max_val g = snd (gauge_range id) ->
  fst (gauge_range id) <= value g <= snd (gauge_range id) ->
  render_ok (snd (set_value v g)) /\
  min_val (snd (set_value v g)) = fst (gauge_range id) /\
  max_val (snd (set_value v g)) = snd (gauge_range id) /\
  fst (gauge_range id) <= value (snd (set_value v g))
  <= snd (gauge_range id).
Proof.
  intros Hr Hmin Hmax Hv. destruct v as [|q].
  - split; [exact Hr|]. split; [exact Hmin|]. split; [exact Hmax|].
    exact Hv.
  - fold (gauge_after q g).
    destruct (gauge_after_sound g q Hr) as (Hr' & _ & Hv' & _).
    split; [exact Hr'|].
    assert (E : min_val (gauge_after q g) = min_val g /\
                max_val (gauge_after q g) = max_val g).
    { unfold gauge_after. rewrite set_value_run by apply Hr.
      destruct (must_redraw g (clamp g q)); split; reflexivity. }
    destruct E as [-> ->]. rewrite <- Hmin, <- Hmax.
    split; [reflexivity|]. split; [reflexivity | exact Hv'].
Qed.

Lemma hoare_gauge_dashboard_ok (id : GaugeId) (v : PyVal) :
  hoare dashboard_ok any_exception (on_gauge id (set_value v))
        (fun _ => True).
Proof.
  intros s Hs. unfold on_gauge.
  destruct (Hs id) as (Hr & Hmin & Hmax & Hv).
  pose proof (gauge_ok_after id v (gauges s id) Hr Hmin Hmax Hv) as Hafter.
  destruct (set_value v (gauges s id)) as [res g]. simpl in *. split.
  - intros j. simpl.
    destruct id, j; simpl; first [exact Hafter | apply Hs].
  - destruct res; exact I.
Qed.

Lemma dashboard_ok_frame (f : OBDDashboard -> OBDDashboard) :
  (forall s, gauges (f s) = gauges s) ->
  forall s, dashboard_ok s -> dashboard_ok (f s).
Proof. intros H s Hs id. rewrite H. apply Hs. Qed.

Lemma update_dashboard_ok (c : option OBD.Connection) (rnd : Draws) :
  hoare dashboard_ok any_exception (_update c rnd) (fun _ => True).
Proof.
  unfold _update. cbv zeta.
  repeat inv_step hoare_gauge_dashboard_ok dashboard_ok_frame.
Qed.

Lemma dashboard_ok_init (use_sim connected : bool)
    (load_commands : ReadJson.Loaded (gmap string PyCommand)) :
  dashboard_ok (OBDDashboard_init use_sim connected load_commands).
Proof.
  intros id. unfold OBDDashboard_init.
  destruct (if negb use_sim then _ else _) as [u cat].
  cbn [gauges]. unfold GaugeWidget_init.
  destruct id; cbn [gauge_range fst snd];
    (rewrite draw_ok; [|reflexivity]);
    (split; [split; [reflexivity | exact I]|]);
    cbn; repeat split; lra.
Qed.

Lemma dashboard_ok_gauges_ok (s : OBDDashboard) :
  dashboard_ok s -> gauges_ok s.
Proof. intros H id. apply (H id). Qed.

(** X15. Whatever the timer, the adapter and the user do to a dashboard,
    in either mode and also after ticks that raised, every gauge keeps
    the range it was created with, shows a value within that range, and
    once a value was set shows the value last drawn. *)
Theorem dashboard_gauges_stay_sound (use_sim connected : bool)
    (load_commands : ReadJson.Loaded (gmap string PyCommand))
    (acts : list Action) :
  dashboard_ok (run acts (OBDDashboard_init use_sim connected
                                            load_commands)).
Proof.
  assert (H : forall s, dashboard_ok s -> dashboard_ok (run acts s)).
  { induction acts as [|a acts IH]; intros s Hs; [exact Hs|].
    simpl. apply IH. destruct a as [c rnd | c yes]; simpl.
    - exact (proj1 (hoare_run _ _ _ _ s (update_dashboard_ok c rnd) Hs)).
    - rewrite clear_dtc_run. destruct yes; exact Hs. }
  apply H, dashboard_ok_init.
Qed.

Lemma sim_tick_load_bar (c : option OBD.Connection) (rnd : Draws)
    (s : OBDDashboard) :
  use_sim s = true -> gauges_ok s ->
  wp (_update c rnd)
     (fun _ s' => load_bar (labels s') = inject_Z (rnd_ld rnd) / 100) s.
Proof.
  intros Hsim Hg. unfold _update. state_simpl.
  repeat run_step. reflexivity.
Qed.

Lemma sim_value_in_range (rnd : Draws) (id : GaugeId) :
  draws_ok rnd ->
  fst (gauge_range id) <= sim_value rnd id <= snd (gauge_range id).
Proof.
  unfold draws_ok.
  intros ([Hs0 Hs1] & [Hr0 Hr1] & [Ht0 Ht1] & _ & _ & [Hc0 Hc1]
          & [Hi0 Hi1] & [Ho0 Ho1] & [Hp0 Hp1] & Hfr & [Hip0 Hip1] & _).
  rewrite Zle_Qle in Hs0, Hs1, Hr0, Hr1, Ht0, Ht1, Hc0, Hc1, Hi0, Hi1,
    Ho0, Ho1, Hp0, Hp1, Hip0, Hip1.
  unfold inject_Z in *.
  destruct id; cbn [gauge_range sim_value fst snd]; unfold inject_Z; lra.
Qed.

(** X16. In Simulated mode with draws within the bounds of the
    generator, no number set on a gauge is clamped, each gauge shows a
    value within 0.5 of the number drawn for it, the load bar shows a
    fraction between 0.1 and 0.95 and the MAF bar a fraction strictly
    between 0 and 1. *)
Theorem sim_tick_shows_draws (c : option OBD.Connection) (rnd : Draws)
    (s : OBDDashboard) :
  use_sim s = true -> dashboard_ok s -> draws_ok rnd ->
  fst (_update c rnd s) = Ok tt /\
  (forall id,
     clamp (gauges s id) (sim_value rnd id) == sim_value rnd id /\
     Qabs (value (gauges (snd (_update c rnd s)) id) - sim_value rnd id)
     <= 1#2) /\
  1#10 <= load_bar (labels (snd (_update c rnd s))) <= 95#100 /\
  0 < maf_bar (labels (snd (_update c rnd s))) < 1.
Proof.
  intros Hu Hs Hd.
  pose proof (dashboard_ok_gauges_ok s Hs) as Hg.
  destruct (sim_tick_run c rnd s Hu Hg)
    as (Hok & _ & _ & _ & _ & _ & Hgauges & Hmaf).
  pose proof (sim_tick_load_bar c rnd s Hu Hg) as Hload. unfold wp in Hload.
  split; [exact Hok|]. split; [|split].
  - intros id. destruct (Hs id) as (Hr & Hmin & Hmax & _).
    pose proof (sim_value_in_range rnd id Hd) as Hin.
    assert (Hc : clamp (gauges s id) (sim_value rnd id)
                 == sim_value rnd id)
      by (apply clamp_inside; rewrite Hmin, Hmax; exact Hin).
    split; [exact Hc|].
    pose proof (Hgauges id) as Hgid.
    change (gauges (snd (_update c rnd s)) id
            = gauge_after (sim_value rnd id) (gauges s id)) in Hgid.
    rewrite Hgid.
    pose proof (gauge_after_sound (gauges s id) (sim_value rnd id) Hr)
      as (_ & _ & _ & Hlag).
    apply Qabs_Qle_condition in Hlag. apply Qabs_Qle_condition. lra.
  - rewrite Hload. destruct Hd as (_ & _ & _ & [Hl0 Hl1] & _).
    rewrite Zle_Qle in Hl0, Hl1. unfold inject_Z in *.
    split; [apply Qle_shift_div_l | apply Qle_shift_div_r]; lra.
  - rewrite Hmaf. destruct Hd as (_ & _ & _ & _ & _ & _ & _ & _ & _ & _
                                  & _ & Hm & _).
    split; [apply Qlt_shift_div_l | apply Qlt_shift_div_r]; lra.
Qed.

Lemma sim_tick_shows_draws_witness :
  Qabs (value (gauges (snd (_update None some_draws sim_dashboard)) rpm)
        - 3000) <= 1#2.
Proof.
  destruct (sim_tick_shows_draws None some_draws sim_dashboard)
    as (_ & H & _).
  - reflexivity.
  - apply dashboard_ok_init.
  - unfold draws_ok, some_draws. simpl. repeat split; (lia || lra).
  - exact (proj2 (H rpm)).
Defined.

(** ** The command catalog *)

Lemma load_items_done (known : string -> bool)
    (items : list (string * string)) (acc cat : gmap string PyCommand) :
  NoDup items.*1 ->
  ReadJson.load_items known items acc = ReadJson.Done cat ->
  Forall (fun item => known item.2 = true) items /\
  forall k,
    cat !! k = match (list_to_map items : gmap string string) !! k with
               | Some n => Some (Cmd n)
               | None => acc !! k
               end.
Proof.
  revert acc. induction items as [|[k0 n0] rest IH]; intros acc Hnd Hload.
  - simpl in Hload. injection Hload as <-.
    split; [exact (List.Forall_nil _)|].
    intros k. simpl. rewrite lookup_empty. reflexivity.
  - simpl in Hload, Hnd. apply NoDup_cons in Hnd as [Hk0 Hnd].
    unfold ReadJson.getattr in Hload.
    destruct (known n0) eqn:Hn0; [|discriminate].
    destruct (IH _ Hnd Hload) as [Hall Hlook].
    split; [apply List.Forall_cons; [exact Hn0 | exact Hall]|].
    intros k. rewrite Hlook. simpl.
    destruct (decide (k = k0)) as [-> | Hne].
    + rewrite (not_elem_of_list_to_map_1 _ _ Hk0).
      rewrite !lookup_insert_eq. reflexivity.
    + rewrite !lookup_insert_ne by congruence. reflexivity.
Qed.

Lemma load_items_all_known (known : string -> bool)
    (items : list (string * string)) (acc : gmap string PyCommand) :
  Forall (fun item => known item.2 = true) items ->
  exists cat, ReadJson.load_items known items acc = ReadJson.Done cat.
Proof.
  intros H. revert acc. induction H as [|[k0 n0] rest Hn0 _ IH]; intros acc.
  - eexists. reflexivity.
  - simpl in *. unfold ReadJson.getattr. rewrite Hn0. apply IH.
Qed.

Lemma load_items_unknown (known : string -> bool)
    (items : list (string * string)) (acc : gmap string PyCommand) :
  Exists (fun item => known item.2 = false) items ->
  ReadJson.load_items known items acc = ReadJson.Failed ReadJson.AttributeError.
Proof.
  revert acc. induction items as [|[k0 n0] rest IH]; intros acc H.
  - inversion H.
  - simpl. unfold ReadJson.getattr.
    destruct (known n0) eqn:Hn0; [|reflexivity].
    apply IH. inversion H as [? ? Hh | ? ? Ht]; subst; [|exact Ht].
    simpl in Hh. congruence.
Qed.

Lemma load_commands_done (known : string -> bool)
    (commands_map : gmap string string) (cat : gmap string PyCommand) :
  ReadJson.load_commands known (ReadJson.Done commands_map)
  = ReadJson.Done cat ->
  cat = Cmd <$> commands_map /\
  forall k n, commands_map !! k = Some n -> known n = true.
Proof.
  unfold ReadJson.load_commands. intros H.
  destruct (load_items_done known _ ∅ cat
              (NoDup_fst_map_to_list commands_map) H) as [Hall Hlook].
  split.
  - apply map_eq. intros k. rewrite Hlook, list_to_map_to_list.
    rewrite lookup_fmap, lookup_empty.
    destruct (commands_map !! k); reflexivity.
  - intros k n Hk. rewrite Forall_forall in Hall.
    apply (Hall (k, n)). apply elem_of_map_to_list. exact Hk.
Qed.

(** X17. [load_commands] fails when the file cannot be read.  Otherwise
    it succeeds exactly when [obd.commands] has every command named in
    the file, and fails with [AttributeError] as soon as one is missing.
    The catalog it returns maps each name of the file, and no other, to
    the command the file names for it; [get_command] for a name returns
    what is stored under that name in the loaded catalog, and [None] for
    a name that is not in the file. *)
Theorem load_commands_catalog (known : string -> bool) :
  (forall e,
     ReadJson.load_commands known (ReadJson.Failed e) = ReadJson.Failed e) /\
  (forall commands_map,
     (forall k n, commands_map !! k = Some n -> known n = true) ->
     ReadJson.load_commands known (ReadJson.Done commands_map)
     = ReadJson.Done (Cmd <$> commands_map)) /\
  (forall commands_map k n,
     commands_map !! k = Some n -> known n = false ->
     ReadJson.load_commands known (ReadJson.Done commands_map)
     = ReadJson.Failed ReadJson.AttributeError) /\
  (forall commands_map cat k,
     ReadJson.load_commands known (ReadJson.Done commands_map)
     = ReadJson.Done cat ->
     cat !! k = Cmd <$> commands_map !! k /\
     ReadJson.get_command known (ReadJson.Done commands_map) k
     = ReadJson.Done (cat !! k)).
Proof.
  split; [reflexivity|]. split; [|split].
  - intros cm Hall.
    destruct (load_items_all_known known (map_to_list cm) ∅) as [cat Hcat].
    { rewrite Forall_forall. intros [k n] Hin.
      apply elem_of_map_to_list in Hin. exact (Hall k n Hin). }
    change (ReadJson.load_commands known (ReadJson.Done cm)
            = ReadJson.Done cat) in Hcat.
    rewrite Hcat. f_equal. exact (proj1 (load_commands_done _ _ _ Hcat)).
  - intros cm k n Hk Hn. unfold ReadJson.load_commands.
    apply load_items_unknown. rewrite Exists_exists.
    exists (k, n). split; [apply elem_of_map_to_list; exact Hk | exact Hn].
  - intros cm cat k Hcat.
    destruct (load_commands_done _ _ _ Hcat) as [-> Hall].
    rewrite lookup_fmap. split; [reflexivity|].
    unfold ReadJson.get_command, ReadJson.getattr.
    destruct (cm !! k) as [n|] eqn:Hk; [|reflexivity].
    rewrite (Hall k n Hk). reflexivity.
Qed.

(** ** Start of the program *)

Lemma use_sim_of_argv_false (argv : list string) :
  use_sim_of_argv argv = false <-> In "--real" argv.
Proof.
  unfold use_sim_of_argv. rewrite negb_false_iff, existsb_exists. split.
  - intros (x & Hin & Hx). apply String.eqb_eq in Hx. subst. exact Hin.
  - intros Hin. exists "--real". split; [exact Hin | apply String.eqb_refl].
Qed.

(** X18. The dashboard runs in Live mode exactly when [--real] is among
    the arguments, the adapter is connected, the catalog file can be
    read and [obd.commands] has every command it names; its catalog is
    then the one of the file.  In every other case it runs in Simulated
    mode with an empty catalog.  In both cases the three accumulators
    start at 0. *)
Theorem start_mode (argv : list string) (connected : bool)
    (known : string -> bool) (file : ReadJson.Loaded (gmap string string)) :
  (use_sim (start argv connected known file) = false <->
   In "--real" argv /\ connected = true /\
   exists commands_map,
     file = ReadJson.Done commands_map /\
     forall k n, commands_map !! k = Some n -> known n = true) /\
  (forall commands_map,
     use_sim (start argv connected known file) = false ->
     file = ReadJson.Done commands_map ->
     commands (start argv connected known file) = Cmd <$> commands_map) /\
  (use_sim (start argv connected known file) = true ->
   commands (start argv connected known file) = ∅) /\
  runtime (start argv connected known file) = 0 /\
  dist_dtc (start argv connected known file) = 0 /\
  time_dtc (start argv connected known file) = 0.
Proof.
  unfold start, OBDDashboard_init.
  destruct (use_sim_of_argv argv) eqn:Ha; cbn [negb].
  - cbn. split; [|split; [|split; [reflexivity | repeat split]]].
    + split; [discriminate|]. intros (Hin & _).
      apply use_sim_of_argv_false in Hin. congruence.
    + discriminate.
  - apply use_sim_of_argv_false in Ha.
    destruct connected.
    + destruct file as [cm | e]; cbn [ReadJson.load_commands].
      * destruct (ReadJson.load_items known (map_to_list cm) ∅)
          as [cat | e] eqn:Hload; cbn.
        -- change (ReadJson.load_commands known (ReadJson.Done cm)
                   = ReadJson.Done cat) in Hload.
           destruct (load_commands_done _ _ _ Hload) as [-> Hall].
           split; [|split; [|split; [discriminate | repeat split]]].
           ++ split; [|reflexivity]. intros _.
              split; [exact Ha|]. split; [reflexivity|].
              exists cm. split; [reflexivity | exact Hall].
           ++ intros cm' _ [= <-]. reflexivity.
        -- split; [|split; [|split; [reflexivity | repeat split]]].
           ++ split; [discriminate|].
              intros (_ & _ & cm' & [= <-] & Hall).
              destruct (load_items_all_known known (map_to_list cm) ∅)
                as [cat Hcat]; [|congruence].
              rewrite Forall_forall. intros [k n] Hin.
              apply elem_of_map_to_list in Hin. exact (Hall k n Hin).
           ++ discriminate.
      * cbn. split; [|split; [|split; [reflexivity | repeat split]]].
        -- split; [discriminate|]. intros (_ & _ & cm & Hf & _).
           discriminate Hf.
        -- discriminate.
    + cbn. split; [|split; [|split; [reflexivity | repeat split]]].
      * split; [discriminate|]. intros (_ & Hc & _). discriminate Hc.
      * discriminate.
Qed.

(** ** Clearing the trouble codes in the PyQt5 dashboard *)

(** X19. In Live mode a confirmed clearing in the PyQt5 dashboard never
    changes the run time and never raises an exception of class
    [Exception].  Without an entry for ['clear_dtc'] in the catalog the
    [KeyError] is handled and the distance and the time since clear keep
    their values.  With an entry, both are set to 0 when the clear query
    raises no exception that is not of class [Exception]: without a
    connection, after an error of the adapter, for a null response and
    for a value.  An exception that is not of class [Exception] passes
    both handlers and escapes with nothing reset. *)
Theorem qt_clear_needs_catalog_entry (c : option OBD.Connection)
    (s : QtGui.OBDDashboard) :
  QtGui.use_simulation s = false ->
  QtGui.runtime_seconds (snd (QtGui._clear_dtc_codes c true s))
  = QtGui.runtime_seconds s /\
  (forall e, fst (QtGui._clear_dtc_codes c true s) = Raise e ->
             is_Exception e = false) /\
  (QtGui.commands s !! "clear_dtc" = None ->
   QtGui._clear_dtc_codes c true s = (Ok tt, s)) /\
  (forall command,
     QtGui.commands s !! "clear_dtc" = Some command ->
     (raises_only_Exception c command ->
      fst (QtGui._clear_dtc_codes c true s) = Ok tt /\
      QtGui.distance_since_clear (snd (QtGui._clear_dtc_codes c true s))
      = 0 /\
      QtGui.time_since_clear (snd (QtGui._clear_dtc_codes c true s)) = 0) /\
     (forall conn e,
        c = Some conn -> OBD.query conn command = Raise e ->
        is_Exception e = false ->
        QtGui._clear_dtc_codes c true s = (Raise e, s))).
Proof.
  intros Hu. split; [apply qt_clear_dtc_codes_runtime|].
  rewrite qt_clear_dtc_codes_run by exact Hu.
  destruct (QtGui.commands s !! "clear_dtc") as [command|].
  - split; [|split; [discriminate|]].
    + intros e.
      destruct (QtGui.read_obd_data c command) as [v|e'] eqn:E;
        [discriminate|].
      intros [= <-]. exact (proj1 (qt_read_obd_data_raises _ _ _ E)).
    + intros command' [= <-]. split.
      * intros Hexc.
        destruct (qt_read_obd_data_returns _ _ Hexc) as [v ->].
        repeat split; reflexivity.
      * intros conn e -> Hq He.
        rewrite qt_read_obd_data_run. cbv iota. rewrite Hq. cbv iota.
        rewrite He. reflexivity.
  - split; [discriminate|]. split; [reflexivity|]. discriminate.
Qed.

Lemma qt_clear_needs_catalog_entry_witness :
  QtGui.distance_since_clear
    (snd (QtGui._clear_dtc_codes broken true
            (qt_scenario catalog_without_clear)))
  = 423#10 /\
  QtGui.distance_since_clear
    (snd (QtGui._clear_dtc_codes broken true (qt_scenario full_catalog)))
  = 0 /\
  fst (QtGui._clear_dtc_codes interrupted true (qt_scenario full_catalog))
  = Raise KeyboardInterrupt.
Proof.
  split; [|split].
  - destruct (qt_clear_needs_catalog_entry broken
                (qt_scenario catalog_without_clear) eq_refl)
      as (_ & _ & H & _).
    rewrite H by (vm_compute; reflexivity). reflexivity.
  - destruct (qt_clear_needs_catalog_entry broken
                (qt_scenario full_catalog) eq_refl)
      as (_ & _ & _ & H).
    destruct (H (Cmd "CLEAR_DTC") ltac:(vm_compute; reflexivity))
      as [Hreset _].
    exact (proj1 (proj2 (Hreset eq_refl))).
  - destruct (qt_clear_needs_catalog_entry interrupted
                (qt_scenario full_catalog) eq_refl)
      as (_ & _ & _ & H).
    destruct (H (Cmd "CLEAR_DTC") ltac:(vm_compute; reflexivity))
      as [_ Hint].
    rewrite (Hint _ KeyboardInterrupt eq_refl eq_refl eq_refl).
    reflexivity.
Defined.

(** ** The gauge as it is created *)

(** X20. [GaugeWidget.__init__] draws the value 0 without clamping it.
    With [min < max] the first render lies on the arc exactly when 0 is
    in the range of the gauge; with [min = max] the first [draw] raises
    [ZeroDivisionError] and nothing is rendered. *)
Theorem gauge_init_render (lo hi : Q) :
  (lo < hi ->
   exists geo,
     fst (GaugeWidget_init lo hi) = Ok tt /\
     canvas (snd (GaugeWidget_init lo hi)) = [geo] /\
     (on_arc geo <-> lo <= 0 <= hi)) /\
  (lo == hi ->
   fst (GaugeWidget_init lo hi) = Raise ZeroDivisionError /\
   canvas (snd (GaugeWidget_init lo hi)) = []).
Proof.
  split.
  - intros H. unfold GaugeWidget_init. rewrite draw_ok by exact H.
    eexists. split; [reflexivity|]. split; [reflexivity|].
    unfold on_arc, render, _draw_needle, ratio_of.
    cbn [extent needle value min_val max_val].
    set (ratio := (0 - lo) / (hi - lo)).
    assert (E : ratio * (hi - lo) == 0 - lo) by (unfold ratio; field; lra).
    split.
    + intros [[H1 H2] _].
      assert (0 <= ratio <= 1) by lra. nra.
    + intros [H1 H2].
      assert (0 <= ratio <= 1).
      { unfold ratio. split;
          [apply Qle_shift_div_l | apply Qle_shift_div_r]; lra. }
      lra.
  - intros H. unfold GaugeWidget_init, draw, bind, get, lift, py_truediv.
    cbn [value min_val max_val].
    assert (E : Qeq_bool (hi - lo) 0 = true) by (apply Qeq_bool_iff; lra).
    rewrite E. split; reflexivity.
Qed.

Lemma gauge_init_render_witness :
  exists geo,
    canvas (snd (GaugeWidget_init 10 20)) = [geo] /\ ~ on_arc geo.
Proof.
  destruct (gauge_init_render 10 20) as [H _].
  destruct (H ltac:(reflexivity)) as (geo & _ & Hc & Harc).
  exists geo. split; [exact Hc|].
  intros Hon. apply Harc in Hon. lra.
Defined.

(** ** The active arc at the ends of the range *)

(** C8. For every gauge with [min < max]: in [dashboard.py], [draw] at
    the minimum gives an active arc of extent 0 and at the maximum an
    extent of -270 degrees (the full sweep, clockwise), and [set_value]
    of the minimum or of the maximum on a gauge that has drawn no value
    yet draws these renders.  In [obd_dashboard_gui.py], [paintEvent] at
    the minimum gives an active span of 0 and at the maximum a span of
    +270 degrees, handed to [drawArc] as 4320 sixteenths of a degree:
    the full sweep, but with the positive sign that [drawArc] draws
    counter-clockwise, while the scale marks and the needle of the same
    gauge turn clockwise from 225 degrees. *)
Theorem active_arc_at_ends (g : GaugeWidget) (q : QtGui.GaugeWidget) :
  spec_ok g -> QtGui.min_value q < QtGui.max_value q ->
  (draw g = (Ok tt, with_render g) /\
   (value g == min_val g -> extent (render g) == 0) /\
   (value g == max_val g -> extent (render g) == -270) /\
   (_last_drawn_value g = None ->
    (exists geo, canvas (gauge_after (min_val g) g) = geo :: canvas g /\
                 extent geo == 0) /\
    (exists geo, canvas (gauge_after (max_val g) g) = geo :: canvas g /\
                 extent geo == -270))) /\
  exists p,
    QtGui.paintEvent q = Ok p /\
    (QtGui.current_value q == QtGui.min_value q ->
     QtGui.active_span p == 0 /\ QtGui.arc_sixteenths p = 0%Z /\
     QtGui.needle_angle p == 225) /\
    (QtGui.current_value q == QtGui.max_value q ->
     QtGui.active_span p == 270 /\ QtGui.arc_sixteenths p = 4320%Z /\
     QtGui.needle_angle p == 225 - 270).
Proof.
  intros Hg Hq. split; [exact (draw_extent_ends g Hg)|].
  destruct (qt_paint_span_at_ends q Hq) as (p & Hp & Hmin & Hmax).
  exists p. split; [exact Hp|].
  assert (Hsix : QtGui.arc_sixteenths p = py_int (QtGui.active_span p * 16)).
  { unfold QtGui.paintEvent in Hp. rewrite py_truediv_ok in Hp by lra.
    injection Hp as <-. reflexivity. }
  assert (Hneedle : QtGui.needle_angle p == 225 - QtGui.active_span p).
  { unfold QtGui.paintEvent in Hp. rewrite py_truediv_ok in Hp by lra.
    injection Hp as <-. reflexivity. }
  split; intros Hv.
  - specialize (Hmin Hv). split; [exact Hmin|].
    split; [|rewrite Hneedle, Hmin; reflexivity].
    rewrite Hsix. apply (py_int_proper _ (0 * 16)). rewrite Hmin.
    reflexivity.
  - specialize (Hmax Hv). split; [exact Hmax|].
    split; [|rewrite Hneedle, Hmax; reflexivity].
    rewrite Hsix. apply (py_int_proper _ (270 * 16)). rewrite Hmax.
    reflexivity.
Qed.

Lemma active_arc_at_ends_witness :
  extent (render (gauge_after 8000 (snd (GaugeWidget_init 0 8000)))) == -270
  /\
  exists p,
    QtGui.paintEvent {| QtGui.min_value := 0; QtGui.max_value := 8000;
                        QtGui.current_value := 8000;
                        QtGui.update_requests := 1 |} = Ok p /\
    QtGui.active_span p == 270 /\ QtGui.arc_sixteenths p = 4320%Z.
Proof.
  assert (H : spec_ok (gauge_after 8000 (snd (GaugeWidget_init 0 8000))))
    by (vm_compute; reflexivity).
  destruct (active_arc_at_ends
              (gauge_after 8000 (snd (GaugeWidget_init 0 8000)))
              {| QtGui.min_value := 0; QtGui.max_value := 8000;
                 QtGui.current_value := 8000;
                 QtGui.update_requests := 1 |} H ltac:(reflexivity))
    as ((_ & _ & Hmax & _) & p & Hp & _ & Hqt).
  split; [apply Hmax; vm_compute; reflexivity|].
  exists p. split; [exact Hp|].
  destruct Hqt as (Hspan & Hsix & _); [vm_compute; reflexivity|].
  split; [exact Hspan | exact Hsix].
Defined.
